(** * Roostoo trading bot: strategy selection and risk-sized execution

    A shallow embedding of [src/trading_bot.py]: the [AutonomousStrategy]
    class (per-coin state, the five strategy functions, the adaptive
    selector), the risk sizer and the [SimulationBot] ledger.

    Modelling conventions.
    - Python floats are exact rationals ([Q]); [math.floor] is [Qfloor].
      Rounding, infinities and NaN are outside the model.  Numeric results
      are compared with [==] ([Qeq]).
    - Python dictionaries keyed by coin are [gmap string _]; the
      per-strategy dictionaries keep their insertion order and are
      association lists.
    - Methods run in a state-and-exception monad: an exception leaves the
      mutations made before it in place, as in Python.
    - [numpy.std], the TA-Lib indicator routines and the [random] module
      are external: the first two are parameters of the model, the third
      is an explicit stream of draws carried in the state. *)

From Stdlib Require Import QArith Qround Qpower Lqa Lia ZArith.
From stdpp Require Import gmap strings list fin_maps.

Open Scope Q_scope.

(** ** Configuration constants *)

Definition POSITION_SIZE_PCT : Q := 0.05.
Definition MAX_PORTFOLIO_RISK : Q := 0.5.
Definition BUYING_COMMISSION : Q := 0.001.
Definition SELLING_COMMISSION : Q := 0.001.
Definition MAX_OPEN_TRADES : nat := 5.

Definition RSI_PERIOD : nat := 10.
Definition RSI_OVERBOUGHT : Q := 70.
Definition RSI_OVERSOLD : Q := 30.
Definition MACD_SLOW : nat := 21.
Definition BBANDS_PERIOD : nat := 15.
Definition STOCH_K : nat := 10.

(** [max(RSI_PERIOD, MACD_SLOW, BBANDS_PERIOD, STOCH_K)] *)
Definition MAX_LOOKBACK : nat :=
  Nat.max (Nat.max (Nat.max RSI_PERIOD MACD_SLOW) BBANDS_PERIOD) STOCH_K.

(** ** Python numerics *)

Definition Qltb (a b : Q) : bool := negb (Qle_bool b a).
Definition Qgtb (a b : Q) : bool := Qltb b a.
Definition Qgeb (a b : Q) : bool := Qle_bool b a.

(** [max(a, b)]: the first argument unless the second is strictly greater. *)
Definition py_max (a b : Q) : Q := if Qltb a b then b else a.

(** [min(a, b)]: the first argument unless the second is strictly smaller. *)
Definition py_min (a b : Q) : Q := if Qltb b a then b else a.

(** [math.floor(x)] as a float again. *)
Definition math_floor (x : Q) : Q := inject_Z (Qfloor x).

(** Truthiness of a float: [0.0] is falsy. *)
Definition truthy (x : Q) : bool := negb (Qeq_bool x 0).

(** ** Exceptions and the method monad *)

Inductive exn : Type :=
  TypeError | KeyError | IndexError | ValueError | ZeroDivisionError.

Inductive outcome (A : Type) : Type :=
| Ret (a : A)
| Raise (e : exn).
Arguments Ret {A} a.
Arguments Raise {A} e.

Definition M (S A : Type) : Type := S -> outcome A * S.

Definition ret {S A} (a : A) : M S A := fun s => (Ret a, s).
Definition raise {S A} (e : exn) : M S A := fun s => (Raise e, s).
Definition bind {S A B} (c : M S A) (k : A -> M S B) : M S B :=
  fun s => match c s with
           | (Ret a, s') => k a s'
           | (Raise e, s') => (Raise e, s')
           end.
Definition gets {S A} (f : S -> A) : M S A := fun s => (Ret (f s), s).
Definition modify {S} (f : S -> S) : M S unit := fun s => (Ret tt, f s).

(** A pure computation that may raise, run inside a method. *)
Definition lift_outcome {S A} (o : outcome A) : M S A := fun s => (o, s).

Notation "x <- c1 ;; c2" := (bind c1 (fun x => c2))
  (at level 20, c1 at level 99, c2 at level 200, only parsing).
Notation "c1 ;; c2" := (bind c1 (fun _ => c2))
  (at level 100, c2 at level 200, only parsing, right associativity).

(** [for x in xs: body x] *)
Fixpoint for_each {S A} (xs : list A) (body : A -> M S unit) : M S unit :=
  match xs with
  | [] => ret tt
  | x :: rest => body x ;; for_each rest body
  end.

(** ** Risk sizer: [SimulationBot.calculate_trade_amount]

    The method reads no attribute of [self]; only the division by [price]
    can raise. *)
Definition available_risk (portfolio_value current_position_value : Q) : Q :=
  py_max 0 (portfolio_value * MAX_PORTFOLIO_RISK - current_position_value).

Definition calculate_trade_amount
    (price portfolio_value score total_score current_position_value : Q) : outcome Q :=
  let score_weight := if Qgtb total_score 0 then score / total_score else 1 in
  let risk_amount := portfolio_value * POSITION_SIZE_PCT * score_weight in
  let available_risk := available_risk portfolio_value current_position_value in
  let risk_amount := py_min risk_amount available_risk in
  if Qeq_bool price 0 then Raise ZeroDivisionError else
  let trade_qty := risk_amount / price in
  let trade_qty := math_floor (trade_qty * 10000) / 10000 in
  Ret (py_max 0.001 trade_qty).

(** ** Data model *)

Inductive Signal : Type := BUY | SELL | HOLD.
Inductive PositionStatus : Type := CASH | HOLDING.

Definition signal_eqb (a b : Signal) : bool :=
  match a, b with
  | BUY, BUY | SELL, SELL | HOLD, HOLD => true
  | _, _ => false
  end.

Definition is_cash (p : PositionStatus) : bool :=
  match p with CASH => true | HOLDING => false end.
Definition is_holding (p : PositionStatus) : bool :=
  match p with CASH => false | HOLDING => true end.

(** The per-coin dictionary stored in [self.strategies[coin]]. *)
Record AssetState : Type := {
  no : Z;
  price_mean : Q;
  position_status : PositionStatus;
  buy_price : option Q;
  stop_loss_price : option Q;
  take_profit_price : option Q;
  active_strategy : string
}.

Definition set_no (v : Z) (r : AssetState) : AssetState :=
  {| no := v; price_mean := price_mean r; position_status := position_status r;
     buy_price := buy_price r; stop_loss_price := stop_loss_price r;
     take_profit_price := take_profit_price r; active_strategy := active_strategy r |}.
Definition set_price_mean (v : Q) (r : AssetState) : AssetState :=
  {| no := no r; price_mean := v; position_status := position_status r;
     buy_price := buy_price r; stop_loss_price := stop_loss_price r;
     take_profit_price := take_profit_price r; active_strategy := active_strategy r |}.
Definition set_position_status (v : PositionStatus) (r : AssetState) : AssetState :=
  {| no := no r; price_mean := price_mean r; position_status := v;
     buy_price := buy_price r; stop_loss_price := stop_loss_price r;
     take_profit_price := take_profit_price r; active_strategy := active_strategy r |}.
Definition set_buy_price (v : option Q) (r : AssetState) : AssetState :=
  {| no := no r; price_mean := price_mean r; position_status := position_status r;
     buy_price := v; stop_loss_price := stop_loss_price r;
     take_profit_price := take_profit_price r; active_strategy := active_strategy r |}.
Definition set_stop_loss_price (v : option Q) (r : AssetState) : AssetState :=
  {| no := no r; price_mean := price_mean r; position_status := position_status r;
     buy_price := buy_price r; stop_loss_price := v;
     take_profit_price := take_profit_price r; active_strategy := active_strategy r |}.
Definition set_take_profit_price (v : option Q) (r : AssetState) : AssetState :=
  {| no := no r; price_mean := price_mean r; position_status := position_status r;
     buy_price := buy_price r; stop_loss_price := stop_loss_price r;
     take_profit_price := v; active_strategy := active_strategy r |}.
Definition set_active_strategy (v : string) (r : AssetState) : AssetState :=
  {| no := no r; price_mean := price_mean r; position_status := position_status r;
     buy_price := buy_price r; stop_loss_price := stop_loss_price r;
     take_profit_price := take_profit_price r; active_strategy := v |}.

(** The dictionary returned by [calculate_indicators]. *)
Record Indicators : Type := {
  rsi : Q; macd : Q; macd_signal : Q;
  bb_upper : Q; bb_middle : Q; bb_lower : Q;
  stoch_k : Q; stoch_d : Q
}.

(** The [random] module: a stream of draws and a cursor into it. *)
Record RandomSource : Type := {
  uniform : nat -> Q;
  pick : nat -> nat;
  cursor : nat
}.

(** An [AutonomousStrategy] object, together with the state of the
    [random] module its methods draw from. *)
Record AutonomousStrategy : Type := {
  lookback_period : Z;
  strategies : gmap string AssetState;
  price_data : gmap string (list Q);
  strategy_performance : gmap string (list (string * Q));
  strategy_trade_count : gmap string (list (string * Z));
  random_state : RandomSource
}.

Definition available_strategies : list string :=
  ["mean_reversion"; "macd_crossover"; "rsi_strategy"; "bollinger_bands"; "combined"]%string.

Definition set_strategies (f : gmap string AssetState -> gmap string AssetState)
    (self : AutonomousStrategy) : AutonomousStrategy :=
  {| lookback_period := lookback_period self; strategies := f (strategies self);
     price_data := price_data self; strategy_performance := strategy_performance self;
     strategy_trade_count := strategy_trade_count self; random_state := random_state self |}.
Definition set_price_data (f : gmap string (list Q) -> gmap string (list Q))
    (self : AutonomousStrategy) : AutonomousStrategy :=
  {| lookback_period := lookback_period self; strategies := strategies self;
     price_data := f (price_data self); strategy_performance := strategy_performance self;
     strategy_trade_count := strategy_trade_count self; random_state := random_state self |}.
Definition set_strategy_performance
    (f : gmap string (list (string * Q)) -> gmap string (list (string * Q)))
    (self : AutonomousStrategy) : AutonomousStrategy :=
  {| lookback_period := lookback_period self; strategies := strategies self;
     price_data := price_data self; strategy_performance := f (strategy_performance self);
     strategy_trade_count := strategy_trade_count self; random_state := random_state self |}.
Definition set_strategy_trade_count
    (f : gmap string (list (string * Z)) -> gmap string (list (string * Z)))
    (self : AutonomousStrategy) : AutonomousStrategy :=
  {| lookback_period := lookback_period self; strategies := strategies self;
     price_data := price_data self; strategy_performance := strategy_performance self;
     strategy_trade_count := f (strategy_trade_count self); random_state := random_state self |}.
Definition advance_random (self : AutonomousStrategy) : AutonomousStrategy :=
  {| lookback_period := lookback_period self; strategies := strategies self;
     price_data := price_data self; strategy_performance := strategy_performance self;
     strategy_trade_count := strategy_trade_count self;
     random_state := {| uniform := uniform (random_state self);
                        pick := pick (random_state self);
                        cursor := S (cursor (random_state self)) |} |}.

(** [AutonomousStrategy.__init__] *)
Definition new_strategy (lookback : Z) (rnd : RandomSource) : AutonomousStrategy :=
  {| lookback_period := lookback; strategies := ∅; price_data := ∅;
     strategy_performance := ∅; strategy_trade_count := ∅; random_state := rnd |}.

(** ** Ordered dictionaries keyed by strategy name *)

Fixpoint alist_get {V} (k : string) (d : list (string * V)) : option V :=
  match d with
  | [] => None
  | (k', v) :: rest => if String.eqb k k' then Some v else alist_get k rest
  end.

(** [d[k] = v] for a key already present: the entry keeps its place. *)
Fixpoint alist_set {V} (k : string) (v : V) (d : list (string * V)) : list (string * V) :=
  match d with
  | [] => [(k, v)]
  | (k', v') :: rest =>
      if String.eqb k k' then (k', v) :: rest else (k', v') :: alist_set k v rest
  end.

(** ** Values a strategy method holds for [state]

    [get_strategy_state] hands out either [None] or the dictionary stored
    under [self.strategies[coin]]; every holder of the latter sees the
    writes of the others, so the handle is the key and the record stays in
    the object. *)
Inductive pyref : Type := PyNone | StateOf (coin : string).

(** [state[field]]: [None] is not subscriptable. *)
Definition getitem {A} (state : pyref) (field : AssetState -> A) : M AutonomousStrategy A :=
  match state with
  | PyNone => raise TypeError
  | StateOf c => fun self =>
      match strategies self !! c with
      | Some r => (Ret (field r), self)
      | None => (Raise KeyError, self)
      end
  end.

(** [state[field] = v] *)
Definition setitem (state : pyref) (upd : AssetState -> AssetState) : M AutonomousStrategy unit :=
  match state with
  | PyNone => raise TypeError
  | StateOf c => fun self =>
      match strategies self !! c with
      | Some r => (Ret tt, set_strategies (<[c := upd r]>) self)
      | None => (Raise KeyError, self)
      end
  end.

(** [random.random()] *)
Definition random_random : M AutonomousStrategy Q :=
  fun self => (Ret (uniform (random_state self) (cursor (random_state self))),
               advance_random self).

(** [random.choice(seq)] *)
Definition random_choice (seq : list string) : M AutonomousStrategy string :=
  fun self =>
    let i := (pick (random_state self) (cursor (random_state self)) mod length seq)%nat in
    match seq !! i with
    | Some x => (Ret x, advance_random self)
    | None => (Raise IndexError, self)
    end.

(** Comparisons of a float with a field that may hold [None]. *)
Definition py_le (a : Q) (b : option Q) : M AutonomousStrategy bool :=
  match b with Some b => ret (Qle_bool a b) | None => raise TypeError end.
Definition py_ge (a : Q) (b : option Q) : M AutonomousStrategy bool :=
  match b with Some b => ret (Qgeb a b) | None => raise TypeError end.
Definition py_mul (a : option Q) (b : Q) : M AutonomousStrategy Q :=
  match a with Some a => ret (a * b) | None => raise TypeError end.


(** ** [AutonomousStrategy]: state lookup and price bookkeeping *)

Definition fresh_state (strat : string) : AssetState :=
  {| no := 0; price_mean := 0; position_status := CASH;
     buy_price := None; stop_loss_price := None; take_profit_price := None;
     active_strategy := strat |}.

Definition init_price_data (coin : string) : M AutonomousStrategy unit :=
  fun self =>
    match price_data self !! coin with
    | None => (Ret tt, set_price_data (<[coin := []]>) self)
    | Some _ => (Ret tt, self)
    end.

Definition init_performance (coin : string) : M AutonomousStrategy unit :=
  fun self =>
    match strategy_performance self !! coin with
    | None =>
        (Ret tt,
         set_strategy_trade_count
           (<[coin := map (fun strat => (strat, 1%Z)) available_strategies]>)
           (set_strategy_performance
              (<[coin := map (fun strat => (strat, 0.1)) available_strategies]>) self))
    | Some _ => (Ret tt, self)
    end.

(** [get_strategy_state], as written: the [return] statement is the last
    line of the [if coin not in self.strategies] block, so a call for a
    coin that already has a record runs off the end of the method and
    yields [None]. *)
Definition get_strategy_state (coin : string) : M AutonomousStrategy pyref :=
  fun self =>
    match strategies self !! coin with
    | None =>
        (strat <- random_choice available_strategies ;;
         modify (set_strategies (<[coin := fresh_state strat]>)) ;;
         init_price_data coin ;;
         init_performance coin ;;
         ret (StateOf coin)) self
    | Some _ => (Ret PyNone, self)
    end.

(** Not in the source: the lookup with the [return] moved out of the [if]
    block, one indentation level to the left.  It is used only to show
    what the strategy bodies do once they hold a record. *)
Definition get_strategy_state_dedented (coin : string) : M AutonomousStrategy pyref :=
  fun self =>
    match strategies self !! coin with
    | None =>
        (strat <- random_choice available_strategies ;;
         modify (set_strategies (<[coin := fresh_state strat]>)) ;;
         init_price_data coin ;;
         init_performance coin ;;
         ret (StateOf coin)) self
    | Some _ => (Ret (StateOf coin), self)
    end.

(** [update_price_data] *)
Definition update_price_data (coin : string) (price : Q) : M AutonomousStrategy unit :=
  fun self =>
    match price_data self !! coin with
    | None => (Raise KeyError, self)
    | Some prices =>
        let prices := prices ++ [price] in
        let prices :=
          if (MAX_LOOKBACK + 10 <? length prices)%nat then tail prices else prices in
        (Ret tt, set_price_data (<[coin := prices]>) self)
    end.

(** [np.diff(prices) / prices[:-1]] *)
Fixpoint pct_changes (prices : list Q) : list Q :=
  match prices with
  | p :: (p' :: _) as rest => (p' - p) / p :: pct_changes rest
  | _ => []
  end.

(** [strategy_performance[coin][strategy] += v] and its trade-count twin. *)
Definition performance_add (coin strategy : string) (v : Q) : M AutonomousStrategy unit :=
  fun self =>
    match strategy_performance self !! coin with
    | None => (Raise KeyError, self)
    | Some d =>
        match alist_get strategy d with
        | None => (Raise KeyError, self)
        | Some x =>
            (Ret tt, set_strategy_performance (<[coin := alist_set strategy (x + v) d]>) self)
        end
    end.

Definition trade_count_incr (coin strategy : string) : M AutonomousStrategy unit :=
  fun self =>
    match strategy_trade_count self !! coin with
    | None => (Raise KeyError, self)
    | Some d =>
        match alist_get strategy d with
        | None => (Raise KeyError, self)
        | Some n =>
            (Ret tt, set_strategy_trade_count (<[coin := alist_set strategy (n + 1)%Z d]>) self)
        end
    end.

(** The decay loop: [for strat in perf[coin]: perf[coin][strat] *= decay_factor]. *)
Definition decay_factor : Q := 0.99.

Definition decay_scores (d : list (string * Q)) : list (string * Q) :=
  map (fun kv => (fst kv, snd kv * decay_factor)) d.

Definition apply_decay (coin : string) : M AutonomousStrategy unit :=
  fun self =>
    match strategy_performance self !! coin with
    | None => (Raise KeyError, self)
    | Some d => (Ret tt, set_strategy_performance (<[coin := decay_scores d]>) self)
    end.

(** [update_strategy_performance] *)
Definition update_strategy_performance
    (coin strategy : string) (signal : Signal) (profit_pct : Q) : M AutonomousStrategy unit :=
  (match signal with
   | SELL =>
       if truthy profit_pct
       then (performance_add coin strategy profit_pct ;; trade_count_incr coin strategy)
       else ret tt
   | BUY => performance_add coin strategy 0.1 ;; trade_count_incr coin strategy
   | HOLD => ret tt
   end) ;;
  apply_decay coin.

(** ** [AutonomousStrategy]: risk levels, indicators and the strategies

    The methods below call [self.get_strategy_state]; their bodies are
    written over the bound method [get_state], and the class of the source
    is their instance at [get_strategy_state] (end of the section). *)
Section Libraries.

(** [numpy.std] *)
Variable np_std : list Q -> Q.
(** The last elements of the TA-Lib series computed by
    [calculate_indicators] from a price buffer. *)
Variable talib_last : list Q -> Indicators.

Section Methods.

Variable get_state : string -> M AutonomousStrategy pyref.

(** The arithmetic of [calculate_risk_levels] on a price buffer. *)
Definition risk_levels (prices : list Q) : Q * Q :=
  if (length prices <? 10)%nat then (0.01, 0.03) else
  let returns := pct_changes prices in
  let volatility := if (0 <? length returns)%nat then np_std returns else 0.01 in
  let stop_loss_pct := py_min (py_max (1.5 * volatility) 0.01) 0.05 in
  let min_take_profit := (BUYING_COMMISSION + SELLING_COMMISSION) + 0.001 in
  let take_profit_pct := py_max (2.5 * stop_loss_pct) min_take_profit in
  (stop_loss_pct, take_profit_pct).

(** [calculate_risk_levels]: [prices = self.price_data.get(coin, [])] *)
Definition calculate_risk_levels (coin : string) (entry_price : Q)
    : M AutonomousStrategy (Q * Q) :=
  gets (fun self => risk_levels (default [] (price_data self !! coin))).

(** [set_risk_levels] *)
Definition set_risk_levels_via (coin : string) (entry_price : Q) : M AutonomousStrategy unit :=
  state <- get_state coin ;;
  levels <- calculate_risk_levels coin entry_price ;;
  let stop_loss_pct := fst levels in
  let take_profit_pct := snd levels in
  setitem state (set_buy_price (Some entry_price)) ;;
  setitem state (set_stop_loss_price (Some (entry_price * (1 - stop_loss_pct)))) ;;
  setitem state (set_take_profit_price (Some (entry_price * (1 + take_profit_pct)))).

(** [calculate_indicators] *)
Definition calculate_indicators (coin : string) : M AutonomousStrategy (option Indicators) :=
  fun self =>
    match price_data self !! coin with
    | None => (Raise KeyError, self)
    | Some prices =>
        if (length prices <? MAX_LOOKBACK + 1)%nat then (Ret None, self)
        else (Ret (Some (talib_last prices)), self)
    end.

(** [update_price_mean] *)
Definition update_price_mean_via (coin : string) (price : Q) : M AutonomousStrategy unit :=
  state <- get_state coin ;;
  update_price_data coin price ;;
  mean <- getitem state price_mean ;;
  (if Qeq_bool mean 0
   then setitem state (set_price_mean price)
   else
     n <- getitem state no ;;
     setitem state (set_price_mean ((mean * inject_Z n + price) / (inject_Z n + 1)))) ;;
  n <- getitem state no ;;
  setitem state (set_no (n + 1)%Z).

(** [max(normalized_scores, key=normalized_scores.get)]: the first key,
    in dictionary order, whose value is maximal. *)
Fixpoint argmax_from (best : string) (best_v : Q) (d : list (string * Q)) : string :=
  match d with
  | [] => best
  | (k, v) :: rest =>
      if Qgtb v best_v then argmax_from k v rest else argmax_from best best_v rest
  end.

Definition py_argmax (d : list (string * Q)) : outcome string :=
  match d with
  | [] => Raise ValueError
  | (k, v) :: rest => Ret (argmax_from k v rest)
  end.

(** The dictionary comprehension of [select_best_strategy];
    [counts] is [self.strategy_trade_count[coin]], looked up once per
    strategy. *)
Fixpoint normalize_scores (perf : list (string * Q)) (counts : option (list (string * Z)))
    : outcome (list (string * Q)) :=
  match perf with
  | [] => Ret []
  | (strat, p) :: rest =>
      match counts ≫= alist_get strat with
      | None => Raise KeyError
      | Some n =>
          let n := if (n =? 0)%Z then 1%Z else n in
          match normalize_scores rest counts with
          | Ret tl => Ret ((strat, p / inject_Z n) :: tl)
          | Raise e => Raise e
          end
      end
  end.

(** The exploitation branch of [select_best_strategy]. *)
Definition best_by_average (coin : string) : M AutonomousStrategy string :=
  fun self =>
    match strategy_performance self !! coin with
    | None => (Raise KeyError, self)
    | Some perf =>
        match normalize_scores perf (strategy_trade_count self !! coin) with
        | Ret normalized_scores => (py_argmax normalized_scores, self)
        | Raise e => (Raise e, self)
        end
    end.

(** [select_best_strategy] *)
Definition select_best_strategy_via (coin : string) : M AutonomousStrategy string :=
  state <- get_state coin ;;
  let epsilon := 0.3 in
  u <- random_random ;;
  best_strategy <-
    (if Qltb u epsilon then random_choice available_strategies
     else best_by_average coin) ;;
  setitem state (set_active_strategy best_strategy) ;;
  ret best_strategy.

(** The check every strategy makes first when the position is open:
    [True] stands for the early [return "SELL"]. *)
Definition exit_precheck (state : pyref) (price : Q) : M AutonomousStrategy bool :=
  status <- getitem state position_status ;;
  if is_holding status then
    stop_loss <- getitem state stop_loss_price ;;
    hit_stop <- py_le price stop_loss ;;
    if hit_stop then ret true else
    take_profit <- getitem state take_profit_price ;;
    py_ge price take_profit
  else ret false.

(** [a and b], where [b] reads the state only when [a] holds. *)
Definition and_then (a : bool) (b : M AutonomousStrategy bool) : M AutonomousStrategy bool :=
  if a then b else ret false.

(** [state["position_status"] == ...] *)
Definition status_is (state : pyref) (test : PositionStatus -> bool)
    : M AutonomousStrategy bool :=
  status <- getitem state position_status ;;
  ret (test status).

(** The statements of a strategy's own BUY branch. *)
Definition enter_position (state : pyref) (coin : string) (price : Q)
    : M AutonomousStrategy Signal :=
  setitem state (set_position_status HOLDING) ;;
  set_risk_levels_via coin (price * 1.001) ;;
  ret BUY.

(** The statements of a strategy's own SELL branch. *)
Definition leave_position (state : pyref) : M AutonomousStrategy Signal :=
  setitem state (set_position_status CASH) ;;
  setitem state (set_buy_price None) ;;
  setitem state (set_stop_loss_price None) ;;
  setitem state (set_take_profit_price None) ;;
  ret SELL.

(** [mean_reversion_strategy]; the logging calls are left out. *)
Definition mean_reversion_strategy_via
    (coin : string) (price : Q) (indicators : option Indicators)
    : M AutonomousStrategy Signal :=
  state <- get_state coin ;;
  n <- getitem state no ;;
  lookback <- gets lookback_period ;;
  if (n <=? lookback)%Z then ret HOLD else
  triggered <- exit_precheck state price ;;
  if triggered then ret SELL else
  mean <- getitem state price_mean ;;
  buy <- and_then (Qgtb mean price) (status_is state is_cash) ;;
  if buy then enter_position state coin price else
  mean <- getitem state price_mean ;;
  sell <- and_then (Qgtb price mean) (status_is state is_holding) ;;
  if sell then
    bought <- getitem state buy_price ;;
    threshold <- py_mul bought 1.003 ;;
    if Qgtb price threshold then leave_position state else ret HOLD
  else ret HOLD.

(** The guard shared by the four indicator strategies:
    [if not indicators or state["no"] <= self.lookback_period]. *)
Definition warming_up (state : pyref) (indicators : option Indicators)
    : M AutonomousStrategy bool :=
  match indicators with
  | None => ret true
  | Some _ =>
      n <- getitem state no ;;
      lookback <- gets lookback_period ;;
      ret (n <=? lookback)%Z
  end.

(** The tail of an indicator strategy after its two guards: BUY rule,
    SELL rule, otherwise HOLD. *)
Definition decide_entry_exit (state : pyref) (coin : string) (price : Q)
    (buy_rule sell_rule : bool) : M AutonomousStrategy Signal :=
  buy <- and_then buy_rule (status_is state is_cash) ;;
  if buy then enter_position state coin price else
  sell <- and_then sell_rule (status_is state is_holding) ;;
  if sell then leave_position state else ret HOLD.

(** [macd_crossover_strategy] *)
Definition macd_crossover_strategy_via
    (coin : string) (price : Q) (indicators : option Indicators)
    : M AutonomousStrategy Signal :=
  state <- get_state coin ;;
  hold <- warming_up state indicators ;;
  match hold, indicators with
  | false, Some ind =>
      triggered <- exit_precheck state price ;;
      if triggered then ret SELL else
      decide_entry_exit state coin price
        (Qgtb (macd ind) (macd_signal ind) && Qltb (rsi ind) RSI_OVERBOUGHT)
        (Qltb (macd ind) (macd_signal ind) && Qgtb (rsi ind) RSI_OVERSOLD)
  | _, _ => ret HOLD
  end.

(** [rsi_strategy] *)
Definition rsi_strategy_via
    (coin : string) (price : Q) (indicators : option Indicators)
    : M AutonomousStrategy Signal :=
  state <- get_state coin ;;
  hold <- warming_up state indicators ;;
  match hold, indicators with
  | false, Some ind =>
      triggered <- exit_precheck state price ;;
      if triggered then ret SELL else
      decide_entry_exit state coin price
        (Qltb (rsi ind) RSI_OVERSOLD && Qltb (stoch_k ind) 20
           && Qgtb (stoch_k ind) (stoch_d ind))
        (Qgtb (rsi ind) RSI_OVERBOUGHT && Qgtb (stoch_k ind) 80
           && Qltb (stoch_k ind) (stoch_d ind))
  | _, _ => ret HOLD
  end.

(** [bollinger_bands_strategy] *)
Definition bollinger_bands_strategy_via
    (coin : string) (price : Q) (indicators : option Indicators)
    : M AutonomousStrategy Signal :=
  state <- get_state coin ;;
  hold <- warming_up state indicators ;;
  match hold, indicators with
  | false, Some ind =>
      triggered <- exit_precheck state price ;;
      if triggered then ret SELL else
      decide_entry_exit state coin price
        (Qltb price (bb_lower ind) && Qltb (rsi ind) RSI_OVERSOLD)
        (Qgtb price (bb_upper ind) && Qgtb (rsi ind) RSI_OVERBOUGHT)
  | _, _ => ret HOLD
  end.

(** [signals.count(s)] *)
Definition count_signal (s : Signal) (signals : list Signal) : nat :=
  length (List.filter (signal_eqb s) signals).

(** [combined_strategy]: the three inner strategies run, in order, on
    the object they share with the caller. *)
Definition combined_strategy_via
    (coin : string) (price : Q) (indicators : option Indicators)
    : M AutonomousStrategy Signal :=
  state <- get_state coin ;;
  hold <- warming_up state indicators ;;
  if hold then ret HOLD else
  triggered <- exit_precheck state price ;;
  if triggered then ret SELL else
  s1 <- macd_crossover_strategy_via coin price indicators ;;
  s2 <- rsi_strategy_via coin price indicators ;;
  s3 <- bollinger_bands_strategy_via coin price indicators ;;
  let signals := [s1; s2; s3] in
  let buy_count := count_signal BUY signals in
  let sell_count := count_signal SELL signals in
  decide_entry_exit state coin price (2 <=? buy_count)%nat (2 <=? sell_count)%nat.

(** The loop of [generate_signal] over [signals.items()]. *)
Definition update_performance_for (state : pyref) (coin : string) (price : Q)
    (entry : string * Signal) : M AutonomousStrategy unit :=
  let strategy := fst entry in
  match snd entry with
  | SELL =>
      status <- getitem state position_status ;;
      if is_holding status then
        bought <- getitem state buy_price ;;
        match bought with
        | Some b =>
            if truthy b
            then update_strategy_performance coin strategy SELL ((price / b - 1) * 100)
            else ret tt
        | None => ret tt
        end
      else ret tt
  | BUY => update_strategy_performance coin strategy BUY 0
  | HOLD => ret tt
  end.

(** The [signals] dictionary of [generate_signal], in evaluation order. *)
Definition all_signals_via (coin : string) (price : Q) (indicators : option Indicators)
    : M AutonomousStrategy (list (string * Signal)) :=
  s1 <- mean_reversion_strategy_via coin price indicators ;;
  s2 <- macd_crossover_strategy_via coin price indicators ;;
  s3 <- rsi_strategy_via coin price indicators ;;
  s4 <- bollinger_bands_strategy_via coin price indicators ;;
  s5 <- combined_strategy_via coin price indicators ;;
  ret [("mean_reversion", s1); ("macd_crossover", s2); ("rsi_strategy", s3);
       ("bollinger_bands", s4); ("combined", s5)]%string.

(** The first half of [generate_signal]: everything up to and including
    the [signals] dictionary. *)
Definition evaluate_strategies_via (coin : string) (price : Q)
    : M AutonomousStrategy (pyref * string * list (string * Signal)) :=
  state <- get_state coin ;;
  indicators <- calculate_indicators coin ;;
  active_strategy <- select_best_strategy_via coin ;;
  signals <- all_signals_via coin price indicators ;;
  ret (state, active_strategy, signals).

(** [generate_signal] *)
Definition generate_signal_via (coin : string) (price : Q) : M AutonomousStrategy Signal :=
  evaluated <- evaluate_strategies_via coin price ;;
  let state := fst (fst evaluated) in
  let active_strategy := snd (fst evaluated) in
  let signals := snd evaluated in
  for_each signals (update_performance_for state coin price) ;;
  match alist_get active_strategy signals with
  | Some signal => ret signal
  | None => raise KeyError
  end.

End Methods.

(** *** The methods of the source *)

Definition set_risk_levels := set_risk_levels_via get_strategy_state.
Definition update_price_mean := update_price_mean_via get_strategy_state.
Definition select_best_strategy := select_best_strategy_via get_strategy_state.
Definition mean_reversion_strategy := mean_reversion_strategy_via get_strategy_state.
Definition macd_crossover_strategy := macd_crossover_strategy_via get_strategy_state.
Definition rsi_strategy := rsi_strategy_via get_strategy_state.
Definition bollinger_bands_strategy := bollinger_bands_strategy_via get_strategy_state.
Definition combined_strategy := combined_strategy_via get_strategy_state.
Definition evaluate_strategies := evaluate_strategies_via get_strategy_state.
Definition generate_signal := generate_signal_via get_strategy_state.

End Libraries.

(** ** [SimulationBot]: the portfolio ledger *)

(** The dictionary built for an executed trade; [gross] is [cash_spent] or
    [cash_received], [net] is [total_cost] or [net_proceeds].  The
    timestamp is left out. *)
Record Trade : Type := {
  action : Signal;
  trade_coin : string;
  trade_pair : string;
  trade_price : Q;
  amount : Q;
  gross : Q;
  commission : Q;
  net : Q;
  cash_balance : Q;
  profit_pct : option Q
}.

(** Calls that leave the process, in the order they are made.  Each of
    these collaborators catches its own exceptions. *)
Inductive Event : Type :=
| PriceAppended (coin : string) (price : Q)      (* append_price_history *)
| TradeLogged (t : Trade)                        (* append_trade_to_file *)
| HistoryUpdated (coin : string) (t : Trade)     (* coin_selector.update_trade_history *)
| OrderPlaced (coin : string) (side : Signal) (qty : Q).  (* api_client.place_order *)

(** A [SimulationBot] with the objects it owns: [portfolio_values] is the
    list of its [RiskManager]. *)
Record SimulationBot : Type := {
  strategy : AutonomousStrategy;
  portfolio_values : list Q;
  cash : Q;
  holdings : gmap string Q;
  entry_prices : gmap string (list Q);
  initial_portfolio_value : Q;
  trade_count : Z;
  profitable_trades : Z;
  effects : list Event
}.

(** [SimulationBot.__init__] with a fresh [RiskManager]. *)
Definition new_bot (strat : AutonomousStrategy) (initial_cash : Q) : SimulationBot :=
  {| strategy := strat; portfolio_values := []; cash := initial_cash;
     holdings := ∅; entry_prices := ∅; initial_portfolio_value := initial_cash;
     trade_count := 0; profitable_trades := 0; effects := [] |}.

Definition set_strategy (v : AutonomousStrategy) (b : SimulationBot) : SimulationBot :=
  {| strategy := v; portfolio_values := portfolio_values b; cash := cash b;
     holdings := holdings b; entry_prices := entry_prices b;
     initial_portfolio_value := initial_portfolio_value b; trade_count := trade_count b;
     profitable_trades := profitable_trades b; effects := effects b |}.
Definition set_portfolio_values (v : list Q) (b : SimulationBot) : SimulationBot :=
  {| strategy := strategy b; portfolio_values := v; cash := cash b;
     holdings := holdings b; entry_prices := entry_prices b;
     initial_portfolio_value := initial_portfolio_value b; trade_count := trade_count b;
     profitable_trades := profitable_trades b; effects := effects b |}.
Definition set_cash (v : Q) (b : SimulationBot) : SimulationBot :=
  {| strategy := strategy b; portfolio_values := portfolio_values b; cash := v;
     holdings := holdings b; entry_prices := entry_prices b;
     initial_portfolio_value := initial_portfolio_value b; trade_count := trade_count b;
     profitable_trades := profitable_trades b; effects := effects b |}.
Definition set_holdings (v : gmap string Q) (b : SimulationBot) : SimulationBot :=
  {| strategy := strategy b; portfolio_values := portfolio_values b; cash := cash b;
     holdings := v; entry_prices := entry_prices b;
     initial_portfolio_value := initial_portfolio_value b; trade_count := trade_count b;
     profitable_trades := profitable_trades b; effects := effects b |}.
Definition set_entry_prices (v : gmap string (list Q)) (b : SimulationBot) : SimulationBot :=
  {| strategy := strategy b; portfolio_values := portfolio_values b; cash := cash b;
     holdings := holdings b; entry_prices := v;
     initial_portfolio_value := initial_portfolio_value b; trade_count := trade_count b;
     profitable_trades := profitable_trades b; effects := effects b |}.
Definition set_trade_count (v : Z) (b : SimulationBot) : SimulationBot :=
  {| strategy := strategy b; portfolio_values := portfolio_values b; cash := cash b;
     holdings := holdings b; entry_prices := entry_prices b;
     initial_portfolio_value := initial_portfolio_value b; trade_count := v;
     profitable_trades := profitable_trades b; effects := effects b |}.
Definition set_profitable_trades (v : Z) (b : SimulationBot) : SimulationBot :=
  {| strategy := strategy b; portfolio_values := portfolio_values b; cash := cash b;
     holdings := holdings b; entry_prices := entry_prices b;
     initial_portfolio_value := initial_portfolio_value b; trade_count := trade_count b;
     profitable_trades := v; effects := effects b |}.
Definition emit (e : Event) : M SimulationBot unit :=
  modify (fun b =>
  {| strategy := strategy b; portfolio_values := portfolio_values b; cash := cash b;
     holdings := holdings b; entry_prices := entry_prices b;
     initial_portfolio_value := initial_portfolio_value b; trade_count := trade_count b;
     profitable_trades := profitable_trades b; effects := effects b ++ [e] |}).

(** A method of [self.strategy] called from the bot. *)
Definition lift_strategy {A} (c : M AutonomousStrategy A) : M SimulationBot A :=
  fun b => let r := c (strategy b) in (fst r, set_strategy (snd r) b).

(** [self.holdings.get(coin, 0)] and [prices.get(coin, 0)] *)
Definition get_or_zero (d : gmap string Q) (coin : string) : Q := default 0 (d !! coin).

(** [get_open_trades_count] *)
Definition open_trades (h : gmap string Q) : nat :=
  length (List.filter (fun kv => Qgtb (snd kv) 0) (map_to_list h)).

Definition get_open_trades_count : M SimulationBot nat :=
  gets (fun self => open_trades (holdings self)).

Definition sum_Q (xs : list Q) : Q := foldr Qplus 0 xs.

(** [sum(amount * prices.get(c, 0) for c, amount in holdings.items() if amount > 0)] *)
Definition position_value (h prices : gmap string Q) : Q :=
  sum_Q (map (fun kv => snd kv * get_or_zero prices (fst kv))
             (List.filter (fun kv => Qgtb (snd kv) 0) (map_to_list h))).

(** The value accumulated by the loop of [update_portfolio_value]. *)
Definition portfolio_value (self : SimulationBot) (prices : gmap string Q) : Q :=
  foldl (fun acc kv => acc + snd kv * get_or_zero prices (fst kv))
        (cash self) (map_to_list (holdings self)).

(** [update_portfolio_value] *)
Definition update_portfolio_value (prices : gmap string Q) : M SimulationBot Q :=
  fun self =>
    let portfolio_value := portfolio_value self prices in
    (Ret portfolio_value,
     set_portfolio_values (portfolio_values self ++ [portfolio_value]) self).

(** [if coin not in d: d[coin] = v] *)
Definition setdefault {V} (coin : string) (v : V) (d : gmap string V) : gmap string V :=
  match d !! coin with
  | None => <[coin := v]> d
  | Some _ => d
  end.

(** The body of the BUY branch of [simulate_trade], once its three guards
    have passed. *)
Definition buy_branch (coin pair : string) (price trade_amount : Q) : M SimulationBot unit :=
  modify (fun self =>
    set_holdings (<[coin := get_or_zero (holdings self) coin + trade_amount]> (holdings self))
                 self) ;;
  let purchase_amount := trade_amount * price in
  let commission := purchase_amount * BUYING_COMMISSION in
  let total_cost := purchase_amount + commission in
  modify (fun self => set_cash (cash self - total_cost) self) ;;
  modify (fun self =>
    set_entry_prices
      (<[coin := default [] (entry_prices self !! coin) ++ [price]]> (entry_prices self)) self) ;;
  balance <- gets cash ;;
  let trade :=
    {| action := BUY; trade_coin := coin; trade_pair := pair; trade_price := price;
       amount := trade_amount; gross := purchase_amount; commission := commission;
       net := total_cost; cash_balance := balance; profit_pct := None |} in
  emit (TradeLogged trade) ;;
  emit (HistoryUpdated coin trade) ;;
  emit (OrderPlaced coin BUY trade_amount).

(** The body of the SELL branch of [simulate_trade]. *)
Definition sell_branch (coin pair : string) (price : Q) : M SimulationBot unit :=
  held <- gets (fun self => get_or_zero (holdings self) coin) ;;
  let sale_amount := held * price in
  let commission := sale_amount * SELLING_COMMISSION in
  let net_proceeds := sale_amount - commission in
  let trade_amount := held in
  modify (fun self => set_holdings (<[coin := 0]> (holdings self)) self) ;;
  modify (fun self => set_cash (cash self + net_proceeds) self) ;;
  modify (fun self => set_trade_count (trade_count self + 1)%Z self) ;;
  queue <- gets (fun self => default [] (entry_prices self !! coin)) ;;
  trade <-
    match queue with
    | entry_price :: rest =>
        modify (fun self => set_entry_prices (<[coin := rest]> (entry_prices self)) self) ;;
        let buy_cost := trade_amount * entry_price * (1 + BUYING_COMMISSION) in
        let profit := net_proceeds - buy_cost in
        let profit_pct := if truthy buy_cost then (net_proceeds / buy_cost - 1) * 100 else 0 in
        balance <- gets cash ;;
        let trade :=
          {| action := SELL; trade_coin := coin; trade_pair := pair; trade_price := price;
             amount := trade_amount; gross := sale_amount; commission := commission;
             net := net_proceeds; cash_balance := balance; profit_pct := Some profit_pct |} in
        (if Qgtb profit 0
         then modify (fun self => set_profitable_trades (profitable_trades self + 1)%Z self)
         else ret tt) ;;
        state <- lift_strategy (get_strategy_state coin) ;;
        active <- lift_strategy (getitem state active_strategy) ;;
        lift_strategy (update_strategy_performance coin active SELL profit_pct) ;;
        ret trade
    | [] =>
        balance <- gets cash ;;
        ret {| action := SELL; trade_coin := coin; trade_pair := pair; trade_price := price;
               amount := trade_amount; gross := sale_amount; commission := commission;
               net := net_proceeds; cash_balance := balance; profit_pct := None |}
    end ;;
  emit (TradeLogged trade) ;;
  emit (HistoryUpdated coin trade) ;;
  emit (OrderPlaced coin SELL trade_amount).

(** [simulate_trade] *)
Definition simulate_trade (coin pair : string) (signal : Signal)
    (price score total_score : Q) (prices : gmap string Q) : M SimulationBot unit :=
  portfolio_value <- update_portfolio_value prices ;;
  current_position_value <- gets (fun self => position_value (holdings self) prices) ;;
  trade_amount <-
    lift_outcome (calculate_trade_amount price portfolio_value score total_score
                                         current_position_value) ;;
  modify (fun self => set_holdings (setdefault coin 0 (holdings self)) self) ;;
  modify (fun self => set_entry_prices (setdefault coin [] (entry_prices self)) self) ;;
  emit (PriceAppended coin price) ;;
  balance <- gets cash ;;
  if signal_eqb signal BUY && Qgeb balance (trade_amount * price * (1 + BUYING_COMMISSION))
  then
    open_count <- get_open_trades_count ;;
    if (MAX_OPEN_TRADES <=? open_count)%nat then ret tt else
    let new_position_value := trade_amount * price in
    if Qle_bool (current_position_value + new_position_value)
                (portfolio_value * MAX_PORTFOLIO_RISK)
    then buy_branch coin pair price trade_amount
    else ret tt
  else
    held <- gets (fun self => get_or_zero (holdings self) coin) ;;
    if signal_eqb signal SELL && Qgeb held trade_amount
    then sell_branch coin pair price
    else ret tt.

(** One call of [simulate_trade] as it is made by the polling loop. *)
Record Attempt : Type := {
  at_coin : string;
  at_pair : string;
  at_signal : Signal;
  at_price : Q;
  at_score : Q;
  at_total_score : Q;
  at_prices : gmap string Q
}.

Definition attempt (a : Attempt) (self : SimulationBot) : SimulationBot :=
  snd (simulate_trade (at_coin a) (at_pair a) (at_signal a) (at_price a)
                      (at_score a) (at_total_score a) (at_prices a) self).

(** The ledger after each of a sequence of attempts; an attempt that
    raises is logged by the loop and the next one runs on the state the
    exception left behind. *)
Fixpoint ledger_trace (attempts : list Attempt) (self : SimulationBot) : list SimulationBot :=
  match attempts with
  | [] => []
  | a :: rest => let self' := attempt a self in self' :: ledger_trace rest self'
  end.

(** ** Concrete objects for the closed examples *)

Definition sample_random : RandomSource :=
  {| uniform := fun _ => 0.5; pick := fun _ => 0%nat; cursor := 0 |}.

(** Stand-ins for the external numeric routines in closed examples. *)
Definition sample_std (returns : list Q) : Q := 0.02.

Definition sample_indicators : Indicators :=
  {| rsi := 50; macd := 2; macd_signal := 1;
     bb_upper := 110; bb_middle := 100; bb_lower := 90;
     stoch_k := 50; stoch_d := 50 |}.

Definition sample_talib (prices : list Q) : Indicators := sample_indicators.

(** A strategy object that has observed BTC 21 times and holds no position. *)
Definition btc_in_cash : AutonomousStrategy :=
  {| lookback_period := 20;
     strategies :=
       {[ "BTC"%string :=
            {| no := 21; price_mean := 100; position_status := CASH;
               buy_price := None; stop_loss_price := None; take_profit_price := None;
               active_strategy := "combined" |} ]};
     price_data := {[ "BTC"%string := repeat 100 21 ]};
     strategy_performance :=
       {[ "BTC"%string := map (fun strat => (strat, 0.1)) available_strategies ]};
     strategy_trade_count :=
       {[ "BTC"%string := map (fun strat => (strat, 1%Z)) available_strategies ]};
     random_state := sample_random |}.

(** The same object with an open BTC position entered at 100.1. *)
Definition btc_holding : AutonomousStrategy :=
  set_strategies
    (<[ "BTC"%string :=
          {| no := 21; price_mean := 100; position_status := HOLDING;
             buy_price := Some 100.1; stop_loss_price := Some 99;
             take_profit_price := Some 103; active_strategy := "combined" |} ]>)
    btc_in_cash.

(** A strategy object still warming up on BTC: two observations. *)
Definition btc_warming_up : AutonomousStrategy :=
  {| lookback_period := 20;
     strategies :=
       {[ "BTC"%string :=
            {| no := 2; price_mean := 100; position_status := CASH;
               buy_price := None; stop_loss_price := None; take_profit_price := None;
               active_strategy := "combined" |} ]};
     price_data := {[ "BTC"%string := [100; 100] ]};
     strategy_performance :=
       {[ "BTC"%string := map (fun strat => (strat, 0.1)) available_strategies ]};
     strategy_trade_count :=
       {[ "BTC"%string := map (fun strat => (strat, 1%Z)) available_strategies ]};
     random_state := sample_random |}.

(** The position status recorded for a coin, if any. *)
Definition status_of (self : AutonomousStrategy) (coin : string) : option PositionStatus :=
  position_status <$> strategies self !! coin.

(** What a strategy call of the source can end in: HOLD with the coin's
    record in cash, or a [TypeError]. *)
Definition holds_in_cash_or_raises (coin : string)
    (result : outcome Signal * AutonomousStrategy) : Prop :=
  (fst result = Ret HOLD /\ status_of (snd result) coin = Some CASH)
  \/ fst result = Raise TypeError.

(** The score of a strategy for a coin, if any. *)
Definition score_of (self : AutonomousStrategy) (coin strategy : string) : option Q :=
  d ← strategy_performance self !! coin; alist_get strategy d.

(** The trades handed to [append_trade_to_file], oldest first. *)
Definition logged_trades (self : SimulationBot) : list Trade :=
  omap (fun e => match e with TradeLogged t => Some t | _ => None end) (effects self).

(** [n] calls of a method in a row, each on the state the previous one left. *)
Fixpoint repeat_call {S} (n : nat) (c : M S unit) (s : S) : S :=
  match n with
  | O => s
  | S n' => repeat_call n' c (snd (c s))
  end.

(** The end-to-end scenario: a new bot with 10000 in cash buys BTC at 100
    and then sells at 110. *)
Definition scenario_start : SimulationBot :=
  new_bot (new_strategy 20 sample_random) 10000.
Definition scenario_buy : outcome unit * SimulationBot :=
  simulate_trade "BTC" "BTC/USD" BUY 100 1 1 ∅ scenario_start.
Definition scenario_sell : outcome unit * SimulationBot :=
  simulate_trade "BTC" "BTC/USD" SELL 110 1 1 {[ "BTC"%string := 110 ]} (snd scenario_buy).

(** The same scenario in the order of the polling loop, where the price
    update reaches the strategy object before any trade. *)
Definition scenario_start_observed : SimulationBot :=
  new_bot (snd (update_price_mean "BTC" 100 (new_strategy 20 sample_random))) 10000.
Definition scenario_buy_observed : outcome unit * SimulationBot :=
  simulate_trade "BTC" "BTC/USD" BUY 100 1 1 ∅ scenario_start_observed.
Definition scenario_sell_observed : outcome unit * SimulationBot :=
  simulate_trade "BTC" "BTC/USD" SELL 110 1 1 {[ "BTC"%string := 110 ]}
                 (snd scenario_buy_observed).

(** A bot holding five coins, the configured maximum of open positions. *)
Definition bot_at_maximum : SimulationBot :=
  set_holdings
    (list_to_map [("BTC", 1); ("ETH", 1); ("LTC", 1); ("XRP", 1); ("ADA", 1)]%string)
    (new_bot (new_strategy 20 sample_random) 10000).

(** ** Auxiliary notions for the proofs *)

(** The contribution of one holding to [get_open_trades_count]. *)
Definition counts_as_open (v : Q) : nat := if Qgtb v 0 then 1%nat else 0%nat.

(** Computations that leave the [holdings] dictionary alone. *)
Definition keeps_holdings {A} (c : M SimulationBot A) : Prop :=
  forall s, holdings (snd (c s)) = holdings s.

(** ** [retry_on_rate_limit]

    The wrapped function is given by what its successive invocations do:
    return a value, raise [YFRateLimitError], or raise something else.
    The state is the number of invocations made and the delays slept, in
    order. *)
Inductive call_result (A : Type) : Type :=
| Returned (a : A)
| RateLimited
| Failed (e : exn).
Arguments Returned {A} a.
Arguments RateLimited {A}.
Arguments Failed {A} e.

Record RetryLog : Type := {
  calls : nat;
  slept : list Z
}.

(** The [while retries < max_retries] loop; [remaining] is
    [max_retries - retries], and the result [None] of the wrapper is
    [none]. *)
Fixpoint retry_loop {A} (none : A) (func : nat -> call_result A)
    (remaining : nat) (delay : Z) (log : RetryLog) : outcome A * RetryLog :=
  match remaining with
  | O => (Ret none, log)
  | S remaining' =>
      match func (calls log) with
      | Returned a => (Ret a, {| calls := S (calls log); slept := slept log |})
      | Failed e => (Raise e, {| calls := S (calls log); slept := slept log |})
      | RateLimited =>
          retry_loop none func remaining' (delay * 2)
                     {| calls := S (calls log); slept := slept log ++ [delay] |}
      end
  end.

Definition retry_on_rate_limit {A} (none : A) (max_retries : nat) (initial_delay : Z)
    (func : nat -> call_result A) : outcome A * RetryLog :=
  retry_loop none func max_retries initial_delay {| calls := 0; slept := [] |}.

(** ** History files

    The contents of a history file as the list of its records.  Both
    [append_trade_history] and [append_price_history] append one record
    and keep the last [limit] records when the file has grown past it. *)
Definition MAX_PRICE_RECORDS : nat := 10 * 1000.
Definition MAX_TRADE_RECORDS : nat := 1000.

(** Append, then [records[-limit:]] (or [df.tail(limit)]) if the list is
    longer than [limit]; the limits of the source are positive. *)
Definition append_trimmed {A} (limit : nat) (records : list A) (record : A) : list A :=
  let records := records ++ [record] in
  if (limit <? length records)%nat then drop (length records - limit) records
  else records.

(** [append_trade_history], on the contents of the coin's JSON file. *)
Definition append_trade_history {A} (trades : list A) (trade : A) : list A :=
  append_trimmed MAX_TRADE_RECORDS trades trade.

(** [append_price_history], on the rows of the coin's CSV file. *)
Definition append_price_history {A} (rows : list A) (row : A) : list A :=
  append_trimmed MAX_PRICE_RECORDS rows row.

(** ** [CoinSelector]: scoring and selection *)

Definition MIN_SCORE_THRESHOLD : Q := 0.1.
Definition MIN_PROFIT_SCORE : Q := 10.

(** The attributes of a [CoinSelector] that scoring reads or writes.
    [price_history] is the attribute of that name, not the CSV file. *)
Record CoinSelector : Type := {
  price_history : gmap string (list Q);
  recent_scores : list Q;
  ticker_mapping : gmap string string
}.

Definition set_recent_scores (v : list Q) (self : CoinSelector) : CoinSelector :=
  {| price_history := price_history self; recent_scores := v;
     ticker_mapping := ticker_mapping self |}.

(** The table of [CoinSelector.__init__]. *)
Definition initial_ticker_mapping : gmap string string :=
  list_to_map
    [("BTC/USD", "BTC-USD"); ("ETH/USD", "ETH-USD"); ("LTC/USD", "LTC-USD");
     ("IMX/USD", "IMX-USD"); ("NEO/USD", "NEO-USD"); ("WLD/USD", "WLD-USD");
     ("AVAX/USD", "AVAX-USD"); ("ENA/USD", "ENA-USD"); ("DOT/USD", "DOT-USD");
     ("EGLD/USD", "EGLD-USD"); ("ETC/USD", "ETC-USD"); ("ZEC/USD", "ZEC-USD");
     ("DYDX/USD", "DYDX-USD"); ("ENS/USD", "ENS-USD"); ("INJ/USD", "INJ-USD");
     ("QTUM/USD", "QTUM-USD"); ("RUNE/USD", "RUNE-USD"); ("VET/USD", "VET-USD");
     ("MINA/USD", "MINA-USD"); ("AXS/USD", "AXS-USD"); ("PEOPLE/USD", "PEOPLE-USD");
     ("WIF/USD", "WIF-USD"); ("BNX/USD", "BNX-USD"); ("NEAR/USD", "NEAR-USD");
     ("TRX/USD", "TRX-USD"); ("PEPE/USD", "PEPE-USD"); ("RARE/USD", "RARE-USD");
     ("GALA/USD", "GALA-USD"); ("BCH/USD", "BCH-USD"); ("TRUMP/USD", "TRUMP-USD");
     ("FET/USD", "FET-USD"); ("ALGO/USD", "ALGO-USD"); ("SUI/USD", "SUI-USD");
     ("SHIB/USD", "SHIB-USD"); ("ACH/USD", "ACH-USD"); ("DOGE/USD", "DOGE-USD");
     ("FLOKI/USD", "FLOKI-USD"); ("EOS/USD", "EOS-USD"); ("CAKE/USD", "CAKE-USD");
     ("OM/USD", "OM-USD"); ("RENDER/USD", "RENDER-USD"); ("ADA/USD", "ADA-USD");
     ("TAO/USD", "TAO-USD"); ("XRP/USD", "XRP-USD"); ("PENDLE/USD", "PENDLE-USD");
     ("ZIL/USD", "ZIL-USD"); ("HBAR/USD", "HBAR-USD"); ("SOL/USD", "SOL-USD");
     ("BERA/USD", "BERA-USD"); ("TON/USD", "TON-USD"); ("AR/USD", "AR-USD");
     ("SUSHI/USD", "SUSHI-USD"); ("BNB/USD", "BNB-USD"); ("JASMY/USD", "JASMY-USD");
     ("ATOM/USD", "ATOM-USD"); ("GRT/USD", "GRT-USD"); ("CRV/USD", "CRV-USD");
     ("SUPER/USD", "SUPER-USD"); ("POL/USD", "POL-USD"); ("ICP/USD", "ICP-USD");
     ("AAVE/USD", "AAVE-USD"); ("SAND/USD", "SAND-USD"); ("XLM/USD", "XLM-USD");
     ("FIL/USD", "FIL-USD"); ("LINK/USD", "LINK-USD"); ("XTZ/USD", "XTZ-USD");
     ("STRAX/USD", "STRAX-USD"); ("EIGEN/USD", "EIGEN-USD"); ("S/USD", "S-USD");
     ("UNI/USD", "UNI-USD"); ("APT/USD", "APT-USD")]%string.

(** [CoinSelector.__init__] *)
Definition new_coin_selector : CoinSelector :=
  {| price_history := ∅; recent_scores := []; ticker_mapping := initial_ticker_mapping |}.

(** Truthiness of a string: the empty string is falsy. *)
Definition nonempty_string (s : string) : bool :=
  match s with EmptyString => false | String _ _ => true end.

(** [np.mean] *)
Definition np_mean (xs : list Q) : Q := sum_Q xs / inject_Z (Z.of_nat (length xs)).

Section Scoring.

(** [numpy.std] *)
Variable np_std : list Q -> Q.
(** [read_price_history] and [read_trade_history]: the prices in the
    coin's CSV file, and for each trade in its JSON file the value under
    ["profit_pct"] when the key is there. *)
Variable read_price_history : string -> list Q.
Variable read_trade_history : string -> list (option Q).
(** [fetch_historical_data]: the close series, or [None]. *)
Variable fetch_historical_data : string -> option (list Q).
(** The pandas computations of [calculate_historical_metrics], on the
    local series and on the fetched one. *)
Variable local_metrics : list Q -> Q * Q * Q.
Variable fetched_metrics : list Q -> Q * Q * Q.

(** [calculate_historical_metrics] *)
Definition calculate_historical_metrics (hist : option (list Q)) (coin : string)
    : M CoinSelector (Q * Q * Q) :=
  fun self =>
    let from_hist :=
      match hist with
      | None => (0, 0, 0)
      | Some closes => if (length closes <? 50)%nat then (0, 0, 0) else fetched_metrics closes
      end in
    if nonempty_string coin then
      match price_history self !! coin with
      | None => (Raise KeyError, self)
      | Some records =>
          if (0 <? length records)%nat && (50 <=? length records)%nat
          then (Ret (local_metrics records), self)
          else (Ret from_hist, self)
      end
    else (Ret from_hist, self).

(** The first term of the score: short-term volatility. *)
Definition volatility_term (coin : string) : Q :=
  let price_history := read_price_history coin in
  if (0 <? length price_history)%nat && (10 <=? length price_history)%nat
  then np_std price_history / np_mean price_history * 50
  else 0.1.

(** The second term: average profit and win rate of past trades. *)
Definition trade_term (coin : string) : Q :=
  let trade_history := read_trade_history coin in
  match trade_history with
  | [] => 0.2
  | _ =>
      let profits := omap id trade_history in
      let avg_profit := match profits with [] => 0 | _ => np_mean profits end in
      let win_rate :=
        match profits with
        | [] => 0.5
        | _ => inject_Z (Z.of_nat (length (List.filter (fun p => Qgtb p 0) profits)))
               / inject_Z (Z.of_nat (length profits))
        end in
      avg_profit * 10 + win_rate * 20
  end.

(** [calculate_coin_score] *)
Definition calculate_coin_score (coin pair : string) : M CoinSelector Q :=
  let score := 0 in
  let score := score + volatility_term coin in
  let score := score + trade_term coin in
  ticker <- gets (fun self => ticker_mapping self !! pair) ;;
  score <-
    match ticker with
    | Some (String _ _ as ticker) =>
        let hist := fetch_historical_data ticker in
        metrics <- calculate_historical_metrics hist coin ;;
        let annualized_return := fst (fst metrics) in
        let long_term_volatility := snd (fst metrics) in
        let ma_signal := snd metrics in
        ret (score + annualized_return * 0.5 + long_term_volatility * 0.2 + ma_signal * 10)
    | _ => ret (score + 0.1)
    end ;;
  let score := py_max score MIN_SCORE_THRESHOLD in
  modify (fun self =>
    let scores := recent_scores self ++ [score] in
    set_recent_scores (if (100 <? length scores)%nat then tail scores else scores) self) ;;
  ret score.

End Scoring.

(** [list.sort(key=lambda x: x[2], reverse=True)]: descending by score,
    candidates with equal scores in their original order. *)
Fixpoint insert_by_score (x : string * string * Q) (sorted : list (string * string * Q))
    : list (string * string * Q) :=
  match sorted with
  | [] => [x]
  | y :: rest =>
      if Qgtb (snd y) (snd x) then y :: insert_by_score x rest else x :: y :: rest
  end.

Definition sort_by_score (l : list (string * string * Q)) : list (string * string * Q) :=
  foldr insert_by_score [] l.

(** [get_dynamic_score_threshold], with [np.percentile(scores, 75)] as a
    parameter. *)
Definition get_dynamic_score_threshold (percentile75 : list Q -> Q) (self : CoinSelector) : Q :=
  match recent_scores self with
  | [] => MIN_PROFIT_SCORE
  | scores => percentile75 scores
  end.

(** The selection at the end of [select_coins], from the scored
    candidates [(coin, pair, score)] and the dynamic threshold. *)
Definition select_from_scores (dynamic_threshold : Q) (coin_scores : list (string * string * Q))
    : list (string * string) :=
  let min_profit_score := py_max MIN_PROFIT_SCORE dynamic_threshold in
  let coin_scores := sort_by_score coin_scores in
  let selected :=
    map fst (List.filter (fun c => Qgeb (snd c) min_profit_score) coin_scores) in
  match selected, coin_scores with
  | [], top :: _ => [fst top]
  | _, _ => selected
  end.

(** ** Auxiliary notions for the additional properties *)

(** No negative balance and no negative holding. *)
Definition solvent (self : SimulationBot) : Prop :=
  0 <= cash self /\ forall c, 0 <= get_or_zero (holdings self) c.

(** The trade count of a strategy for a coin, if any. *)
Definition count_of (self : AutonomousStrategy) (coin strategy : string) : option Z :=
  d ← strategy_trade_count self !! coin; alist_get strategy d.


(** The bot after the statements of [simulate_trade] that precede the
    signal test: the valuation is appended to the risk manager's series,
    the coin has its default entries and the price is logged. *)
Definition after_sizing (self : SimulationBot) (coin : string) (price : Q)
    (prices : gmap string Q) : SimulationBot :=
  {| strategy := strategy self;
     portfolio_values := portfolio_values self ++ [portfolio_value self prices];
     cash := cash self;
     holdings := setdefault coin 0 (holdings self);
     entry_prices := setdefault coin [] (entry_prices self);
     initial_portfolio_value := initial_portfolio_value self;
     trade_count := trade_count self;
     profitable_trades := profitable_trades self;
     effects := effects self ++ [PriceAppended coin price] |}.

(** The quantity [simulate_trade] computes for an attempt. *)
Definition sized_quantity (self : SimulationBot) (price score total_score : Q)
    (prices : gmap string Q) : outcome Q :=
  calculate_trade_amount price (portfolio_value self prices) score total_score
                         (position_value (holdings self) prices).

(** The entry-price queue of a coin, empty when the coin has none. *)
Definition queue_of (self : SimulationBot) (coin : string) : list Q :=
  default [] (entry_prices self !! coin).

(** No later candidate scores higher than the first one. *)
Definition head_is_best (l : list (string * string * Q)) : Prop :=
  match l with
  | [] => True
  | top :: rest => Forall (fun c => snd c <= snd top) rest
  end.

(** ** The polling loop: one coin

    The statements of [run_simulation] for one selected coin, from the
    price update on; [prices] and [total_score] are the loop's
    dictionaries at that point.  The loop catches and logs whatever this
    raises. *)
Definition trade_on_signal (np_std : list Q -> Q) (talib_last : list Q -> Indicators)
    (coin pair : string) (price score total_score : Q) (prices : gmap string Q)
    : M SimulationBot unit :=
  lift_strategy (update_price_mean coin price) ;;
  signal <- lift_strategy (generate_signal np_std talib_last coin price) ;;
  match signal with
  | BUY | SELL => simulate_trade coin pair signal price score total_score prices
  | HOLD => ret tt
  end.

(** * Properties *)

(** ** Python comparisons *)

Lemma Qltb_lt (a b : Q) : Qltb a b = true <-> a < b.
Proof.
  unfold Qltb. rewrite negb_true_iff, <- not_true_iff_false, Qle_bool_iff.
  split; [apply Qnot_le_lt | apply Qlt_not_le].
Qed.

Lemma Qltb_ge (a b : Q) : Qltb a b = false <-> b <= a.
Proof.
  unfold Qltb. rewrite negb_false_iff. apply Qle_bool_iff.
Qed.

Lemma py_max_cases (a b : Q) :
  (a < b /\ py_max a b = b) \/ (b <= a /\ py_max a b = a).
Proof.
  unfold py_max. destruct (Qltb a b) eqn:E.
  - left. split; [by apply Qltb_lt | done].
  - right. split; [by apply Qltb_ge | done].
Qed.

Lemma py_min_cases (a b : Q) :
  (b < a /\ py_min a b = b) \/ (a <= b /\ py_min a b = a).
Proof.
  unfold py_min. destruct (Qltb b a) eqn:E.
  - left. split; [by apply Qltb_lt | done].
  - right. split; [by apply Qltb_ge | done].
Qed.

Lemma py_max_lower_l (a b : Q) : a <= py_max a b.
Proof. destruct (py_max_cases a b) as [[? ->] | [? ->]]; lra. Qed.

Lemma py_max_lower_r (a b : Q) : b <= py_max a b.
Proof. destruct (py_max_cases a b) as [[? ->] | [? ->]]; lra. Qed.

Lemma py_min_upper_l (a b : Q) : py_min a b <= a.
Proof. destruct (py_min_cases a b) as [[? ->] | [? ->]]; lra. Qed.

Lemma py_min_upper_r (a b : Q) : py_min a b <= b.
Proof. destruct (py_min_cases a b) as [[? ->] | [? ->]]; lra. Qed.


(** ** The risk sizer *)








(** ** Risk levels *)


(** ** State lookup *)

Lemma random_choice_available (self : AutonomousStrategy) :
  exists strat, random_choice available_strategies self = (Ret strat, advance_random self).
Proof.
  unfold random_choice.
  set (i := (_ mod _)%nat).
  assert (Hi : (i < length available_strategies)%nat).
  { apply Nat.mod_upper_bound. simpl. lia. }
  destruct (lookup_lt_is_Some_2 _ _ Hi) as [strat Hs].
  exists strat. by rewrite Hs.
Qed.

Lemma get_strategy_state_known (self : AutonomousStrategy) (coin : string) :
  is_Some (strategies self !! coin) ->
  get_strategy_state coin self = (Ret PyNone, self).
Proof.
  intros [r Hr]. unfold get_strategy_state. by rewrite Hr.
Qed.

Lemma init_price_data_strategies (coin : string) (self : AutonomousStrategy) :
  fst (init_price_data coin self) = Ret tt /\
  strategies (snd (init_price_data coin self)) = strategies self.
Proof. unfold init_price_data. by destruct (price_data self !! coin). Qed.

Lemma init_performance_strategies (coin : string) (self : AutonomousStrategy) :
  fst (init_performance coin self) = Ret tt /\
  strategies (snd (init_performance coin self)) = strategies self.
Proof. unfold init_performance. by destruct (strategy_performance self !! coin). Qed.

Lemma get_strategy_state_first (self : AutonomousStrategy) (coin : string) :
  strategies self !! coin = None ->
  exists strat self',
    get_strategy_state coin self = (Ret (StateOf coin), self') /\
    strategies self' = <[coin := fresh_state strat]> (strategies self).
Proof.
  intros Hnone. unfold get_strategy_state. rewrite Hnone.
  destruct (random_choice_available self) as [strat Hc].
  exists strat. unfold bind at 1. rewrite Hc.
  unfold bind at 1, modify.
  set (s1 := set_strategies _ _).
  unfold bind at 1.
  destruct (init_price_data_strategies coin s1) as [Ho1 Hs1].
  destruct (init_price_data coin s1) as [o1 s2]; simpl in Ho1, Hs1; subst o1.
  unfold bind at 1.
  destruct (init_performance_strategies coin s2) as [Ho2 Hs2].
  destruct (init_performance coin s2) as [o2 s3]; simpl in Ho2, Hs2; subst o2.
  exists s3. split; [reflexivity |].
  by rewrite Hs2, Hs1.
Qed.

(** C1, as the code has it: after a first call for a coin the record
    exists, and the next call for that coin returns [None] instead of the
    record, leaving the object as it is; so the first price update of a
    coin succeeds and the second one raises [TypeError]. *)
Theorem get_strategy_state_later_call_returns_None (self : AutonomousStrategy) (coin : string) :
  let self1 := snd (get_strategy_state coin self) in
  is_Some (strategies self1 !! coin) /\
  get_strategy_state coin self1 = (Ret PyNone, self1) /\
  fst (update_price_mean "BTC" 100 (new_strategy 20 sample_random)) = Ret tt /\
  fst (update_price_mean "BTC" 101
         (snd (update_price_mean "BTC" 100 (new_strategy 20 sample_random))))
    = Raise TypeError.
Proof.
  intros self1.
  assert (Hknown : is_Some (strategies self1 !! coin)).
  { subst self1. destruct (strategies self !! coin) as [r |] eqn:Hr.
    - rewrite get_strategy_state_known by eauto. simpl. eauto.
    - destruct (get_strategy_state_first self coin Hr) as (strat & self' & -> & Hs).
      simpl. rewrite Hs, lookup_insert_eq. eauto. }
  split; [done |]. split; [by apply get_strategy_state_known |].
  split; vm_compute; reflexivity.
Qed.

(** ** The ledger: the end-to-end scenario *)

(** C8: from cash 10000 and no holdings, the BUY is sized at 5 and
    executed, leaving cash 9499.5, 5 BTC and the entry queue [100]; the
    SELL at 110 is executed with sale amount 550, commission 0.55, net
    proceeds 549.45, cash 10048.95 and a recorded profit percentage of
    (549.45 / (5 * 100 * 1.001) - 1) * 100, which lies between 9.78 and 9.79. *)
Theorem buy_then_sell_scenario :
  (exists qty, calculate_trade_amount 100 10000 1 1 0 = Ret qty /\ qty == 5) /\
  fst scenario_buy = Ret tt /\
  cash (snd scenario_buy) == 9499.5 /\
  cash (snd scenario_buy) == 10000 - 5 * 100 * 1.001 /\
  get_or_zero (holdings (snd scenario_buy)) "BTC" == 5 /\
  entry_prices (snd scenario_buy) !! "BTC"%string = Some [100] /\
  fst scenario_sell = Ret tt /\
  get_or_zero (holdings (snd scenario_sell)) "BTC" == 0 /\
  cash (snd scenario_sell) == 10048.95 /\
  exists bought sold pct,
    logged_trades (snd scenario_sell) = [bought; sold] /\
    action sold = SELL /\ amount sold == 5 /\
    gross sold == 550 /\ commission sold == 0.55 /\ net sold == 549.45 /\
    cash_balance sold == 10048.95 /\
    profit_pct sold = Some pct /\
    pct == (549.45 / (5 * 100 * 1.001) - 1) * 100 /\
    9.78 < pct /\ pct < 9.79.
Proof.
  split; [eexists; split; [reflexivity | reflexivity] |].
  repeat (split; [vm_compute; reflexivity |]).
  do 3 eexists.
  split; [vm_compute; reflexivity |].
  repeat split; vm_compute; reflexivity.
Qed.

(** When the strategy object already has a record for the coin, the SELL
    updates the ledger in the same way and then raises [TypeError] at
    [state["active_strategy"]]: the trade is never handed to the log. *)
Lemma sell_of_observed_coin_raises_after_ledger_update :
  fst scenario_buy_observed = Ret tt /\
  fst scenario_sell_observed = Raise TypeError /\
  cash (snd scenario_sell_observed) == 10048.95 /\
  get_or_zero (holdings (snd scenario_sell_observed)) "BTC" == 0 /\
  trade_count (snd scenario_sell_observed) = 1%Z /\
  length (logged_trades (snd scenario_sell_observed)) = 1%nat.
Proof. repeat split; vm_compute; reflexivity. Qed.

(** ** The ledger: rejected SELL requests *)

Lemma get_or_zero_setdefault (h : gmap string Q) (coin c : string) :
  get_or_zero (setdefault coin 0 h) c = get_or_zero h c.
Proof.
  unfold setdefault, get_or_zero.
  destruct (h !! coin) eqn:Hc; [done |].
  destruct (decide (coin = c)) as [-> | Hne].
  - by rewrite lookup_insert_eq, Hc.
  - by rewrite lookup_insert_ne.
Qed.

Lemma queue_setdefault (e : gmap string (list Q)) (coin c : string) :
  default [] (setdefault coin [] e !! c) = default [] (e !! c).
Proof.
  unfold setdefault.
  destruct (e !! coin) eqn:Hc; [done |].
  destruct (decide (coin = c)) as [-> | Hne].
  - by rewrite lookup_insert_eq, Hc.
  - by rewrite lookup_insert_ne.
Qed.

Lemma Qgeb_false (a b : Q) : a < b -> Qgeb a b = false.
Proof.
  intros Hlt. unfold Qgeb. apply not_true_iff_false.
  rewrite Qle_bool_iff. by apply Qlt_not_le.
Qed.

(** What a SELL call does when the computed quantity exceeds the holding:
    the valuation is appended to the risk manager's series, the coin gets
    its default entries, the price is logged, and nothing else happens. *)
Lemma simulate_trade_oversized_sell
    (self : SimulationBot) (coin pair : string) (price score total qty : Q)
    (prices : gmap string Q) :
  calculate_trade_amount price (portfolio_value self prices) score total
                         (position_value (holdings self) prices) = Ret qty ->
  get_or_zero (holdings self) coin < qty ->
  simulate_trade coin pair SELL price score total prices self =
    (Ret tt,
     {| strategy := strategy self;
        portfolio_values := portfolio_values self ++ [portfolio_value self prices];
        cash := cash self;
        holdings := setdefault coin 0 (holdings self);
        entry_prices := setdefault coin [] (entry_prices self);
        initial_portfolio_value := initial_portfolio_value self;
        trade_count := trade_count self;
        profitable_trades := profitable_trades self;
        effects := effects self ++ [PriceAppended coin price] |}).
Proof.
  intros Hqty Hlt.
  unfold simulate_trade, bind, update_portfolio_value, gets, lift_outcome, emit, modify.
  cbn [holdings set_portfolio_values set_holdings set_entry_prices cash fst snd].
  rewrite Hqty.
  cbn [signal_eqb andb holdings set_portfolio_values set_holdings set_entry_prices].
  rewrite get_or_zero_setdefault, (Qgeb_false _ _ Hlt).
  reflexivity.
Qed.

(** C5: a SELL whose computed quantity exceeds the quantity held is
    rejected without an exception, and cash, every held quantity, every
    entry-price queue and the trade count are as before. *)
Theorem oversized_sell_changes_nothing
    (self : SimulationBot) (coin pair : string) (price score total qty : Q)
    (prices : gmap string Q) :
  calculate_trade_amount price (portfolio_value self prices) score total
                         (position_value (holdings self) prices) = Ret qty ->
  get_or_zero (holdings self) coin < qty ->
  let result := simulate_trade coin pair SELL price score total prices self in
  fst result = Ret tt /\
  cash (snd result) = cash self /\
  (forall c, get_or_zero (holdings (snd result)) c = get_or_zero (holdings self) c) /\
  (forall c, default [] (entry_prices (snd result) !! c) = default [] (entry_prices self !! c)) /\
  trade_count (snd result) = trade_count self /\
  profitable_trades (snd result) = profitable_trades self /\
  strategy (snd result) = strategy self /\
  logged_trades (snd result) = logged_trades self.
Proof.
  intros Hqty Hlt result. subst result.
  rewrite (simulate_trade_oversized_sell _ _ _ _ _ _ _ _ Hqty Hlt).
  cbn [fst snd cash holdings entry_prices trade_count profitable_trades strategy].
  repeat split.
  - intros c. apply get_or_zero_setdefault.
  - intros c. apply queue_setdefault.
  - unfold logged_trades. cbn [effects]. rewrite omap_app. cbn. by rewrite app_nil_r.
Qed.

Lemma oversized_sell_changes_nothing_witness :
  let self := snd scenario_buy in
  let result := simulate_trade "BTC" "BTC/USD" SELL 1 1 1 {[ "BTC"%string := 1 ]} self in
  fst result = Ret tt /\
  cash (snd result) = cash self /\
  (forall c, get_or_zero (holdings (snd result)) c = get_or_zero (holdings self) c) /\
  (forall c, default [] (entry_prices (snd result) !! c) = default [] (entry_prices self !! c)) /\
  trade_count (snd result) = trade_count self /\
  profitable_trades (snd result) = profitable_trades self /\
  strategy (snd result) = strategy self /\
  logged_trades (snd result) = logged_trades self.
Proof.
  apply (oversized_sell_changes_nothing (snd scenario_buy) "BTC" "BTC/USD" 1 1 1
           475.2250 {[ "BTC"%string := 1 ]}).
  - vm_compute. reflexivity.
  - vm_compute. reflexivity.
Defined.

(** ** The ledger: the open-position limit *)

Lemma filter_length_Permutation {A} (f : A -> bool) (l l' : list A) :
  l ≡ₚ l' -> length (List.filter f l) = length (List.filter f l').
Proof.
  induction 1 as [| x l l' _ IH | x y l | l l' l'' _ IH1 _ IH2]; simpl.
  - done.
  - destruct (f x); simpl; by rewrite IH.
  - by destruct (f x), (f y).
  - by rewrite IH1.
Qed.

Lemma open_trades_insert_fresh (h : gmap string Q) (k : string) (v : Q) :
  h !! k = None -> open_trades (<[k := v]> h) = (counts_as_open v + open_trades h)%nat.
Proof.
  intros Hk. unfold open_trades, counts_as_open.
  rewrite (filter_length_Permutation _ _ _ (map_to_list_insert h k v Hk)).
  simpl. by destruct (Qgtb v 0).
Qed.

Lemma open_trades_delete (h : gmap string Q) (k : string) (v : Q) :
  h !! k = Some v -> open_trades h = (counts_as_open v + open_trades (delete k h))%nat.
Proof.
  intros Hk. unfold open_trades, counts_as_open.
  rewrite <- (filter_length_Permutation _ _ _ (map_to_list_delete h k v Hk)).
  simpl. by destruct (Qgtb v 0).
Qed.

Lemma counts_as_open_le (v : Q) : (counts_as_open v <= 1)%nat.
Proof. unfold counts_as_open. destruct (Qgtb v 0); lia. Qed.

Lemma open_trades_insert (h : gmap string Q) (k : string) (v : Q) :
  (open_trades (<[k := v]> h) <= counts_as_open v + open_trades h)%nat.
Proof.
  destruct (h !! k) as [v0 |] eqn:Hk.
  - rewrite <- insert_delete_eq.
    rewrite open_trades_insert_fresh by apply lookup_delete_eq.
    rewrite (open_trades_delete h k v0 Hk). lia.
  - rewrite open_trades_insert_fresh by done. lia.
Qed.

Lemma open_trades_insert_zero (h : gmap string Q) (k : string) :
  (open_trades (<[k := 0%Q]> h) <= open_trades h)%nat.
Proof. apply (open_trades_insert h k 0). Qed.

Lemma open_trades_setdefault (h : gmap string Q) (k : string) :
  open_trades (setdefault k 0 h) = open_trades h.
Proof.
  unfold setdefault. destruct (h !! k) eqn:Hk; [done |].
  by rewrite open_trades_insert_fresh.
Qed.

Lemma keeps_holdings_bind {A B} (c : M SimulationBot A) (k : A -> M SimulationBot B) :
  keeps_holdings c -> (forall a, keeps_holdings (k a)) -> keeps_holdings (bind c k).
Proof.
  intros Hc Hk s. unfold bind. specialize (Hc s).
  destruct (c s) as [[a | e] s']; simpl in *; [| done].
  by rewrite Hk.
Qed.

Lemma keeps_holdings_ret {A} (a : A) : keeps_holdings (ret a).
Proof. done. Qed.

Lemma keeps_holdings_gets {A} (f : SimulationBot -> A) : keeps_holdings (gets f).
Proof. done. Qed.

Lemma keeps_holdings_emit (e : Event) : keeps_holdings (emit e).
Proof. done. Qed.

Lemma keeps_holdings_lift_strategy {A} (c : M AutonomousStrategy A) :
  keeps_holdings (lift_strategy c).
Proof. done. Qed.

Lemma keeps_holdings_modify (f : SimulationBot -> SimulationBot) :
  (forall s, holdings (f s) = holdings s) -> keeps_holdings (modify f).
Proof. intros Hf s. apply Hf. Qed.

Create HintDb ledger discriminated.
#[local] Hint Resolve keeps_holdings_ret keeps_holdings_gets keeps_holdings_emit
  keeps_holdings_lift_strategy : ledger.

Ltac keeps_holdings_step :=
  first
    [ apply keeps_holdings_bind; [| intros ?]
    | apply keeps_holdings_modify; intros ?; reflexivity
    | solve [auto with ledger] ].

Lemma sell_branch_holdings (coin pair : string) (price : Q) (s : SimulationBot) :
  holdings (snd (sell_branch coin pair price s)) = <[coin := 0]> (holdings s).
Proof.
  unfold sell_branch.
  unfold bind at 1, gets. unfold bind at 1, modify.
  match goal with |- holdings (snd (?c ?s0)) = _ =>
    assert (Hk : keeps_holdings c); [| by rewrite Hk] end.
  repeat keeps_holdings_step.
  destruct a1; repeat keeps_holdings_step.
  destruct (Qgtb _ _); repeat keeps_holdings_step.
Qed.

Lemma buy_branch_holdings (coin pair : string) (price qty : Q) (s : SimulationBot) :
  holdings (snd (buy_branch coin pair price qty s))
    = <[coin := get_or_zero (holdings s) coin + qty]> (holdings s).
Proof.
  unfold buy_branch.
  unfold bind at 1, modify.
  match goal with |- holdings (snd (?c ?s0)) = _ =>
    assert (Hk : keeps_holdings c); [| by rewrite Hk] end.
  repeat keeps_holdings_step.
Qed.

(** One call of [simulate_trade], whatever its arguments and however it
    ends, keeps the number of open positions within the limit. *)
Lemma simulate_trade_open_trades
    (self : SimulationBot) (coin pair : string) (signal : Signal)
    (price score total : Q) (prices : gmap string Q) :
  (open_trades (holdings self) <= MAX_OPEN_TRADES)%nat ->
  (open_trades (holdings (snd (simulate_trade coin pair signal price score total prices self)))
     <= MAX_OPEN_TRADES)%nat.
Proof.
  intros Hinv.
  unfold simulate_trade, bind, update_portfolio_value, get_open_trades_count, gets,
    lift_outcome, emit, modify.
  cbn [holdings set_portfolio_values set_holdings set_entry_prices cash fst snd].
  destruct (calculate_trade_amount _ _ _ _ _) as [qty | e]; [| done].
  cbn [holdings set_portfolio_values set_holdings set_entry_prices cash fst snd].
  set (s0 := Build_SimulationBot _ _ _ _ _ _ _ _ _).
  assert (Hs0 : holdings s0 = setdefault coin 0 (holdings self)) by done.
  assert (H0 : (open_trades (holdings s0) <= MAX_OPEN_TRADES)%nat).
  { by rewrite Hs0, open_trades_setdefault. }
  destruct (signal_eqb signal BUY && _).
  - destruct (MAX_OPEN_TRADES <=? open_trades (holdings s0))%nat eqn:Hfull; [exact H0 |].
    apply Nat.leb_gt in Hfull.
    destruct (Qle_bool _ _); [| exact H0].
    rewrite buy_branch_holdings.
    pose proof (open_trades_insert (holdings s0) coin
                  (get_or_zero (holdings s0) coin + qty)) as Hle.
    pose proof (counts_as_open_le (get_or_zero (holdings s0) coin + qty)).
    lia.
  - destruct (signal_eqb signal SELL && _); [| exact H0].
    rewrite sell_branch_holdings.
    pose proof (open_trades_insert_zero (holdings s0) coin). lia.
Qed.

Lemma ledger_trace_open_trades (attempts : list Attempt) (self : SimulationBot) :
  (open_trades (holdings self) <= MAX_OPEN_TRADES)%nat ->
  Forall (fun s => (open_trades (holdings s) <= MAX_OPEN_TRADES)%nat)
         (ledger_trace attempts self).
Proof.
  revert self. induction attempts as [| a rest IH]; intros self Hinv; simpl.
  - constructor.
  - assert (Hstep : (open_trades (holdings (attempt a self)) <= MAX_OPEN_TRADES)%nat)
      by (by apply simulate_trade_open_trades).
    constructor; [done | by apply IH].
Qed.

(** ** Strategy scores: decay *)

Lemma update_strategy_performance_no_reward
    (coin strategy : string) (signal : Signal) (self : AutonomousStrategy)
    (d : list (string * Q)) :
  signal_eqb signal BUY = false ->
  strategy_performance self !! coin = Some d ->
  update_strategy_performance coin strategy signal 0 self =
    (Ret tt, set_strategy_performance (<[coin := decay_scores d]>) self).
Proof.
  intros Hsig Hd. unfold update_strategy_performance, bind, ret, apply_decay.
  destruct signal; [discriminate Hsig | |]; simpl; by rewrite Hd.
Qed.

Lemma repeat_call_no_reward
    (coin strategy : string) (signal : Signal) (n : nat) (self : AutonomousStrategy)
    (d : list (string * Q)) :
  signal_eqb signal BUY = false ->
  strategy_performance self !! coin = Some d ->
  strategy_performance
    (repeat_call n (update_strategy_performance coin strategy signal 0) self) !! coin
  = Some (Nat.iter n decay_scores d).
Proof.
  intros Hsig. revert self d. induction n as [| n IH]; intros self d Hd; simpl.
  - done.
  - rewrite (update_strategy_performance_no_reward _ _ _ _ _ Hsig Hd). simpl.
    rewrite (IH _ (decay_scores d)).
    + f_equal. clear. induction n as [| n IHn]; simpl; [done | by rewrite IHn].
    + simpl. apply lookup_insert_eq.
Qed.

Lemma alist_get_decay_scores (k : string) (d : list (string * Q)) :
  alist_get k (decay_scores d) = (fun x => x * decay_factor) <$> alist_get k d.
Proof.
  induction d as [| [k' v] d IH]; simpl; [done |].
  by destruct (String.eqb k k').
Qed.

Lemma decay_factor_pow_succ (n : nat) :
  decay_factor ^ Z.of_nat (S n) == decay_factor ^ Z.of_nat n * decay_factor.
Proof.
  rewrite Nat2Z.inj_succ. unfold Z.succ.
  rewrite Qpower_plus' by lia. reflexivity.
Qed.

Lemma alist_get_iter_decay (k : string) (d : list (string * Q)) (x : Q) (n : nat) :
  alist_get k d = Some x ->
  exists y, alist_get k (Nat.iter n decay_scores d) = Some y /\
            y == x * decay_factor ^ Z.of_nat n.
Proof.
  intros Hx. induction n as [| n (y & Hy & Heq)].
  - exists x. split; [done |]. simpl. lra.
  - exists (y * decay_factor). split.
    + simpl. by rewrite alist_get_decay_scores, Hy.
    + rewrite decay_factor_pow_succ, Heq. lra.
Qed.

Lemma for_each_all_hold
    (state : pyref) (coin : string) (price : Q) (signals : list (string * Signal))
    (self : AutonomousStrategy) :
  Forall (fun entry => snd entry = HOLD) signals ->
  for_each signals (update_performance_for state coin price) self = (Ret tt, self).
Proof.
  induction 1 as [| [strat sig] rest Hhold _ IH]; simpl; [done |].
  simpl in Hhold. subst sig. unfold bind, update_performance_for. simpl. exact IH.
Qed.

(** C4, as stated, fails: a cycle in which every strategy signals HOLD
    leaves a score of 0.1 at 0.1, not at 0.1 * 0.99.  As the source is
    written the cycle ends in a [TypeError] before any signal is
    computed; with the state lookup returning the record it completes
    with five HOLD signals.  The score is untouched either way. *)
Lemma idle_cycle_leaves_scores_undecayed :
  fst (generate_signal sample_std sample_talib "BTC" 100 btc_warming_up) = Raise TypeError /\
  score_of (snd (generate_signal sample_std sample_talib "BTC" 100 btc_warming_up))
           "BTC" "combined" = Some 0.1 /\
  fst (evaluate_strategies_via sample_std sample_talib get_strategy_state_dedented
         "BTC" 100 btc_warming_up) =
    Ret (StateOf "BTC", "mean_reversion"%string,
         [("mean_reversion", HOLD); ("macd_crossover", HOLD); ("rsi_strategy", HOLD);
          ("bollinger_bands", HOLD); ("combined", HOLD)]%string) /\
  fst (generate_signal_via sample_std sample_talib get_strategy_state_dedented
         "BTC" 100 btc_warming_up) = Ret HOLD /\
  score_of (snd (generate_signal_via sample_std sample_talib get_strategy_state_dedented
                   "BTC" 100 btc_warming_up))
           "BTC" "combined" = Some 0.1 /\
  ~ 0.1 == 0.1 * decay_factor ^ 1.
Proof.
  repeat split; try (vm_compute; reflexivity).
  vm_compute. congruence.
Qed.

(** C4, amended: every call of [update_strategy_performance] multiplies
    each score of the coin by the decay factor, so [n] calls that add no
    reward (signal HOLD, or SELL with a zero profit) leave each score at
    its starting value times 0.99 ^ n (0.1 becomes about 0.0366 after 100
    of them); the loop of [generate_signal] makes such a call only for a
    BUY or SELL signal, so with every signal at HOLD it changes nothing. *)
Theorem scores_decay_per_update_not_per_idle_cycle
    (coin strategy : string) (signal : Signal) (self : AutonomousStrategy)
    (d : list (string * Q)) (n : nat) :
  signal_eqb signal BUY = false ->
  strategy_performance self !! coin = Some d ->
  (forall strat start,
      alist_get strat d = Some start ->
      exists score,
        score_of (repeat_call n (update_strategy_performance coin strategy signal 0) self)
                 coin strat = Some score /\
        score == start * decay_factor ^ Z.of_nat n) /\
  (forall state price signals s,
      Forall (fun entry => snd entry = HOLD) signals ->
      for_each signals (update_performance_for state coin price) s = (Ret tt, s)) /\
  0.0366 < 0.1 * decay_factor ^ 100 /\ 0.1 * decay_factor ^ 100 < 0.0367.
Proof.
  intros Hsig Hd. split; [| split; [| split]].
  - intros strat start Hstart.
    destruct (alist_get_iter_decay strat d start n Hstart) as (y & Hy & Heq).
    exists y. split; [| done].
    unfold score_of. rewrite (repeat_call_no_reward _ _ _ _ _ _ Hsig Hd). simpl. exact Hy.
  - intros state price signals s Hall. by apply for_each_all_hold.
  - vm_compute. reflexivity.
  - vm_compute. reflexivity.
Qed.

Lemma scores_decay_per_update_not_per_idle_cycle_witness :
  signal_eqb SELL BUY = false /\
  strategy_performance btc_warming_up !! "BTC"%string
    = Some (map (fun strat => (strat, 0.1)) available_strategies) /\
  exists score,
    score_of (repeat_call 100 (update_strategy_performance "BTC" "combined" SELL 0)
                          btc_warming_up)
             "BTC" "combined" = Some score /\
    score == 0.1 * decay_factor ^ Z.of_nat 100.
Proof.
  split; [reflexivity |]. split; [reflexivity |].
  apply (scores_decay_per_update_not_per_idle_cycle "BTC" "combined" SELL btc_warming_up
           (map (fun strat => (strat, 0.1)) available_strategies) 100).
  - reflexivity.
  - reflexivity.
  - reflexivity.
Defined.

(** ** The strategies: stepping through a method *)

Lemma bind_ret_step {S A B} (c : M S A) (k : A -> M S B) (s s' : S) (a : A) :
  c s = (Ret a, s') -> bind c k s = k a s'.
Proof. intros Hc. unfold bind. by rewrite Hc. Qed.

Lemma bind_raise_step {S A B} (c : M S A) (k : A -> M S B) (s s' : S) (e : exn) :
  c s = (Raise e, s') -> bind c k s = (Raise e, s').
Proof. intros Hc. unfold bind. by rewrite Hc. Qed.

Lemma getitem_known {A} (self : AutonomousStrategy) (coin : string) (r : AssetState)
    (field : AssetState -> A) :
  strategies self !! coin = Some r ->
  getitem (StateOf coin) field self = (Ret (field r), self).
Proof. intros Hr. unfold getitem. by rewrite Hr. Qed.

Lemma getitem_None {A} (self : AutonomousStrategy) (field : AssetState -> A) :
  getitem PyNone field self = (Raise TypeError, self).
Proof. done. Qed.

Lemma setitem_None (self : AutonomousStrategy) (upd : AssetState -> AssetState) :
  setitem PyNone upd self = (Raise TypeError, self).
Proof. done. Qed.

Lemma setitem_known (self : AutonomousStrategy) (coin : string) (r : AssetState)
    (upd : AssetState -> AssetState) :
  strategies self !! coin = Some r ->
  setitem (StateOf coin) upd self = (Ret tt, set_strategies (<[coin := upd r]>) self).
Proof. intros Hr. unfold setitem. by rewrite Hr. Qed.

Lemma gets_step {S A} (f : S -> A) (s : S) : gets f s = (Ret (f s), s).
Proof. done. Qed.

(** *** The exit check *)



Lemma exit_precheck_cash
    (self : AutonomousStrategy) (coin : string) (r : AssetState) (price : Q) :
  strategies self !! coin = Some r ->
  position_status r = CASH ->
  exit_precheck (StateOf coin) price self = (Ret false, self).
Proof.
  intros Hr Hs. unfold exit_precheck.
  by rewrite (bind_ret_step _ _ _ _ _ (getitem_known _ _ _ _ Hr)), Hs.
Qed.


(** Once the exit check fires, a strategy returns SELL straight away:
    the record is exactly as it was, position status included.  This
    holds for every lookup that hands the record out. *)
Section EarlyExit.

Variable np_std : list Q -> Q.
Variable get_state : string -> M AutonomousStrategy pyref.
Variables (self : AutonomousStrategy) (coin : string) (r : AssetState) (price : Q).
Hypothesis Hlookup : get_state coin self = (Ret (StateOf coin), self).
Hypothesis Hrecord : strategies self !! coin = Some r.
Hypothesis Hwarm : (lookback_period self < no r)%Z.
Hypothesis Hexit : exit_precheck (StateOf coin) price self = (Ret true, self).






End EarlyExit.

(** ** The strategies as written in the source

    With [get_strategy_state] returning [None] for every coin that has a
    record, a strategy either stops at its warm-up guard or fails on the
    first subscript of [state]. *)
Section SourceStrategies.

Variable np_std : list Q -> Q.
Variables (coin : string) (price : Q).

Lemma warming_up_None (self : AutonomousStrategy) (ind : Indicators) :
  warming_up PyNone (Some ind) self = (Raise TypeError, self).
Proof. done. Qed.

Lemma mean_reversion_known (self : AutonomousStrategy) (indicators : option Indicators) :
  is_Some (strategies self !! coin) ->
  mean_reversion_strategy np_std coin price indicators self = (Raise TypeError, self).
Proof.
  intros Hknown. unfold mean_reversion_strategy, mean_reversion_strategy_via.
  by rewrite (bind_ret_step _ _ _ _ _ (get_strategy_state_known _ _ Hknown)).
Qed.

Lemma macd_crossover_known (self : AutonomousStrategy) (indicators : option Indicators) :
  is_Some (strategies self !! coin) ->
  macd_crossover_strategy np_std coin price indicators self =
    (match indicators with Some _ => Raise TypeError | None => Ret HOLD end, self).
Proof.
  intros Hknown. unfold macd_crossover_strategy, macd_crossover_strategy_via.
  rewrite (bind_ret_step _ _ _ _ _ (get_strategy_state_known _ _ Hknown)).
  by destruct indicators.
Qed.

Lemma rsi_known (self : AutonomousStrategy) (indicators : option Indicators) :
  is_Some (strategies self !! coin) ->
  rsi_strategy np_std coin price indicators self =
    (match indicators with Some _ => Raise TypeError | None => Ret HOLD end, self).
Proof.
  intros Hknown. unfold rsi_strategy, rsi_strategy_via.
  rewrite (bind_ret_step _ _ _ _ _ (get_strategy_state_known _ _ Hknown)).
  by destruct indicators.
Qed.

Lemma bollinger_bands_known (self : AutonomousStrategy) (indicators : option Indicators) :
  is_Some (strategies self !! coin) ->
  bollinger_bands_strategy np_std coin price indicators self =
    (match indicators with Some _ => Raise TypeError | None => Ret HOLD end, self).
Proof.
  intros Hknown. unfold bollinger_bands_strategy, bollinger_bands_strategy_via.
  rewrite (bind_ret_step _ _ _ _ _ (get_strategy_state_known _ _ Hknown)).
  by destruct indicators.
Qed.

Lemma combined_known (self : AutonomousStrategy) (indicators : option Indicators) :
  is_Some (strategies self !! coin) ->
  combined_strategy np_std coin price indicators self =
    (match indicators with Some _ => Raise TypeError | None => Ret HOLD end, self).
Proof.
  intros Hknown. unfold combined_strategy, combined_strategy_via.
  rewrite (bind_ret_step _ _ _ _ _ (get_strategy_state_known _ _ Hknown)).
  by destruct indicators.
Qed.

(** Entering a position fails in [set_risk_levels]: its own lookup
    returns [None], and the first assignment to [state] raises. *)
Lemma enter_position_raises (self : AutonomousStrategy) (r : AssetState) :
  strategies self !! coin = Some r ->
  exists self',
    enter_position np_std get_strategy_state (StateOf coin) coin price self
      = (Raise TypeError, self') /\
    strategies self' = <[coin := set_position_status HOLDING r]> (strategies self).
Proof.
  intros Hr. unfold enter_position.
  rewrite (bind_ret_step _ _ _ _ _ (setitem_known _ _ _ _ Hr)).
  set (self' := set_strategies _ self).
  assert (Hknown : is_Some (strategies self' !! coin)).
  { subst self'. simpl. rewrite lookup_insert_eq. eauto. }
  exists self'. split; [| done].
  unfold set_risk_levels_via.
  rewrite (bind_raise_step _ _ self' self' TypeError); [done |].
  rewrite (bind_ret_step _ _ _ _ _ (get_strategy_state_known _ _ Hknown)).
  unfold calculate_risk_levels.
  by rewrite (bind_ret_step _ _ _ _ _ (gets_step _ _)).
Qed.

Lemma status_is_known (self : AutonomousStrategy) (r : AssetState)
    (test : PositionStatus -> bool) :
  strategies self !! coin = Some r ->
  status_is (StateOf coin) test self = (Ret (test (position_status r)), self).
Proof.
  intros Hr. unfold status_is.
  by rewrite (bind_ret_step _ _ _ _ _ (getitem_known _ _ _ _ Hr)).
Qed.

(** With the position in cash, the tail of an indicator strategy ends
    in HOLD or in the [TypeError] of [enter_position]. *)
Lemma decide_entry_exit_in_cash
    (self : AutonomousStrategy) (r : AssetState) (buy_rule sell_rule : bool) :
  strategies self !! coin = Some r ->
  position_status r = CASH ->
  decide_entry_exit np_std get_strategy_state (StateOf coin) coin price buy_rule sell_rule self
    = (Ret HOLD, self)
  \/ exists self',
      decide_entry_exit np_std get_strategy_state (StateOf coin) coin price
                        buy_rule sell_rule self = (Raise TypeError, self').
Proof.
  intros Hr Hs. unfold decide_entry_exit.
  destruct buy_rule.
  - right. cbn [and_then].
    rewrite (bind_ret_step _ _ _ _ _ (status_is_known _ _ _ Hr)), Hs. cbn [is_cash].
    destruct (enter_position_raises self r Hr) as (self' & Hraise & _).
    exists self'. exact Hraise.
  - left. cbn [and_then].
    rewrite (bind_ret_step _ _ self self false) by done.
    destruct sell_rule; cbn [and_then].
    + by rewrite (bind_ret_step _ _ _ _ _ (status_is_known _ _ _ Hr)), Hs.
    + by rewrite (bind_ret_step _ _ self self false).
Qed.

End SourceStrategies.

Ltac held_in_cash Hr :=
  left; split; [reflexivity | unfold status_of; simpl; by rewrite Hr].

Section SourceStrategiesFirstCall.

Variable np_std : list Q -> Q.
Variables (coin : string) (price : Q).

Lemma warming_up_known
    (self : AutonomousStrategy) (r : AssetState) (ind : Indicators) :
  strategies self !! coin = Some r ->
  warming_up (StateOf coin) (Some ind) self
    = (Ret (no r <=? lookback_period self)%Z, self).
Proof.
  intros Hr. unfold warming_up.
  by rewrite (bind_ret_step _ _ _ _ _ (getitem_known _ _ _ _ Hr)).
Qed.

Lemma indicator_tail_first_call
    (self : AutonomousStrategy) (strat : string) (ind : Indicators)
    (buy_rule sell_rule : bool) :
  strategies self !! coin = Some (fresh_state strat) ->
  holds_in_cash_or_raises coin
    ((hold <- warming_up (StateOf coin) (Some ind) ;;
      match hold, Some ind with
      | false, Some ind =>
          triggered <- exit_precheck (StateOf coin) price ;;
          if triggered then ret SELL else
          decide_entry_exit np_std get_strategy_state (StateOf coin) coin price
                            buy_rule sell_rule
      | _, _ => ret HOLD
      end) self).
Proof.
  intros Hr. unfold holds_in_cash_or_raises.
  rewrite (bind_ret_step _ _ _ _ _ (warming_up_known _ _ ind Hr)).
  destruct (no (fresh_state strat) <=? lookback_period self)%Z.
  - held_in_cash Hr.
  - rewrite (bind_ret_step _ _ _ _ _ (exit_precheck_cash _ _ _ price Hr eq_refl)).
    destruct (decide_entry_exit_in_cash np_std coin price self _ buy_rule sell_rule
                Hr eq_refl) as [-> | (self' & ->)].
    + held_in_cash Hr.
    + by right.
Qed.

Lemma macd_crossover_first_call (self : AutonomousStrategy) (indicators : option Indicators) :
  strategies self !! coin = None ->
  holds_in_cash_or_raises coin (macd_crossover_strategy np_std coin price indicators self).
Proof.
  intros Hnone.
  destruct (get_strategy_state_first self coin Hnone) as (strat & self1 & Hget & Hs).
  assert (Hr : strategies self1 !! coin = Some (fresh_state strat))
    by (rewrite Hs; apply lookup_insert_eq).
  unfold macd_crossover_strategy, macd_crossover_strategy_via.
  rewrite (bind_ret_step _ _ _ _ _ Hget).
  destruct indicators as [ind |].
  - by apply (indicator_tail_first_call self1 strat).
  - held_in_cash Hr.
Qed.

Lemma rsi_first_call (self : AutonomousStrategy) (indicators : option Indicators) :
  strategies self !! coin = None ->
  holds_in_cash_or_raises coin (rsi_strategy np_std coin price indicators self).
Proof.
  intros Hnone.
  destruct (get_strategy_state_first self coin Hnone) as (strat & self1 & Hget & Hs).
  assert (Hr : strategies self1 !! coin = Some (fresh_state strat))
    by (rewrite Hs; apply lookup_insert_eq).
  unfold rsi_strategy, rsi_strategy_via.
  rewrite (bind_ret_step _ _ _ _ _ Hget).
  destruct indicators as [ind |].
  - by apply (indicator_tail_first_call self1 strat).
  - held_in_cash Hr.
Qed.

Lemma bollinger_bands_first_call
    (self : AutonomousStrategy) (indicators : option Indicators) :
  strategies self !! coin = None ->
  holds_in_cash_or_raises coin (bollinger_bands_strategy np_std coin price indicators self).
Proof.
  intros Hnone.
  destruct (get_strategy_state_first self coin Hnone) as (strat & self1 & Hget & Hs).
  assert (Hr : strategies self1 !! coin = Some (fresh_state strat))
    by (rewrite Hs; apply lookup_insert_eq).
  unfold bollinger_bands_strategy, bollinger_bands_strategy_via.
  rewrite (bind_ret_step _ _ _ _ _ Hget).
  destruct indicators as [ind |].
  - by apply (indicator_tail_first_call self1 strat).
  - held_in_cash Hr.
Qed.

Lemma combined_first_call (self : AutonomousStrategy) (indicators : option Indicators) :
  strategies self !! coin = None ->
  holds_in_cash_or_raises coin (combined_strategy np_std coin price indicators self).
Proof.
  intros Hnone.
  destruct (get_strategy_state_first self coin Hnone) as (strat & self1 & Hget & Hs).
  assert (Hr : strategies self1 !! coin = Some (fresh_state strat))
    by (rewrite Hs; apply lookup_insert_eq).
  unfold combined_strategy, combined_strategy_via, holds_in_cash_or_raises.
  rewrite (bind_ret_step _ _ _ _ _ Hget).
  destruct indicators as [ind |].
  - rewrite (bind_ret_step _ _ _ _ _ (warming_up_known _ _ ind Hr)).
    destruct (no (fresh_state strat) <=? lookback_period self1)%Z.
    + held_in_cash Hr.
    + rewrite (bind_ret_step _ _ _ _ _ (exit_precheck_cash _ _ _ price Hr eq_refl)).
      right. cbn match.
      assert (Hknown : is_Some (strategies self1 !! coin)) by eauto.
      pose proof (macd_crossover_known np_std coin price self1 (Some ind) Hknown) as Hm.
      unfold macd_crossover_strategy in Hm.
      by rewrite (bind_raise_step _ _ _ _ _ Hm).
  - held_in_cash Hr.
Qed.

Lemma mean_reversion_first_call (self : AutonomousStrategy) (indicators : option Indicators) :
  strategies self !! coin = None ->
  holds_in_cash_or_raises coin (mean_reversion_strategy np_std coin price indicators self).
Proof.
  intros Hnone.
  destruct (get_strategy_state_first self coin Hnone) as (strat & self1 & Hget & Hs).
  assert (Hr : strategies self1 !! coin = Some (fresh_state strat))
    by (rewrite Hs; apply lookup_insert_eq).
  unfold mean_reversion_strategy, mean_reversion_strategy_via, holds_in_cash_or_raises.
  rewrite (bind_ret_step _ _ _ _ _ Hget).
  rewrite (bind_ret_step _ _ _ _ _ (getitem_known _ _ _ _ Hr)).
  rewrite (bind_ret_step _ _ _ _ _ (gets_step _ _)).
  destruct (no (fresh_state strat) <=? lookback_period self1)%Z.
  { held_in_cash Hr. }
  rewrite (bind_ret_step _ _ _ _ _ (exit_precheck_cash _ _ _ price Hr eq_refl)).
  cbn match.
  rewrite (bind_ret_step _ _ _ _ _ (getitem_known _ _ _ _ Hr)).
  destruct (Qgtb (price_mean (fresh_state strat)) price); cbn [and_then].
  - right.
    rewrite (bind_ret_step _ _ _ _ _ (status_is_known coin _ _ _ Hr)).
    cbn [fresh_state position_status is_cash].
    destruct (enter_position_raises np_std coin price self1 _ Hr) as (self' & -> & _).
    done.
  - rewrite (bind_ret_step _ _ self1 self1 false) by done.
    rewrite (bind_ret_step _ _ _ _ _ (getitem_known _ _ _ _ Hr)).
    destruct (Qgtb price (price_mean (fresh_state strat))); cbn [and_then].
    + rewrite (bind_ret_step _ _ _ _ _ (status_is_known coin _ _ _ Hr)).
      held_in_cash Hr.
    + rewrite (bind_ret_step _ _ self1 self1 false) by done.
      held_in_cash Hr.
Qed.

End SourceStrategiesFirstCall.

(** ** Consequences of the lookup returning [None] *)

(** The price update of a coin that already has a record appends the
    price and then fails on [state["price_mean"]]. *)
Lemma update_price_mean_known
    (self : AutonomousStrategy) (coin : string) (price : Q) (prices : list Q) :
  is_Some (strategies self !! coin) ->
  price_data self !! coin = Some prices ->
  fst (update_price_mean coin price self) = Raise TypeError.
Proof.
  intros Hknown Hprices. unfold update_price_mean, update_price_mean_via.
  rewrite (bind_ret_step _ _ _ _ _ (get_strategy_state_known _ _ Hknown)).
  unfold bind at 1, update_price_data. rewrite Hprices. reflexivity.
Qed.

(** Every strategy method of the source ends in HOLD or in a
    [TypeError]: none of them can return SELL or BUY. *)
Lemma source_strategies_hold_or_raise
    (np_std : list Q -> Q) (self : AutonomousStrategy) (coin : string) (price : Q)
    (indicators : option Indicators) :
  Forall (fun result : outcome Signal * AutonomousStrategy =>
            fst result = Ret HOLD \/ fst result = Raise TypeError)
    [mean_reversion_strategy np_std coin price indicators self;
     macd_crossover_strategy np_std coin price indicators self;
     rsi_strategy np_std coin price indicators self;
     bollinger_bands_strategy np_std coin price indicators self;
     combined_strategy np_std coin price indicators self].
Proof.
  destruct (strategies self !! coin) as [r |] eqn:Hr.
  - assert (Hknown : is_Some (strategies self !! coin)) by eauto.
    rewrite mean_reversion_known, macd_crossover_known, rsi_known,
      bollinger_bands_known, combined_known by done.
    repeat (constructor; [destruct indicators; simpl; auto |]). constructor.
  - pose proof (mean_reversion_first_call np_std coin price self indicators Hr) as H1.
    pose proof (macd_crossover_first_call np_std coin price self indicators Hr) as H2.
    pose proof (rsi_first_call np_std coin price self indicators Hr) as H3.
    pose proof (bollinger_bands_first_call np_std coin price self indicators Hr) as H4.
    pose proof (combined_first_call np_std coin price self indicators Hr) as H5.
    unfold holds_in_cash_or_raises in *.
    repeat (constructor; [tauto |]). constructor.
Qed.

(** In the source a call of [combined_strategy] that returns HOLD leaves
    a position that was not open not open. *)
Lemma source_combined_hold_opens_nothing
    (np_std : list Q -> Q) (self : AutonomousStrategy) (coin : string) (price : Q)
    (indicators : option Indicators) :
  let result := combined_strategy np_std coin price indicators self in
  fst result = Ret HOLD ->
  status_of (snd result) coin = Some HOLDING ->
  status_of self coin = Some HOLDING.
Proof.
  intros result Hhold Hstatus. subst result.
  destruct (strategies self !! coin) as [r |] eqn:Hr.
  - assert (Hknown : is_Some (strategies self !! coin)) by eauto.
    rewrite combined_known in Hstatus by done. exact Hstatus.
  - destruct (combined_first_call np_std coin price self indicators Hr) as [[_ Hc] | Hraise].
    + congruence.
    + congruence.
Qed.

Lemma get_strategy_state_returns (self : AutonomousStrategy) (coin : string) :
  exists state self',
    get_strategy_state coin self = (Ret state, self') /\
    is_Some (strategies self' !! coin).
Proof.
  destruct (strategies self !! coin) as [r |] eqn:Hr.
  - exists PyNone, self. split; [apply get_strategy_state_known |]; eauto.
  - destruct (get_strategy_state_first self coin Hr) as (strat & self' & Hget & Hs).
    exists (StateOf coin), self'. split; [done |].
    rewrite Hs, lookup_insert_eq. eauto.
Qed.

Lemma best_by_average_state (coin : string) (self : AutonomousStrategy) :
  snd (best_by_average coin self) = self.
Proof.
  unfold best_by_average.
  destruct (strategy_performance self !! coin); [| done].
  by destruct (normalize_scores _ _).
Qed.

(** [select_best_strategy] of the source never returns: whatever it
    picks, the assignment to [state["active_strategy"]] finds [None]. *)
Lemma select_best_strategy_raises (self : AutonomousStrategy) (coin : string) :
  is_Some (strategies self !! coin) ->
  exists e self',
    select_best_strategy coin self = (Raise e, self') /\
    strategy_performance self' = strategy_performance self.
Proof.
  intros Hknown. unfold select_best_strategy, select_best_strategy_via.
  rewrite (bind_ret_step _ _ _ _ _ (get_strategy_state_known _ _ Hknown)).
  unfold bind at 1, random_random.
  match goal with |- context [bind ?c ?k (advance_random self)] =>
    assert (Hperf : strategy_performance (snd (c (advance_random self)))
                    = strategy_performance self);
    [| destruct (c (advance_random self)) as [[best | e] s2] eqn:Hbest] end.
  - destruct (Qltb _ _).
    + destruct (random_choice_available (advance_random self)) as [strat ->]. reflexivity.
    + rewrite best_by_average_state. reflexivity.
  - exists TypeError, s2. by rewrite (bind_ret_step _ _ _ _ _ Hbest).
  - exists e, s2. by rewrite (bind_raise_step _ _ _ _ _ Hbest).
Qed.

(** [generate_signal] of the source never returns a signal: for a coin
    with a record it stops in [select_best_strategy], before any strategy
    is evaluated and with every score as it was. *)
Lemma source_generate_signal_raises
    (np_std : list Q -> Q) (talib_last : list Q -> Indicators)
    (self : AutonomousStrategy) (coin : string) (price : Q) :
  exists e self',
    generate_signal np_std talib_last coin price self = (Raise e, self') /\
    (is_Some (strategies self !! coin) ->
     strategy_performance self' = strategy_performance self).
Proof.
  unfold generate_signal, generate_signal_via, evaluate_strategies_via.
  destruct (get_strategy_state_returns self coin) as (state & s1 & Hget & Hknown).
  assert (Hsame : is_Some (strategies self !! coin) -> s1 = self).
  { intros Hk. rewrite (get_strategy_state_known _ _ Hk) in Hget. by inversion Hget. }
  destruct (calculate_indicators talib_last coin s1) as [[ind | e] s2] eqn:Hind.
  - assert (s2 = s1) as ->.
    { unfold calculate_indicators in Hind. destruct (price_data s1 !! coin).
      - destruct (_ <? _)%nat; by inversion Hind.
      - by inversion Hind. }
    destruct (select_best_strategy_raises s1 coin Hknown) as (e & s3 & Hsel & Hperf).
    exists e, s3. split.
    + apply bind_raise_step.
      rewrite (bind_ret_step _ _ _ _ _ Hget), (bind_ret_step _ _ _ _ _ Hind).
      by apply bind_raise_step.
    + intros Hk. by rewrite Hperf, (Hsame Hk).
  - assert (s2 = s1) as ->.
    { unfold calculate_indicators in Hind. destruct (price_data s1 !! coin).
      - destruct (_ <? _)%nat; by inversion Hind.
      - by inversion Hind. }
    exists e, s1. split.
    + apply bind_raise_step.
      rewrite (bind_ret_step _ _ _ _ _ Hget). by apply bind_raise_step.
    + intros Hk. by rewrite (Hsame Hk).
Qed.


(** The strategy's own SELL rule, by contrast, closes the position: with
    the lookup returning the record, a MACD strategy whose exit rule
    fires between the stop-loss and the take-profit returns SELL with the
    record back in cash and its three prices cleared. *)
Lemma own_sell_rule_closes_position :
  let falling :=
    {| rsi := 50; macd := 1; macd_signal := 2; bb_upper := 110; bb_middle := 100;
       bb_lower := 90; stoch_k := 50; stoch_d := 50 |} in
  let result :=
    macd_crossover_strategy_via sample_std get_strategy_state_dedented
                                "BTC" 100 (Some falling) btc_holding in
  fst result = Ret SELL /\
  strategies (snd result) !! "BTC"%string =
    Some {| no := 21; price_mean := 100; position_status := CASH;
            buy_price := None; stop_loss_price := None; take_profit_price := None;
            active_strategy := "combined" |}.
Proof. split; vm_compute; reflexivity. Qed.

(** C10, at the failing input: BTC is in cash, MACD is above its signal
    line and RSI is neutral.  The source raises [TypeError] in the first
    inner strategy and the record stays in cash.  With the lookup
    returning the record, the inner MACD strategy signals BUY and opens
    the position, the other two signal HOLD, and [combined_strategy]
    returns HOLD with the record HOLDING and its three prices set. *)
Theorem combined_hold_after_inner_buy :
  combined_strategy sample_std "BTC" 100 (Some sample_indicators) btc_in_cash
    = (Raise TypeError, btc_in_cash) /\
  status_of btc_in_cash "BTC" = Some CASH /\
  fst (macd_crossover_strategy_via sample_std get_strategy_state_dedented
         "BTC" 100 (Some sample_indicators) btc_in_cash) = Ret BUY /\
  let result :=
    combined_strategy_via sample_std get_strategy_state_dedented
                          "BTC" 100 (Some sample_indicators) btc_in_cash in
  fst result = Ret HOLD /\
  status_of (snd result) "BTC" = Some HOLDING /\
  exists r entry stop target,
    strategies (snd result) !! "BTC"%string = Some r /\
    buy_price r = Some entry /\ entry == 100.1 /\
    stop_loss_price r = Some stop /\ stop == 97.097 /\
    take_profit_price r = Some target /\ target == 107.6075.
Proof.
  split.
  { apply (combined_known sample_std _ _ _ (Some sample_indicators)). vm_compute. eauto. }
  split; [reflexivity |]. split; [vm_compute; reflexivity |].
  intros result. split; [vm_compute; reflexivity |]. split; [vm_compute; reflexivity |].
  do 4 eexists. repeat split; vm_compute; reflexivity.
Qed.

(** ** The ledger: a BUY at the maximum *)

Lemma buy_at_maximum_is_rejected
    (self : SimulationBot) (coin pair : string) (price score total : Q)
    (prices : gmap string Q) :
  (MAX_OPEN_TRADES <= open_trades (holdings self))%nat ->
  let result := simulate_trade coin pair BUY price score total prices self in
  cash (snd result) = cash self /\
  (forall c, get_or_zero (holdings (snd result)) c = get_or_zero (holdings self) c) /\
  (forall c, default [] (entry_prices (snd result) !! c) = default [] (entry_prices self !! c)) /\
  logged_trades (snd result) = logged_trades self.
Proof.
  intros Hfull result. subst result.
  unfold simulate_trade, bind, update_portfolio_value, get_open_trades_count, gets,
    lift_outcome, emit, modify.
  cbn [holdings set_portfolio_values set_holdings set_entry_prices cash fst snd].
  destruct (calculate_trade_amount _ _ _ _ _) as [qty | e]; [| done].
  cbn [holdings set_portfolio_values set_holdings set_entry_prices cash fst snd].
  set (s0 := Build_SimulationBot _ _ _ _ _ _ _ _ _).
  assert (Hh : holdings s0 = setdefault coin 0 (holdings self)) by done.
  assert (He : entry_prices s0 = setdefault coin [] (entry_prices self)) by done.
  assert (Hl : logged_trades s0 = logged_trades self).
  { unfold logged_trades. subst s0. cbn [effects]. rewrite omap_app. cbn.
    by rewrite app_nil_r. }
  assert (Hs0 : cash s0 = cash self /\
    (forall c, get_or_zero (holdings s0) c = get_or_zero (holdings self) c) /\
    (forall c, default [] (entry_prices s0 !! c) = default [] (entry_prices self !! c)) /\
    logged_trades s0 = logged_trades self).
  { rewrite Hh, He. repeat split; [| | exact Hl].
    - intros c. apply get_or_zero_setdefault.
    - intros c. apply queue_setdefault. }
  assert (Hleb : (MAX_OPEN_TRADES <=? open_trades (holdings s0))%nat = true).
  { apply Nat.leb_le. by rewrite Hh, open_trades_setdefault. }
  clearbody s0.
  destruct (signal_eqb BUY BUY && _).
  - rewrite Hleb. exact Hs0.
  - exact Hs0.
Qed.

(** C6: starting from a new bot, after every attempt of every sequence
    of [simulate_trade] calls (BUY attempts in particular) the number of
    coins with a holding above zero is at most [MAX_OPEN_TRADES]; and a
    BUY attempted with that many positions open changes neither cash nor
    any held quantity nor any entry queue, and logs no trade. *)
Theorem open_positions_never_exceed_maximum
    (strat : AutonomousStrategy) (initial_cash : Q) (attempts : list Attempt) :
  Forall (fun s => (open_trades (holdings s) <= MAX_OPEN_TRADES)%nat)
         (ledger_trace attempts (new_bot strat initial_cash)) /\
  (forall self coin pair price score total prices,
      (MAX_OPEN_TRADES <= open_trades (holdings self))%nat ->
      let result := simulate_trade coin pair BUY price score total prices self in
      cash (snd result) = cash self /\
      (forall c, get_or_zero (holdings (snd result)) c = get_or_zero (holdings self) c) /\
      (forall c, default [] (entry_prices (snd result) !! c)
                 = default [] (entry_prices self !! c)) /\
      logged_trades (snd result) = logged_trades self).
Proof.
  split.
  - apply ledger_trace_open_trades. vm_compute. lia.
  - intros self coin pair price score total prices Hfull.
    by apply buy_at_maximum_is_rejected.
Qed.

Lemma open_positions_never_exceed_maximum_witness :
  (MAX_OPEN_TRADES <= open_trades (holdings bot_at_maximum))%nat /\
  cash (snd (simulate_trade "SOL" "SOL/USD" BUY 10 1 1 ∅ bot_at_maximum))
    = cash bot_at_maximum.
Proof.
  assert (Hfull : (MAX_OPEN_TRADES <= open_trades (holdings bot_at_maximum))%nat)
    by (vm_compute; lia).
  split; [exact Hfull |].
  exact (proj1 (proj2 (open_positions_never_exceed_maximum
                         (new_strategy 20 sample_random) 10000 [])
                      bot_at_maximum "SOL"%string "SOL/USD"%string 10 1 1 ∅ Hfull)).
Defined.

(** * Further properties *)

(** ** Retrying on rate limits *)

Lemma retry_loop_rate_limited {A} (none : A) (func : nat -> call_result A)
    (k remaining : nat) (delay : Z) (log : RetryLog) :
  (k <= remaining)%nat ->
  (forall j, (j < k)%nat -> func (calls log + j)%nat = RateLimited) ->
  retry_loop none func remaining delay log =
    retry_loop none func (remaining - k) (delay * 2 ^ Z.of_nat k)
      {| calls := (calls log + k)%nat;
         slept := slept log ++ map (fun i => (delay * 2 ^ Z.of_nat i)%Z) (seq 0 k) |}.
Proof.
  revert remaining delay log.
  induction k as [| k IH]; intros remaining delay log Hle Hlim.
  - rewrite Nat.sub_0_r, Nat.add_0_r, Z.mul_1_r. simpl. rewrite app_nil_r.
    by destruct log.
  - destruct remaining as [| remaining]; [lia |].
    cbn [retry_loop].
    rewrite <- (Nat.add_0_r (calls log)) at 1. rewrite (Hlim 0%nat) by lia.
    rewrite (IH remaining) by
      (try lia; intros j Hj; cbn [calls];
       replace (S (calls log) + j)%nat with (calls log + S j)%nat by lia;
       apply Hlim; lia).
    cbn [calls slept]. f_equal.
    + rewrite Nat2Z.inj_succ, Z.pow_succ_r by lia. lia.
    + f_equal; [lia |].
      rewrite <- app_assoc. f_equal. cbn [seq map app].
      f_equal; [lia |].
      rewrite <- seq_shift, map_map. apply map_ext. intros i.
      rewrite Nat2Z.inj_succ, Z.pow_succ_r by lia. lia.
Qed.

(** X1: if the first [k] invocations hit the rate limit and the next one
    returns, with [k] below [max_retries], the wrapper returns that value
    after exactly [k + 1] invocations, having slept
    [initial_delay * 2 ^ i] before retry [i + 1]. *)
Theorem retry_returns_first_success {A} (none : A) (func : nat -> call_result A)
    (max_retries k : nat) (initial_delay : Z) (value : A) :
  (k < max_retries)%nat ->
  (forall j, (j < k)%nat -> func j = RateLimited) ->
  func k = Returned value ->
  retry_on_rate_limit none max_retries initial_delay func =
    (Ret value,
     {| calls := S k;
        slept := map (fun i => (initial_delay * 2 ^ Z.of_nat i)%Z) (seq 0 k) |}).
Proof.
  intros Hk Hlim Hret. unfold retry_on_rate_limit.
  rewrite (retry_loop_rate_limited none func k) by (try done; cbn [calls]; lia).
  cbn [calls slept app Nat.add].
  destruct (max_retries - k)%nat as [| r] eqn:Hr; [lia |].
  cbn [retry_loop calls slept]. by rewrite Hret.
Qed.

Lemma retry_returns_first_success_witness :
  retry_on_rate_limit 0%Z 5 10
    (fun n => match n with O | S O => RateLimited | _ => Returned 7%Z end)
  = (Ret 7%Z, {| calls := 3; slept := [10; 20]%Z |}).
Proof.
  apply (retry_returns_first_success 0%Z
           (fun n => match n with O | S O => RateLimited | _ => Returned 7%Z end)
           5 2 10 7%Z).
  - lia.
  - intros [| [| j]] Hj; [reflexivity | reflexivity | lia].
  - reflexivity.
Defined.

(** X2: if the first [max_retries] invocations all hit the rate limit,
    the wrapper gives up and returns [None] after exactly [max_retries]
    invocations; the delays slept double each time and add up to
    [initial_delay * (2 ^ max_retries - 1)]. *)
Theorem retry_gives_up_after_max_retries {A} (none : A) (func : nat -> call_result A)
    (max_retries : nat) (initial_delay : Z) :
  (forall j, (j < max_retries)%nat -> func j = RateLimited) ->
  let result := retry_on_rate_limit none max_retries initial_delay func in
  fst result = Ret none /\
  calls (snd result) = max_retries /\
  slept (snd result) = map (fun i => (initial_delay * 2 ^ Z.of_nat i)%Z) (seq 0 max_retries) /\
  foldr Z.add 0%Z (slept (snd result)) = (initial_delay * (2 ^ Z.of_nat max_retries - 1))%Z.
Proof.
  intros Hlim result. subst result. unfold retry_on_rate_limit.
  rewrite (retry_loop_rate_limited none func max_retries) by (try done; cbn [calls]; lia).
  rewrite Nat.sub_diag. cbn [retry_loop fst snd calls slept app Nat.add].
  repeat split.
  clear. induction max_retries as [| n IH]; [simpl; lia |].
  rewrite seq_S, map_app, foldr_app. cbn [map foldr Nat.add].
  rewrite Nat2Z.inj_succ, Z.pow_succ_r by lia.
  assert (Hshift : forall (l : list Z) (a : Z),
             foldr Z.add a l = (foldr Z.add 0 l + a)%Z).
  { clear. induction l as [| x l IHl]; intros a; simpl; [lia |]. rewrite IHl. lia. }
  rewrite Hshift, IH. lia.
Qed.

Lemma retry_gives_up_after_max_retries_witness :
  let result := retry_on_rate_limit 0%Z 3 30 (fun _ => RateLimited) in
  fst result = Ret 0%Z /\
  calls (snd result) = 3%nat /\
  slept (snd result) = map (fun i => (30 * 2 ^ Z.of_nat i)%Z) (seq 0 3) /\
  foldr Z.add 0%Z (slept (snd result)) = (30 * (2 ^ Z.of_nat 3 - 1))%Z.
Proof.
  apply (retry_gives_up_after_max_retries 0%Z (fun _ => RateLimited) 3 30).
  intros j Hj. reflexivity.
Defined.

(** X3: an exception other than the rate limit is not retried: it leaves
    the wrapper at once, after the rate-limited invocations before it. *)
Theorem retry_propagates_other_exceptions {A} (none : A) (func : nat -> call_result A)
    (max_retries k : nat) (initial_delay : Z) (e : exn) :
  (k < max_retries)%nat ->
  (forall j, (j < k)%nat -> func j = RateLimited) ->
  func k = Failed e ->
  let result := retry_on_rate_limit none max_retries initial_delay func in
  fst result = Raise e /\ calls (snd result) = S k /\ length (slept (snd result)) = k.
Proof.
  intros Hk Hlim Hfail result. subst result. unfold retry_on_rate_limit.
  rewrite (retry_loop_rate_limited none func k) by (try done; cbn [calls]; lia).
  cbn [calls slept app Nat.add].
  destruct (max_retries - k)%nat as [| r] eqn:Hr; [lia |].
  cbn [retry_loop calls slept]. rewrite Hfail. cbn [fst snd calls slept].
  repeat split. by rewrite length_map, length_seq.
Qed.

Lemma retry_propagates_other_exceptions_witness :
  let result :=
    retry_on_rate_limit 0%Z 5 10
      (fun n => match n with O => RateLimited | _ => Failed ValueError end) in
  fst result = Raise ValueError /\ calls (snd result) = 2%nat /\
  length (slept (snd result)) = 1%nat.
Proof.
  apply (retry_propagates_other_exceptions 0%Z
           (fun n => match n with O => RateLimited | _ => Failed ValueError end)
           5 1 10 ValueError).
  - lia.
  - intros [| j] Hj; [reflexivity | lia].
  - reflexivity.
Defined.

(** ** History files *)

Lemma append_trimmed_bounded {A} (limit : nat) (records : list A) (record : A) :
  (0 < limit)%nat ->
  (length (append_trimmed limit records record) <= limit)%nat /\
  last (append_trimmed limit records record) = Some record /\
  exists dropped,
    records ++ [record] = dropped ++ append_trimmed limit records record /\
    length dropped = (S (length records) - limit)%nat.
Proof.
  intros Hpos. unfold append_trimmed.
  assert (Hlen : length (records ++ [record]) = S (length records))
    by (rewrite length_app; simpl; lia).
  destruct (limit <? length (records ++ [record]))%nat eqn:Hcmp.
  - apply Nat.ltb_lt in Hcmp. rewrite Hlen in *.
    split; [rewrite length_drop; lia |]. split.
    + rewrite drop_app_le by lia. apply last_snoc.
    + exists (take (S (length records) - limit) (records ++ [record])).
      split; [by rewrite take_drop |].
      rewrite length_take. lia.
  - apply Nat.ltb_ge in Hcmp. rewrite Hlen in *.
    split; [lia |]. split; [apply last_snoc |].
    exists []. split; [done |]. simpl. lia.
Qed.

(** X4: whatever the file held before, after [append_trade_history] it
    holds at most [MAX_TRADE_RECORDS] trades and after
    [append_price_history] at most [MAX_PRICE_RECORDS] rows; the record
    just written is the last one, and what is kept is the tail of the
    old contents followed by it. *)
Theorem history_files_stay_bounded {A} (records : list A) (record : A) :
  ((length (append_trade_history records record) <= MAX_TRADE_RECORDS)%nat /\
   last (append_trade_history records record) = Some record /\
   exists dropped,
     records ++ [record] = dropped ++ append_trade_history records record /\
     length dropped = (S (length records) - MAX_TRADE_RECORDS)%nat) /\
  ((length (append_price_history records record) <= MAX_PRICE_RECORDS)%nat /\
   last (append_price_history records record) = Some record /\
   exists dropped,
     records ++ [record] = dropped ++ append_price_history records record /\
     length dropped = (S (length records) - MAX_PRICE_RECORDS)%nat).
Proof.
  split; apply append_trimmed_bounded.
  - unfold MAX_TRADE_RECORDS. lia.
  - unfold MAX_PRICE_RECORDS. lia.
Qed.

(** ** The price buffer and the first observation of a coin *)

(** X5: for a coin with a buffer, [update_price_data] returns with the
    new price as the last element; a buffer within the bound
    [MAX_LOOKBACK + 10] stays within it, the oldest price being dropped
    when it is full; other coins and the asset records are untouched. *)
Theorem update_price_data_sliding_window
    (self : AutonomousStrategy) (coin : string) (price : Q) (prices : list Q) :
  price_data self !! coin = Some prices ->
  (length prices <= MAX_LOOKBACK + 10)%nat ->
  exists self' prices',
    update_price_data coin price self = (Ret tt, self') /\
    price_data self' !! coin = Some prices' /\
    (length prices' <= MAX_LOOKBACK + 10)%nat /\
    last prices' = Some price /\
    prices' = (if (length prices =? MAX_LOOKBACK + 10)%nat then tail prices else prices)
                ++ [price] /\
    (forall c, c <> coin -> price_data self' !! c = price_data self !! c) /\
    strategies self' = strategies self.
Proof.
  intros Hprices Hbound. unfold update_price_data. rewrite Hprices.
  do 2 eexists. split; [reflexivity |].
  cbn [price_data set_price_data strategies].
  rewrite lookup_insert_eq. split; [reflexivity |].
  assert (Hlen : length (prices ++ [price]) = S (length prices))
    by (rewrite length_app; simpl; lia).
  rewrite Hlen.
  destruct (MAX_LOOKBACK + 10 <? S (length prices))%nat eqn:Hcmp.
  - apply Nat.ltb_lt in Hcmp.
    assert (Hfull : length prices = (MAX_LOOKBACK + 10)%nat) by lia.
    rewrite Hfull, Nat.eqb_refl.
    destruct prices as [| p rest]; [simpl in Hfull; vm_compute in Hfull; lia |].
    cbn [app tail]. simpl in Hfull.
    repeat split.
    + rewrite length_app. simpl. lia.
    + apply last_snoc.
    + intros c Hc. by rewrite lookup_insert_ne.
  - apply Nat.ltb_ge in Hcmp.
    assert (Hne : (length prices =? MAX_LOOKBACK + 10)%nat = false)
      by (apply Nat.eqb_neq; lia).
    rewrite Hne. repeat split.
    + lia.
    + apply last_snoc.
    + intros c Hc. by rewrite lookup_insert_ne.
Qed.

Lemma update_price_data_sliding_window_witness :
  exists self' prices',
    update_price_data "BTC" 101 btc_in_cash = (Ret tt, self') /\
    price_data self' !! "BTC"%string = Some prices' /\
    (length prices' <= MAX_LOOKBACK + 10)%nat /\
    last prices' = Some 101 /\
    prices' = (if (length (repeat 100 21) =? MAX_LOOKBACK + 10)%nat
               then tail (repeat 100 21) else repeat 100 21) ++ [101] /\
    (forall c, c <> "BTC"%string ->
               price_data self' !! c = price_data btc_in_cash !! c) /\
    strategies self' = strategies btc_in_cash.
Proof.
  apply (update_price_data_sliding_window btc_in_cash "BTC" 101 (repeat 100 21)).
  - reflexivity.
  - vm_compute. lia.
Defined.

Lemma random_choice_member (seq : list string) (self : AutonomousStrategy) :
  (0 < length seq)%nat ->
  exists x, random_choice seq self = (Ret x, advance_random self) /\ x ∈ seq.
Proof.
  intros Hpos. unfold random_choice.
  set (i := (_ mod _)%nat).
  assert (Hi : (i < length seq)%nat) by (apply Nat.mod_upper_bound; lia).
  destruct (lookup_lt_is_Some_2 _ _ Hi) as [x Hx].
  exists x. rewrite Hx. split; [done |]. by eapply list_elem_of_lookup_2.
Qed.

(** What the first lookup of a coin leaves behind: the fresh record, a
    buffer and the seeded scores and counts. *)
Lemma get_strategy_state_first_contents (self : AutonomousStrategy) (coin : string) :
  strategies self !! coin = None ->
  exists strat self',
    get_strategy_state coin self = (Ret (StateOf coin), self') /\
    strat ∈ available_strategies /\
    strategies self' = <[coin := fresh_state strat]> (strategies self) /\
    price_data self' !! coin = Some (default [] (price_data self !! coin)) /\
    (forall c, c <> coin -> price_data self' !! c = price_data self !! c) /\
    is_Some (strategy_performance self' !! coin) /\
    lookback_period self' = lookback_period self.
Proof.
  intros Hnone. unfold get_strategy_state. rewrite Hnone.
  destruct (random_choice_member available_strategies self) as (strat & Hc & Hin);
    [simpl; lia |].
  exists strat. unfold bind at 1. rewrite Hc.
  unfold bind at 1, modify. unfold bind at 1, init_price_data.
  cbn [price_data set_strategies advance_random].
  unfold bind, init_performance, ret.
  destruct (price_data self !! coin) as [old |] eqn:Hbuf;
    cbn [strategy_performance set_strategies set_price_data advance_random];
    destruct (strategy_performance self !! coin) as [perf |] eqn:Hperf;
    eexists; (split; [reflexivity |]);
    cbn [strategies price_data strategy_performance lookback_period
         set_strategies set_price_data set_strategy_performance set_strategy_trade_count
         advance_random];
    rewrite ?lookup_insert_eq, ?Hbuf, ?Hperf;
    (repeat split; eauto);
    try (intros c Hc'; by rewrite ?lookup_insert_ne).
Qed.

Lemma update_price_data_appends
    (self : AutonomousStrategy) (coin : string) (price : Q) (prices : list Q) :
  price_data self !! coin = Some prices ->
  exists self' prices',
    update_price_data coin price self = (Ret tt, self') /\
    price_data self' !! coin = Some prices' /\
    last prices' = Some price /\
    strategies self' = strategies self /\
    strategy_performance self' = strategy_performance self.
Proof.
  intros Hbuf. unfold update_price_data. rewrite Hbuf.
  do 2 eexists. split; [reflexivity |].
  cbn [price_data strategies strategy_performance set_price_data].
  rewrite lookup_insert_eq. split; [reflexivity |].
  split; [| split; reflexivity].
  destruct (MAX_LOOKBACK + 10 <? length (prices ++ [price]))%nat eqn:Hcmp.
  - destruct prices as [| p rest].
    + vm_compute in Hcmp. discriminate.
    + cbn [app tail]. apply last_snoc.
  - apply last_snoc.
Qed.

(** X6: the first price update of a coin creates its record and returns:
    afterwards the record counts one observation, its running mean is
    that price, the position is in cash with no entry, stop-loss or
    take-profit price, the active strategy is one of the five, and the
    price is the last element of the coin's buffer. *)
Theorem update_price_mean_first_observation
    (self : AutonomousStrategy) (coin : string) (price : Q) :
  strategies self !! coin = None ->
  exists strat self' prices',
    update_price_mean coin price self = (Ret tt, self') /\
    strat ∈ available_strategies /\
    strategies self' !! coin =
      Some {| no := 1; price_mean := price; position_status := CASH;
              buy_price := None; stop_loss_price := None; take_profit_price := None;
              active_strategy := strat |} /\
    price_data self' !! coin = Some prices' /\
    last prices' = Some price /\
    is_Some (strategy_performance self' !! coin).
Proof.
  intros Hnone.
  destruct (get_strategy_state_first_contents self coin Hnone)
    as (strat & s1 & Hget & Hin & Hs1 & Hbuf & _ & Hperf & _).
  destruct (update_price_data_appends s1 coin price _ Hbuf)
    as (s2 & prices' & Hupd & Hbuf2 & Hlast & Hs2 & Hperf2).
  assert (Hr2 : strategies s2 !! coin = Some (fresh_state strat))
    by (rewrite Hs2, Hs1; apply lookup_insert_eq).
  exists strat. unfold update_price_mean, update_price_mean_via.
  rewrite (bind_ret_step _ _ _ _ _ Hget), (bind_ret_step _ _ _ _ _ Hupd).
  rewrite (bind_ret_step _ _ _ _ _ (getitem_known _ _ _ _ Hr2)).
  cbn [fresh_state price_mean Qeq_bool].
  change (Qeq_bool 0 0) with true. cbn match.
  rewrite (bind_ret_step _ _ _ _ _ (setitem_known _ _ _ _ Hr2)).
  set (s3 := set_strategies _ s2).
  assert (Hr3 : strategies s3 !! coin = Some (set_price_mean price (fresh_state strat)))
    by (subst s3; cbn [strategies set_strategies]; apply lookup_insert_eq).
  rewrite (bind_ret_step _ _ _ _ _ (getitem_known _ _ _ _ Hr3)).
  rewrite (setitem_known _ _ _ _ Hr3).
  do 2 eexists. split; [reflexivity |]. subst s3.
  cbn [strategies price_data strategy_performance set_strategies].
  rewrite lookup_insert_eq.
  repeat split; [exact Hin | exact Hbuf2 | exact Hlast | by rewrite Hperf2].
Qed.

Lemma update_price_mean_first_observation_witness :
  exists strat self' prices',
    update_price_mean "ETH" 2000 btc_in_cash = (Ret tt, self') /\
    strat ∈ available_strategies /\
    strategies self' !! "ETH"%string =
      Some {| no := 1; price_mean := 2000; position_status := CASH;
              buy_price := None; stop_loss_price := None; take_profit_price := None;
              active_strategy := strat |} /\
    price_data self' !! "ETH"%string = Some prices' /\
    last prices' = Some 2000 /\
    is_Some (strategy_performance self' !! "ETH"%string).
Proof.
  apply (update_price_mean_first_observation btc_in_cash "ETH" 2000).
  reflexivity.
Defined.

(** ** Risk levels around the entry price *)

Lemma risk_levels_in_range (np_std : list Q -> Q) (prices : list Q) :
  0.01 <= fst (risk_levels np_std prices) /\
  fst (risk_levels np_std prices) <= 0.05 /\
  2.5 * fst (risk_levels np_std prices) <= snd (risk_levels np_std prices).
Proof.
  unfold risk_levels.
  destruct (length prices <? 10)%nat.
  - repeat split; vm_compute; congruence.
  - cbn [fst snd]. set (v := if (0 <? _)%nat then _ else _).
    repeat split.
    + destruct (py_min_cases (py_max (1.5 * v) 0.01) 0.05) as [[_ ->] | [_ ->]].
      * vm_compute; congruence.
      * apply py_max_lower_r.
    + apply py_min_upper_r.
    + apply py_max_lower_l.
Qed.

(** X7: called for a coin that has no record yet, with a positive entry
    price, [set_risk_levels] creates the record and returns with the
    entry price stored, the stop-loss price between 95% and 99% of it and
    the take-profit price at least 2.5% above it; the position status
    stays CASH. *)
Theorem set_risk_levels_brackets_entry
    (np_std : list Q -> Q) (self : AutonomousStrategy) (coin : string) (entry_price : Q) :
  strategies self !! coin = None ->
  0 < entry_price ->
  exists self' r stop target,
    set_risk_levels np_std coin entry_price self = (Ret tt, self') /\
    strategies self' !! coin = Some r /\
    position_status r = CASH /\
    buy_price r = Some entry_price /\
    stop_loss_price r = Some stop /\
    0.95 * entry_price <= stop /\ stop <= 0.99 * entry_price /\
    take_profit_price r = Some target /\
    1.025 * entry_price <= target.
Proof.
  intros Hnone Hpos.
  destruct (get_strategy_state_first_contents self coin Hnone)
    as (strat & s1 & Hget & _ & Hs1 & _).
  assert (Hr1 : strategies s1 !! coin = Some (fresh_state strat))
    by (rewrite Hs1; apply lookup_insert_eq).
  unfold set_risk_levels, set_risk_levels_via.
  rewrite (bind_ret_step _ _ _ _ _ Hget).
  unfold calculate_risk_levels.
  rewrite (bind_ret_step _ _ _ _ _ (gets_step _ _)).
  set (levels := risk_levels np_std _).
  destruct (risk_levels_in_range np_std (default [] (price_data s1 !! coin)))
    as (Hlo & Hhi & Htp).
  fold levels in Hlo, Hhi, Htp.
  rewrite (bind_ret_step _ _ _ _ _ (setitem_known _ _ _ _ Hr1)).
  set (s2 := set_strategies _ s1).
  assert (Hr2 : strategies s2 !! coin = Some (set_buy_price (Some entry_price) (fresh_state strat)))
    by (subst s2; cbn [strategies set_strategies]; apply lookup_insert_eq).
  rewrite (bind_ret_step _ _ _ _ _ (setitem_known _ _ _ _ Hr2)).
  set (s3 := set_strategies _ s2).
  assert (Hr3 : strategies s3 !! coin =
                Some (set_stop_loss_price (Some (entry_price * (1 - fst levels)))
                        (set_buy_price (Some entry_price) (fresh_state strat))))
    by (subst s3; cbn [strategies set_strategies]; apply lookup_insert_eq).
  rewrite (setitem_known _ _ _ _ Hr3).
  do 4 eexists. split; [reflexivity |].
  cbn [strategies set_strategies]. rewrite lookup_insert_eq.
  split; [reflexivity |].
  cbn [position_status buy_price stop_loss_price take_profit_price
       set_take_profit_price set_stop_loss_price set_buy_price fresh_state].
  repeat split; nra.
Qed.

Lemma set_risk_levels_brackets_entry_witness :
  exists self' r stop target,
    set_risk_levels sample_std "ETH" 2000 btc_in_cash = (Ret tt, self') /\
    strategies self' !! "ETH"%string = Some r /\
    position_status r = CASH /\
    buy_price r = Some 2000 /\
    stop_loss_price r = Some stop /\
    0.95 * 2000 <= stop /\ stop <= 0.99 * 2000 /\
    take_profit_price r = Some target /\
    1.025 * 2000 <= target.
Proof.
  apply (set_risk_levels_brackets_entry sample_std btc_in_cash "ETH" 2000).
  - reflexivity.
  - reflexivity.
Defined.

(** ** Indicators unavailable *)

(** X8: when [calculate_indicators] had too little data and the
    indicators are [None], the MACD, RSI, Bollinger and combined
    strategies all return HOLD; for a coin that has a record they leave
    the object exactly as it was. *)
Theorem indicator_strategies_hold_without_indicators
    (np_std : list Q -> Q) (self : AutonomousStrategy) (coin : string) (price : Q) :
  Forall (fun result : outcome Signal * AutonomousStrategy =>
            fst result = Ret HOLD /\
            (is_Some (strategies self !! coin) -> snd result = self))
    [macd_crossover_strategy np_std coin price None self;
     rsi_strategy np_std coin price None self;
     bollinger_bands_strategy np_std coin price None self;
     combined_strategy np_std coin price None self].
Proof.
  destruct (get_strategy_state_returns self coin) as (state & s1 & Hget & _).
  assert (Hsame : is_Some (strategies self !! coin) -> s1 = self).
  { intros Hk. rewrite (get_strategy_state_known _ _ Hk) in Hget. by inversion Hget. }
  unfold macd_crossover_strategy, macd_crossover_strategy_via,
    rsi_strategy, rsi_strategy_via,
    bollinger_bands_strategy, bollinger_bands_strategy_via,
    combined_strategy, combined_strategy_via.
  rewrite !(bind_ret_step _ _ _ _ _ Hget).
  repeat (apply List.Forall_cons; [split; [reflexivity | exact Hsame] |]).
  apply List.Forall_nil.
Qed.

(** ** Choosing the best strategy *)

Lemma argmax_from_first_maximum (best : string) (best_v : Q) (d : list (string * Q)) :
  (argmax_from best best_v d = best /\ Forall (fun kv => snd kv <= best_v) d)
  \/ exists before k v after,
       d = before ++ (k, v) :: after /\ argmax_from best best_v d = k /\
       best_v < v /\
       Forall (fun kv => snd kv < v) before /\
       Forall (fun kv => snd kv <= v) after.
Proof.
  revert best best_v. induction d as [| [k v] rest IH]; intros best best_v.
  - left. split; [done | constructor].
  - cbn [argmax_from]. destruct (Qgtb v best_v) eqn:Hcmp.
    + apply Qltb_lt in Hcmp. right.
      destruct (IH k v) as [[Hk Hall] | (before & k' & v' & after & -> & Hk' & Hlt & Hb & Ha)].
      * exists [], k, v, rest. repeat split; [done | done | constructor | done].
      * exists ((k, v) :: before), k', v', after.
        repeat split; [done | lra | | done].
        constructor; [done | ].
        eapply Forall_impl; [exact Hb |]. intros kv Hkv. simpl in *. lra.
    + apply Qltb_ge in Hcmp.
      destruct (IH best best_v)
        as [[Hk Hall] | (before & k' & v' & after & -> & Hk' & Hlt & Hb & Ha)].
      * left. split; [done |]. by constructor.
      * right. exists ((k, v) :: before), k', v', after.
        repeat split; [done | done | | done].
        constructor; [simpl; lra | done].
Qed.

(** X9: [max(d, key=d.get)] on a non-empty dictionary returns a key
    whose value is maximal, and the first such key in dictionary order:
    every earlier value is strictly smaller, every later one at most
    equal.  On an empty dictionary it raises [ValueError]. *)
Theorem py_argmax_first_maximum (d : list (string * Q)) :
  match py_argmax d with
  | Ret k =>
      exists before v after,
        d = before ++ (k, v) :: after /\
        Forall (fun kv => snd kv < v) before /\
        Forall (fun kv => snd kv <= v) after
  | Raise e => d = [] /\ e = ValueError
  end.
Proof.
  destruct d as [| [k v] rest]; cbn [py_argmax]; [done |].
  destruct (argmax_from_first_maximum k v rest)
    as [[-> Hall] | (before & k' & v' & after & -> & -> & Hlt & Hb & Ha)].
  - exists [], v, rest. repeat split; [constructor | done].
  - exists ((k, v) :: before), v', after. repeat split; [| done].
    constructor; [done | done].
Qed.

Lemma normalize_scores_values (perf : list (string * Q)) (counts : option (list (string * Z)))
    (normalized : list (string * Q)) :
  normalize_scores perf counts = Ret normalized ->
  Forall2 (fun raw avg =>
             fst avg = fst raw /\
             exists n, counts ≫= alist_get (fst raw) = Some n /\
                       snd avg = snd raw / inject_Z (if (n =? 0)%Z then 1 else n))
          perf normalized.
Proof.
  revert normalized. induction perf as [| [strat p] rest IH]; intros normalized Hn.
  - simpl in Hn. inversion Hn. constructor.
  - cbn [normalize_scores] in Hn.
    destruct (counts ≫= alist_get strat) as [n |] eqn:Hc; [| discriminate].
    destruct (normalize_scores rest counts) as [tl | e]; [| discriminate].
    inversion Hn; subst. constructor; [| by apply IH].
    split; [done |]. exists n. by split.
Qed.

(** X10: when the exploitation branch of [select_best_strategy] returns a
    strategy, no strategy of the coin has a higher average score
    (performance divided by trade count, a zero count read as one), and
    the object is unchanged. *)
Theorem best_by_average_is_maximal
    (self : AutonomousStrategy) (coin best : string) (self' : AutonomousStrategy) :
  best_by_average coin self = (Ret best, self') ->
  self' = self /\
  exists perf normalized best_avg,
    strategy_performance self !! coin = Some perf /\
    Forall2 (fun raw avg =>
               fst avg = fst raw /\
               exists n, strategy_trade_count self !! coin ≫= alist_get (fst raw) = Some n /\
                         snd avg = snd raw / inject_Z (if (n =? 0)%Z then 1 else n))
            perf normalized /\
    (best, best_avg) ∈ normalized /\
    Forall (fun avg => snd avg <= best_avg) normalized.
Proof.
  unfold best_by_average. intros Hbest.
  destruct (strategy_performance self !! coin) as [perf |]; [| discriminate].
  destruct (normalize_scores perf _) as [normalized | e] eqn:Hn; [| discriminate].
  pose proof (py_argmax_first_maximum normalized) as Hmax.
  pose proof (normalize_scores_values _ _ _ Hn) as Hvalues.
  destruct (py_argmax normalized) as [k | e]; [| discriminate].
  inversion Hbest; subst. split; [done |].
  destruct Hmax as (before & v & after & -> & Hb & Ha).
  exists perf, (before ++ (best, v) :: after), v.
  repeat split; [done | |].
  - apply elem_of_app. right. constructor.
  - apply Forall_app. split.
    + eapply Forall_impl; [exact Hb |]. intros kv Hkv. simpl in *. lra.
    + constructor; [simpl; lra | done].
Qed.

Lemma best_by_average_is_maximal_witness :
  btc_in_cash = btc_in_cash /\
  exists perf normalized best_avg,
    strategy_performance btc_in_cash !! "BTC"%string = Some perf /\
    Forall2 (fun raw avg =>
               fst avg = fst raw /\
               exists n, strategy_trade_count btc_in_cash !! "BTC"%string
                           ≫= alist_get (fst raw) = Some n /\
                         snd avg = snd raw / inject_Z (if (n =? 0)%Z then 1 else n))
            perf normalized /\
    ("mean_reversion"%string, best_avg) ∈ normalized /\
    Forall (fun avg => snd avg <= best_avg) normalized.
Proof.
  apply (best_by_average_is_maximal btc_in_cash "BTC" "mean_reversion" btc_in_cash).
  vm_compute. reflexivity.
Defined.

(** ** Updating strategy scores *)

Lemma alist_get_set_eq {V} (k : string) (v : V) (d : list (string * V)) :
  is_Some (alist_get k d) -> alist_get k (alist_set k v d) = Some v.
Proof.
  induction d as [| [k' v'] d IH]; intros [x Hx]; simpl in *; [discriminate |].
  destruct (String.eqb k k') eqn:Hk; simpl; rewrite Hk; [done |].
  apply IH. eauto.
Qed.

Lemma alist_get_set_ne {V} (k k' : string) (v : V) (d : list (string * V)) :
  k' <> k -> alist_get k' (alist_set k v d) = alist_get k' d.
Proof.
  intros Hne. induction d as [| [k0 v0] d IH]; simpl.
  - assert (Hf : String.eqb k' k = false) by (by apply String.eqb_neq).
    by rewrite Hf.
  - destruct (String.eqb k k0) eqn:Hk; simpl.
    + apply String.eqb_eq in Hk. subst k0.
      assert (Hf : String.eqb k' k = false) by (by apply String.eqb_neq).
      by rewrite Hf.
    + destruct (String.eqb k' k0); [done | exact IH].
Qed.

(** X11: a rewarded update (BUY, worth 0.1, or SELL with a non-zero
    profit) of a strategy that has a score and a count adds the reward to
    that strategy's score and then decays every score of the coin: the
    rewarded score becomes (old + reward) * 0.99, every other score
    old * 0.99; the trade count of the rewarded strategy goes up by one
    and the other counts and the asset records stay as they are. *)
Theorem rewarded_update_adds_then_decays
    (self : AutonomousStrategy) (coin strategy : string) (signal : Signal)
    (profit_pct reward old : Q) (n : Z) :
  (signal = BUY /\ reward = 0.1) \/
  (signal = SELL /\ reward = profit_pct /\ ~ profit_pct == 0) ->
  score_of self coin strategy = Some old ->
  count_of self coin strategy = Some n ->
  exists self',
    update_strategy_performance coin strategy signal profit_pct self = (Ret tt, self') /\
    score_of self' coin strategy = Some ((old + reward) * decay_factor) /\
    (forall other y, other <> strategy -> score_of self coin other = Some y ->
                     score_of self' coin other = Some (y * decay_factor)) /\
    count_of self' coin strategy = Some (n + 1)%Z /\
    (forall other, other <> strategy -> count_of self' coin other = count_of self coin other) /\
    strategies self' = strategies self.
Proof.
  intros Hsig Hold Hn.
  unfold score_of in Hold. unfold count_of in Hn.
  destruct (strategy_performance self !! coin) as [d |] eqn:Hd; [| discriminate].
  destruct (strategy_trade_count self !! coin) as [c |] eqn:Hc; [| discriminate].
  simpl in Hold, Hn.
  assert (Hupd : update_strategy_performance coin strategy signal profit_pct self =
    (Ret tt,
     set_strategy_performance
       (<[coin := decay_scores (alist_set strategy (old + reward) d)]>)
       (set_strategy_trade_count (<[coin := alist_set strategy (n + 1)%Z c]>)
          (set_strategy_performance (<[coin := alist_set strategy (old + reward) d]>) self)))).
  { unfold update_strategy_performance.
    assert (Hstep : (performance_add coin strategy reward ;; trade_count_incr coin strategy)
                      self =
      (Ret tt,
       set_strategy_trade_count (<[coin := alist_set strategy (n + 1)%Z c]>)
         (set_strategy_performance (<[coin := alist_set strategy (old + reward) d]>) self))).
    { unfold bind, performance_add, trade_count_incr. rewrite Hd, Hold.
      cbn [strategy_trade_count set_strategy_performance]. by rewrite Hc, Hn. }
    destruct Hsig as [[-> ->] | (-> & -> & Hnz)].
    - rewrite (bind_ret_step _ _ _ _ _ Hstep).
      unfold apply_decay.
      cbn [strategy_performance set_strategy_trade_count set_strategy_performance].
      rewrite lookup_insert_eq. reflexivity.
    - assert (Ht : truthy profit_pct = true).
      { unfold truthy. apply negb_true_iff, not_true_iff_false.
        rewrite Qeq_bool_iff. exact Hnz. }
      rewrite Ht, (bind_ret_step _ _ _ _ _ Hstep).
      unfold apply_decay.
      cbn [strategy_performance set_strategy_trade_count set_strategy_performance].
      rewrite lookup_insert_eq. reflexivity. }
  eexists. split; [exact Hupd |].
  unfold score_of, count_of.
  cbn [strategy_performance strategy_trade_count strategies
       set_strategy_performance set_strategy_trade_count].
  rewrite !lookup_insert_eq. cbn [mbind option_bind].
  repeat split.
  - rewrite alist_get_decay_scores, alist_get_set_eq by eauto. reflexivity.
  - intros other y Hne Hy. rewrite Hd in Hy. simpl in Hy.
    rewrite alist_get_decay_scores, alist_get_set_ne, Hy by done. reflexivity.
  - apply alist_get_set_eq. eauto.
  - intros other Hne. rewrite Hc. simpl. by apply alist_get_set_ne.
Qed.

Lemma rewarded_update_adds_then_decays_witness :
  exists self',
    update_strategy_performance "BTC" "combined" BUY 0 btc_in_cash = (Ret tt, self') /\
    score_of self' "BTC" "combined" = Some ((0.1 + 0.1) * decay_factor) /\
    (forall other y, other <> "combined"%string ->
                     score_of btc_in_cash "BTC" other = Some y ->
                     score_of self' "BTC" other = Some (y * decay_factor)) /\
    count_of self' "BTC" "combined" = Some (1 + 1)%Z /\
    (forall other, other <> "combined"%string ->
                   count_of self' "BTC" other = count_of btc_in_cash "BTC" other) /\
    strategies self' = strategies btc_in_cash.
Proof.
  apply (rewarded_update_adds_then_decays btc_in_cash "BTC" "combined" BUY 0 0.1 0.1 1).
  - left. split; reflexivity.
  - reflexivity.
  - reflexivity.
Defined.

(** X12: for a coin without scores, [update_strategy_performance]
    raises [KeyError] whatever the signal, and so does a BUY update of a
    strategy name the coin's scores do not have; the object is unchanged. *)
Theorem update_strategy_performance_missing_key
    (self : AutonomousStrategy) (coin strategy : string) (signal : Signal) (profit_pct : Q) :
  strategy_performance self !! coin = None \/
  (signal = BUY /\ score_of self coin strategy = None) ->
  update_strategy_performance coin strategy signal profit_pct self = (Raise KeyError, self).
Proof.
  intros [Hnone | [-> Hmissing]].
  - unfold update_strategy_performance, bind, performance_add, apply_decay, ret.
    destruct signal; [| destruct (truthy profit_pct) |]; by rewrite ?Hnone.
  - unfold score_of in Hmissing.
    unfold update_strategy_performance, bind, performance_add.
    destruct (strategy_performance self !! coin) as [d |]; [| done].
    simpl in Hmissing. by rewrite Hmissing.
Qed.

Lemma update_strategy_performance_missing_key_witness :
  update_strategy_performance "ETH" "combined" HOLD 0 btc_in_cash
    = (Raise KeyError, btc_in_cash).
Proof.
  apply (update_strategy_performance_missing_key btc_in_cash "ETH" "combined" HOLD 0).
  left. reflexivity.
Defined.









(** ** The ledger: stepping through [simulate_trade] *)

Lemma simulate_trade_sized
    (self : SimulationBot) (coin pair : string) (signal : Signal)
    (price score total qty : Q) (prices : gmap string Q) :
  sized_quantity self price score total prices = Ret qty ->
  simulate_trade coin pair signal price score total prices self =
    (if signal_eqb signal BUY
        && Qgeb (cash self) (qty * price * (1 + BUYING_COMMISSION))
     then
       if (MAX_OPEN_TRADES <=? open_trades (holdings self))%nat then ret tt
       else if Qle_bool (position_value (holdings self) prices + qty * price)
                        (portfolio_value self prices * MAX_PORTFOLIO_RISK)
            then buy_branch coin pair price qty
            else ret tt
     else
       if signal_eqb signal SELL && Qgeb (get_or_zero (holdings self) coin) qty
       then sell_branch coin pair price
       else ret tt)
      (after_sizing self coin price prices).
Proof.
  unfold sized_quantity. intros Hqty.
  unfold simulate_trade, bind, update_portfolio_value, get_open_trades_count, gets,
    lift_outcome, emit, modify, after_sizing.
  cbn [holdings set_portfolio_values set_holdings set_entry_prices cash fst snd].
  rewrite Hqty.
  cbn [holdings set_portfolio_values set_holdings set_entry_prices cash fst snd].
  destruct (signal_eqb signal BUY && _).
  - cbn [holdings fst snd]. rewrite open_trades_setdefault.
    destruct (MAX_OPEN_TRADES <=? _)%nat; reflexivity.
  - cbn [holdings fst snd]. rewrite get_or_zero_setdefault. reflexivity.
Qed.

Lemma simulate_trade_not_sized
    (self : SimulationBot) (coin pair : string) (signal : Signal)
    (price score total : Q) (prices : gmap string Q) (e : exn) :
  sized_quantity self price score total prices = Raise e ->
  simulate_trade coin pair signal price score total prices self =
    (Raise e,
     set_portfolio_values (portfolio_values self ++ [portfolio_value self prices]) self).
Proof.
  unfold sized_quantity. intros Hqty.
  unfold simulate_trade, bind, update_portfolio_value, gets, lift_outcome.
  cbn [holdings set_portfolio_values fst snd]. by rewrite Hqty.
Qed.

Lemma sized_quantity_cases (self : SimulationBot) (price score total : Q)
    (prices : gmap string Q) :
  (price == 0 /\ sized_quantity self price score total prices = Raise ZeroDivisionError)
  \/ (~ price == 0 /\
      exists qty, sized_quantity self price score total prices = Ret qty /\ 0.001 <= qty).
Proof.
  unfold sized_quantity, calculate_trade_amount.
  destruct (Qeq_bool price 0) eqn:Hz.
  - left. split; [by apply Qeq_bool_iff | done].
  - right. split.
    + intros Heq. apply Qeq_bool_iff in Heq. congruence.
    + eexists. split; [reflexivity |]. apply py_max_lower_l.
Qed.

(** X14: with a zero price the position sizing divides by zero:
    [simulate_trade] raises [ZeroDivisionError] whatever the signal,
    after appending the valuation to the risk manager's series and before
    touching cash, holdings, entry queues or the logs. *)
Theorem simulate_trade_zero_price
    (self : SimulationBot) (coin pair : string) (signal : Signal)
    (price score total : Q) (prices : gmap string Q) :
  price == 0 ->
  simulate_trade coin pair signal price score total prices self =
    (Raise ZeroDivisionError,
     set_portfolio_values (portfolio_values self ++ [portfolio_value self prices]) self).
Proof.
  intros Hz. apply simulate_trade_not_sized.
  destruct (sized_quantity_cases self price score total prices) as [[_ H] | [Hnz _]];
    [exact H | contradiction].
Qed.

Lemma simulate_trade_zero_price_witness :
  simulate_trade "BTC" "BTC/USD" BUY 0 1 1 ∅ scenario_start =
    (Raise ZeroDivisionError,
     set_portfolio_values
       (portfolio_values scenario_start ++ [portfolio_value scenario_start ∅])
       scenario_start).
Proof.
  apply (simulate_trade_zero_price scenario_start "BTC" "BTC/USD" BUY 0 1 1 ∅).
  reflexivity.
Defined.

(** The ledger after the SELL branch, however the branch ends: the whole
    holding is gone, the net proceeds are in cash, the trade is counted
    and the oldest entry price is consumed. *)
Lemma sell_branch_ledger (coin pair : string) (price : Q) (s : SimulationBot) :
  let held := get_or_zero (holdings s) coin in
  let result := sell_branch coin pair price s in
  holdings (snd result) = <[coin := 0]> (holdings s) /\
  cash (snd result) = cash s + (held * price - held * price * SELLING_COMMISSION) /\
  trade_count (snd result) = (trade_count s + 1)%Z /\
  entry_prices (snd result) =
    match queue_of s coin with
    | [] => entry_prices s
    | _ :: rest => <[coin := rest]> (entry_prices s)
    end /\
  profitable_trades (snd result) =
    match queue_of s coin with
    | [] => profitable_trades s
    | entry_price :: _ =>
        if Qgtb (held * price - held * price * SELLING_COMMISSION
                 - held * entry_price * (1 + BUYING_COMMISSION)) 0
        then (profitable_trades s + 1)%Z else profitable_trades s
    end.
Proof.
  intros held result. subst held result.
  split; [apply sell_branch_holdings |].
  unfold sell_branch, queue_of, bind, gets, modify, emit, lift_strategy, ret.
  cbn [fst snd holdings cash trade_count entry_prices profitable_trades strategy
       set_holdings set_cash set_trade_count set_entry_prices set_profitable_trades
       set_strategy].
  destruct (default [] (entry_prices s !! coin)) as [| entry_price rest].
  - cbn [fst snd holdings cash trade_count entry_prices profitable_trades]. done.
  - cbn [fst snd holdings cash trade_count entry_prices profitable_trades strategy
         set_holdings set_cash set_trade_count set_entry_prices set_profitable_trades
         set_strategy].
    match goal with |- context [Qgtb ?p 0] => destruct (Qgtb p 0) end.
    all: cbn [fst snd holdings cash trade_count entry_prices profitable_trades strategy
              set_holdings set_cash set_trade_count set_entry_prices
              set_profitable_trades set_strategy].
    all: destruct (get_strategy_state coin (strategy s)) as [[state | e1] st1];
      cbn [fst snd holdings cash trade_count entry_prices profitable_trades strategy
           set_holdings set_cash set_trade_count set_entry_prices
           set_profitable_trades set_strategy]; [| done].
    all: destruct (getitem state active_strategy st1) as [[active | e2] st2];
      cbn [fst snd holdings cash trade_count entry_prices profitable_trades strategy
           set_holdings set_cash set_trade_count set_entry_prices
           set_profitable_trades set_strategy]; [| done].
    all: destruct (update_strategy_performance coin active SELL _ st2) as [[[] | e3] st3];
      cbn [fst snd holdings cash trade_count entry_prices profitable_trades strategy
           set_holdings set_cash set_trade_count set_entry_prices
           set_profitable_trades set_strategy]; done.
Qed.

(** ** The ledger: executed and rejected trades *)

Lemma Qgeb_true (a b : Q) : b <= a -> Qgeb a b = true.
Proof. intros Hle. unfold Qgeb. by apply Qle_bool_iff. Qed.

Lemma get_or_zero_insert (h : gmap string Q) (coin c : string) (v : Q) :
  get_or_zero (<[coin := v]> h) c = if decide (c = coin) then v else get_or_zero h c.
Proof.
  unfold get_or_zero. destruct (decide (c = coin)) as [-> | Hne].
  - by rewrite lookup_insert_eq.
  - by rewrite lookup_insert_ne.
Qed.

Lemma logged_trades_after_sizing (self : SimulationBot) (coin : string) (price : Q)
    (prices : gmap string Q) :
  logged_trades (after_sizing self coin price prices) = logged_trades self.
Proof.
  unfold logged_trades, after_sizing. cbn [effects].
  rewrite omap_app. cbn. by rewrite app_nil_r.
Qed.

(** X15: a BUY that passes the three guards (enough cash for the cost
    with commission, fewer than [MAX_OPEN_TRADES] open positions, total
    position value within the risk cap) returns normally; cash goes down
    by quantity * price plus the 0.1% commission, the holding goes up by
    the quantity, the price joins the end of the coin's entry queue, one
    BUY trade is logged, and the trade counters and the strategy object
    are untouched. *)
Theorem executed_buy_updates_ledger
    (self : SimulationBot) (coin pair : string) (price score total qty : Q)
    (prices : gmap string Q) :
  sized_quantity self price score total prices = Ret qty ->
  qty * price * (1 + BUYING_COMMISSION) <= cash self ->
  (open_trades (holdings self) < MAX_OPEN_TRADES)%nat ->
  position_value (holdings self) prices + qty * price
    <= portfolio_value self prices * MAX_PORTFOLIO_RISK ->
  exists self' trade,
    simulate_trade coin pair BUY price score total prices self = (Ret tt, self') /\
    cash self' = cash self - (qty * price + qty * price * BUYING_COMMISSION) /\
    get_or_zero (holdings self') coin = get_or_zero (holdings self) coin + qty /\
    (forall c, c <> coin -> get_or_zero (holdings self') c = get_or_zero (holdings self) c) /\
    queue_of self' coin = queue_of self coin ++ [price] /\
    (forall c, c <> coin -> queue_of self' c = queue_of self c) /\
    logged_trades self' = logged_trades self ++ [trade] /\
    action trade = BUY /\ amount trade = qty /\ trade_price trade = price /\
    cash_balance trade = cash self' /\
    trade_count self' = trade_count self /\
    profitable_trades self' = profitable_trades self /\
    strategy self' = strategy self.
Proof.
  intros Hqty Hcash Hopen Hrisk.
  rewrite (simulate_trade_sized _ _ _ _ _ _ _ _ _ Hqty).
  cbn [signal_eqb andb]. rewrite (Qgeb_true _ _ Hcash).
  assert (Hleb : (MAX_OPEN_TRADES <=? open_trades (holdings self))%nat = false)
    by (apply Nat.leb_gt; lia).
  rewrite Hleb. apply Qle_bool_iff in Hrisk. rewrite Hrisk.
  unfold buy_branch, bind, modify, gets, emit.
  cbn [fst snd holdings cash entry_prices effects set_holdings set_cash set_entry_prices].
  eexists.
  exists {| action := BUY; trade_coin := coin; trade_pair := pair; trade_price := price;
            amount := qty; gross := qty * price;
            commission := qty * price * BUYING_COMMISSION;
            net := qty * price + qty * price * BUYING_COMMISSION;
            cash_balance := cash self - (qty * price + qty * price * BUYING_COMMISSION);
            profit_pct := None |}.
  split; [reflexivity |].
  unfold queue_of, logged_trades.
  cbn [cash holdings entry_prices effects trade_count profitable_trades strategy
       set_holdings set_cash set_entry_prices
       after_sizing action amount trade_price cash_balance].
  repeat split; try reflexivity.
  - by rewrite get_or_zero_insert, decide_True, get_or_zero_setdefault.
  - intros c Hc. by rewrite get_or_zero_insert, decide_False, get_or_zero_setdefault.
  - by rewrite lookup_insert_eq, queue_setdefault.
  - intros c Hc. by rewrite lookup_insert_ne, queue_setdefault.
  - rewrite !omap_app. cbn [omap]. by rewrite !app_nil_r.
Qed.

Lemma executed_buy_updates_ledger_witness :
  exists self' trade,
    simulate_trade "BTC" "BTC/USD" BUY 100 1 1 ∅ scenario_start = (Ret tt, self') /\
    cash self' = cash scenario_start - (5.0000 * 100 + 5.0000 * 100 * BUYING_COMMISSION) /\
    get_or_zero (holdings self') "BTC" = get_or_zero (holdings scenario_start) "BTC" + 5.0000 /\
    (forall c, c <> "BTC"%string ->
               get_or_zero (holdings self') c = get_or_zero (holdings scenario_start) c) /\
    queue_of self' "BTC" = queue_of scenario_start "BTC" ++ [100] /\
    (forall c, c <> "BTC"%string -> queue_of self' c = queue_of scenario_start c) /\
    logged_trades self' = logged_trades scenario_start ++ [trade] /\
    action trade = BUY /\ amount trade = 5.0000 /\ trade_price trade = 100 /\
    cash_balance trade = cash self' /\
    trade_count self' = trade_count scenario_start /\
    profitable_trades self' = profitable_trades scenario_start /\
    strategy self' = strategy scenario_start.
Proof.
  apply (executed_buy_updates_ledger scenario_start "BTC" "BTC/USD" 100 1 1 5.0000 ∅).
  - vm_compute. reflexivity.
  - vm_compute. congruence.
  - vm_compute. lia.
  - vm_compute. congruence.
Defined.

(** X16: a BUY that cannot be paid for, or that would take the total
    position value above [MAX_PORTFOLIO_RISK] of the portfolio value, is
    dropped without an exception: cash, every held quantity, every entry
    queue, the counters, the strategy object and the trade log are as
    before. *)
Theorem unaffordable_or_risky_buy_is_rejected
    (self : SimulationBot) (coin pair : string) (price score total qty : Q)
    (prices : gmap string Q) :
  sized_quantity self price score total prices = Ret qty ->
  cash self < qty * price * (1 + BUYING_COMMISSION) \/
  portfolio_value self prices * MAX_PORTFOLIO_RISK
    < position_value (holdings self) prices + qty * price ->
  let result := simulate_trade coin pair BUY price score total prices self in
  fst result = Ret tt /\
  cash (snd result) = cash self /\
  (forall c, get_or_zero (holdings (snd result)) c = get_or_zero (holdings self) c) /\
  (forall c, queue_of (snd result) c = queue_of self c) /\
  trade_count (snd result) = trade_count self /\
  profitable_trades (snd result) = profitable_trades self /\
  strategy (snd result) = strategy self /\
  logged_trades (snd result) = logged_trades self.
Proof.
  intros Hqty Hguard result. subst result.
  rewrite (simulate_trade_sized _ _ _ _ _ _ _ _ _ Hqty).
  assert (Hdone : forall o,
    o = (Ret tt, after_sizing self coin price prices) ->
    fst o = Ret tt /\
    cash (snd o) = cash self /\
    (forall c, get_or_zero (holdings (snd o)) c = get_or_zero (holdings self) c) /\
    (forall c, queue_of (snd o) c = queue_of self c) /\
    trade_count (snd o) = trade_count self /\
    profitable_trades (snd o) = profitable_trades self /\
    strategy (snd o) = strategy self /\
    logged_trades (snd o) = logged_trades self).
  { intros o ->. cbn [fst snd]. rewrite logged_trades_after_sizing.
    unfold queue_of. cbn [after_sizing cash holdings entry_prices trade_count
                          profitable_trades strategy].
    repeat split.
    - intros c. apply get_or_zero_setdefault.
    - intros c. apply queue_setdefault. }
  apply Hdone. cbn [signal_eqb andb].
  destruct Hguard as [Hcash | Hrisk].
  - by rewrite (Qgeb_false _ _ Hcash).
  - destruct (Qgeb _ _); [| reflexivity].
    destruct (MAX_OPEN_TRADES <=? _)%nat; [reflexivity |].
    assert (Hno : Qle_bool (position_value (holdings self) prices + qty * price)
                           (portfolio_value self prices * MAX_PORTFOLIO_RISK) = false).
    { apply not_true_iff_false. rewrite Qle_bool_iff. by apply Qlt_not_le. }
    by rewrite Hno.
Qed.

Lemma unaffordable_or_risky_buy_is_rejected_witness :
  let result := simulate_trade "BTC" "BTC/USD" BUY 100000 1 1 ∅
                               (new_bot (new_strategy 20 sample_random) 50) in
  fst result = Ret tt /\
  cash (snd result) = 50 /\
  (forall c, get_or_zero (holdings (snd result)) c = 0) /\
  (forall c, queue_of (snd result) c = []) /\
  trade_count (snd result) = 0%Z /\
  profitable_trades (snd result) = 0%Z /\
  strategy (snd result) = new_strategy 20 sample_random /\
  logged_trades (snd result) = [].
Proof.
  apply (unaffordable_or_risky_buy_is_rejected
           (new_bot (new_strategy 20 sample_random) 50) "BTC" "BTC/USD" 100000 1 1 0.001 ∅).
  - vm_compute. reflexivity.
  - left. vm_compute. reflexivity.
Defined.

(** What the SELL branch logs: one SELL trade for the whole holding when
    it returns, nothing when it raises. *)
Lemma sell_branch_logged (coin pair : string) (price : Q) (s : SimulationBot) :
  let held := get_or_zero (holdings s) coin in
  let net_proceeds := held * price - held * price * SELLING_COMMISSION in
  let result := sell_branch coin pair price s in
  match fst result with
  | Ret _ =>
      exists trade,
        logged_trades (snd result) = logged_trades s ++ [trade] /\
        action trade = SELL /\ amount trade = held /\ trade_price trade = price /\
        gross trade = held * price /\
        commission trade = held * price * SELLING_COMMISSION /\
        net trade = net_proceeds /\
        cash_balance trade = cash s + net_proceeds /\
        profit_pct trade =
          match queue_of s coin with
          | [] => None
          | entry_price :: _ =>
              let buy_cost := held * entry_price * (1 + BUYING_COMMISSION) in
              Some (if truthy buy_cost then (net_proceeds / buy_cost - 1) * 100 else 0)
          end
  | Raise _ =>
      logged_trades (snd result) = logged_trades s /\ queue_of s coin <> []
  end.
Proof.
  intros held net_proceeds result. subst held net_proceeds result.
  unfold sell_branch, queue_of, logged_trades, bind, gets, emit, modify, lift_strategy, ret.
  cbn [fst snd holdings cash trade_count entry_prices profitable_trades strategy effects
       set_holdings set_cash set_trade_count set_entry_prices set_profitable_trades
       set_strategy].
  destruct (default [] (entry_prices s !! coin)) as [| entry_price rest].
  - cbn [fst snd effects cash]. eexists. split.
    + rewrite !omap_app. cbn [omap]. by rewrite !app_nil_r.
    + repeat split.
  - cbn [fst snd holdings cash trade_count entry_prices profitable_trades strategy effects
         set_holdings set_cash set_trade_count set_entry_prices set_profitable_trades
         set_strategy].
    match goal with |- context [Qgtb ?p 0] => destruct (Qgtb p 0) end.
    all: cbn [fst snd holdings cash trade_count entry_prices profitable_trades strategy
              effects set_holdings set_cash set_trade_count set_entry_prices
              set_profitable_trades set_strategy].
    all: destruct (get_strategy_state coin (strategy s)) as [[state | e1] st1];
      cbn [fst snd holdings cash trade_count entry_prices profitable_trades strategy
           effects set_holdings set_cash set_trade_count set_entry_prices
           set_profitable_trades set_strategy]; [| done].
    all: destruct (getitem state active_strategy st1) as [[active | e2] st2];
      cbn [fst snd holdings cash trade_count entry_prices profitable_trades strategy
           effects set_holdings set_cash set_trade_count set_entry_prices
           set_profitable_trades set_strategy]; [| done].
    all: destruct (update_strategy_performance coin active SELL _ st2) as [[[] | e3] st3];
      cbn [fst snd holdings cash trade_count entry_prices profitable_trades strategy
           effects set_holdings set_cash set_trade_count set_entry_prices
           set_profitable_trades set_strategy]; [| done].
    all: eexists; split;
      [ rewrite !omap_app; cbn [omap]; by rewrite !app_nil_r | repeat split ].
Qed.

(** X17: a SELL whose computed quantity is covered by the holding sells
    the whole holding, not the computed quantity: however the call ends,
    the holding is zero, cash has grown by holding * price less the 0.1%
    commission, the trade count is one higher and the oldest entry price
    has left the coin's queue; other coins are untouched.  If the call
    returns, exactly one SELL trade for the whole holding is logged; if
    it raises, none is. *)
Theorem accepted_sell_liquidates_holding
    (self : SimulationBot) (coin pair : string) (price score total qty : Q)
    (prices : gmap string Q) :
  sized_quantity self price score total prices = Ret qty ->
  qty <= get_or_zero (holdings self) coin ->
  let held := get_or_zero (holdings self) coin in
  let result := simulate_trade coin pair SELL price score total prices self in
  get_or_zero (holdings (snd result)) coin = 0 /\
  (forall c, c <> coin ->
             get_or_zero (holdings (snd result)) c = get_or_zero (holdings self) c) /\
  cash (snd result) = cash self + (held * price - held * price * SELLING_COMMISSION) /\
  trade_count (snd result) = (trade_count self + 1)%Z /\
  queue_of (snd result) coin = tail (queue_of self coin) /\
  (forall c, c <> coin -> queue_of (snd result) c = queue_of self c) /\
  match fst result with
  | Ret _ =>
      exists trade,
        logged_trades (snd result) = logged_trades self ++ [trade] /\
        action trade = SELL /\ amount trade = held /\ trade_price trade = price
  | Raise _ => logged_trades (snd result) = logged_trades self
  end.
Proof.
  intros Hqty Hheld held result. subst held result.
  rewrite (simulate_trade_sized _ _ _ _ _ _ _ _ _ Hqty).
  cbn [signal_eqb andb]. rewrite (Qgeb_true _ _ Hheld).
  set (s0 := after_sizing self coin price prices).
  destruct (sell_branch_ledger coin pair price s0) as (Hh & Hc & Ht & He & _).
  pose proof (sell_branch_logged coin pair price s0) as Hlog.
  cbv zeta in Hlog.
  assert (Hheld0 : get_or_zero (holdings s0) coin = get_or_zero (holdings self) coin)
    by (subst s0; cbn [after_sizing holdings]; apply get_or_zero_setdefault).
  assert (Hq0 : forall c, queue_of s0 c = queue_of self c)
    by (intros c; subst s0; unfold queue_of; cbn [after_sizing entry_prices];
        apply queue_setdefault).
  rewrite Hheld0 in *.
  assert (Hl0 : logged_trades s0 = logged_trades self)
    by (subst s0; apply logged_trades_after_sizing).
  rewrite Hl0 in Hlog.
  repeat split.
  - rewrite Hh, get_or_zero_insert. by rewrite decide_True.
  - intros c Hne. rewrite Hh, get_or_zero_insert, decide_False by done.
    subst s0. cbn [after_sizing holdings]. apply get_or_zero_setdefault.
  - rewrite Hc. by subst s0.
  - rewrite Ht. by subst s0.
  - unfold queue_of at 1. rewrite He, <- (Hq0 coin).
    destruct (queue_of s0 coin) as [| entry rest] eqn:Hq; [done |].
    by rewrite lookup_insert_eq.
  - intros c Hne. unfold queue_of at 1. rewrite He, <- (Hq0 c).
    destruct (queue_of s0 coin) as [| entry rest]; [done |].
    by rewrite lookup_insert_ne.
  - destruct (fst (sell_branch coin pair price s0)).
    + destruct Hlog as (trade & Hlogged & Ha & Hm & Hp & _). eauto.
    + apply Hlog.
Qed.

Lemma accepted_sell_liquidates_holding_witness :
  let self := snd scenario_buy in
  let held := get_or_zero (holdings self) "BTC" in
  let result :=
    simulate_trade "BTC" "BTC/USD" SELL 110 1 1 {[ "BTC"%string := 110 ]} self in
  get_or_zero (holdings (snd result)) "BTC" = 0 /\
  (forall c, c <> "BTC"%string ->
             get_or_zero (holdings (snd result)) c = get_or_zero (holdings self) c) /\
  cash (snd result) = cash self + (held * 110 - held * 110 * SELLING_COMMISSION) /\
  trade_count (snd result) = (trade_count self + 1)%Z /\
  queue_of (snd result) "BTC" = tail (queue_of self "BTC") /\
  (forall c, c <> "BTC"%string -> queue_of (snd result) c = queue_of self c) /\
  match fst result with
  | Ret _ =>
      exists trade,
        logged_trades (snd result) = logged_trades self ++ [trade] /\
        action trade = SELL /\ amount trade = held /\ trade_price trade = 110
  | Raise _ => logged_trades (snd result) = logged_trades self
  end.
Proof.
  apply (accepted_sell_liquidates_holding (snd scenario_buy) "BTC" "BTC/USD" 110 1 1
           4.5679 {[ "BTC"%string := 110 ]}).
  - vm_compute. reflexivity.
  - vm_compute. congruence.
Defined.

Lemma sized_quantity_at_least_minimum (self : SimulationBot) (price score total qty : Q)
    (prices : gmap string Q) :
  sized_quantity self price score total prices = Ret qty -> 0.001 <= qty.
Proof.
  intros Hqty.
  destruct (sized_quantity_cases self price score total prices)
    as [[_ Hr] | [_ (q & Hq & Hmin)]]; congruence.
Qed.

(** X18: selling at or below the entry price is never booked as a gain:
    with a positive oldest entry price and a sale price not above it, the
    count of profitable trades stays as it is, and the profit percentage
    of the logged trade, when the call returns, is negative (the two
    commissions). *)
Theorem sell_at_or_below_entry_is_a_loss
    (self : SimulationBot) (coin pair : string) (price score total qty entry : Q)
    (rest : list Q) (prices : gmap string Q) :
  sized_quantity self price score total prices = Ret qty ->
  qty <= get_or_zero (holdings self) coin ->
  queue_of self coin = entry :: rest ->
  0 < entry ->
  price <= entry ->
  let result := simulate_trade coin pair SELL price score total prices self in
  profitable_trades (snd result) = profitable_trades self /\
  (fst result = Ret tt ->
   exists trade pct,
     logged_trades (snd result) = logged_trades self ++ [trade] /\
     profit_pct trade = Some pct /\ pct < 0).
Proof.
  intros Hqty Hheld Hqueue Hentry Hprice result. subst result.
  pose proof (sized_quantity_at_least_minimum _ _ _ _ _ _ Hqty) as Hmin.
  rewrite (simulate_trade_sized _ _ _ _ _ _ _ _ _ Hqty).
  cbn [signal_eqb andb]. rewrite (Qgeb_true _ _ Hheld).
  set (s0 := after_sizing self coin price prices).
  destruct (sell_branch_ledger coin pair price s0) as (_ & _ & _ & _ & Hp).
  pose proof (sell_branch_logged coin pair price s0) as Hlog.
  cbv zeta in Hlog.
  assert (Hheld0 : get_or_zero (holdings s0) coin = get_or_zero (holdings self) coin)
    by (subst s0; cbn [after_sizing holdings]; apply get_or_zero_setdefault).
  assert (Hq0 : queue_of s0 coin = entry :: rest).
  { rewrite <- Hqueue. subst s0. unfold queue_of. cbn [after_sizing entry_prices].
    apply queue_setdefault. }
  assert (Hl0 : logged_trades s0 = logged_trades self)
    by (subst s0; apply logged_trades_after_sizing).
  rewrite Hheld0, Hq0 in *. rewrite Hl0 in Hlog.
  set (held := get_or_zero (holdings self) coin) in *.
  assert (Hpos : 0 < held) by (unfold Qlt, Qle in *; simpl in *; lia).
  assert (Hcost : 0 < held * entry * (1 + BUYING_COMMISSION)).
  { unfold BUYING_COMMISSION. nra. }
  assert (Hloss : held * price - held * price * SELLING_COMMISSION
                  < held * entry * (1 + BUYING_COMMISSION)).
  { unfold BUYING_COMMISSION, SELLING_COMMISSION. nra. }
  split.
  - rewrite Hp.
    assert (Hno : Qgtb (held * price - held * price * SELLING_COMMISSION
                        - held * entry * (1 + BUYING_COMMISSION)) 0 = false).
    { apply Qltb_ge. lra. }
    rewrite Hno. by subst s0.
  - intros Hret. rewrite Hret in Hlog.
    destruct Hlog as (trade & Hlogged & _ & _ & _ & _ & _ & _ & _ & Hpct).
    eexists trade, _. split; [exact Hlogged |]. split; [exact Hpct |].
    assert (Ht : truthy (held * entry * (1 + BUYING_COMMISSION)) = true).
    { unfold truthy. apply negb_true_iff, not_true_iff_false.
      rewrite Qeq_bool_iff. lra. }
    rewrite Ht.
    assert (Hdiv : (held * price - held * price * SELLING_COMMISSION)
                   / (held * entry * (1 + BUYING_COMMISSION)) < 1).
    { apply Qlt_shift_div_r; [exact Hcost | lra]. }
    lra.
Qed.

Lemma sell_at_or_below_entry_is_a_loss_witness :
  let self := snd scenario_buy in
  let result :=
    simulate_trade "BTC" "BTC/USD" SELL 100 1 1 {[ "BTC"%string := 100 ]} self in
  profitable_trades (snd result) = profitable_trades self /\
  (fst result = Ret tt ->
   exists trade pct,
     logged_trades (snd result) = logged_trades self ++ [trade] /\
     profit_pct trade = Some pct /\ pct < 0).
Proof.
  apply (sell_at_or_below_entry_is_a_loss (snd scenario_buy) "BTC" "BTC/USD" 100 1 1
           4.9997 100 [] {[ "BTC"%string := 100 ]}).
  - vm_compute. reflexivity.
  - vm_compute. congruence.
  - vm_compute. reflexivity.
  - reflexivity.
  - vm_compute. congruence.
Defined.

(** ** The ledger: solvency *)

Lemma buy_branch_cash (coin pair : string) (price qty : Q) (s : SimulationBot) :
  cash (snd (buy_branch coin pair price qty s))
    = cash s - (qty * price + qty * price * BUYING_COMMISSION).
Proof. reflexivity. Qed.

Lemma solvent_after_sizing (self : SimulationBot) (coin : string) (price : Q)
    (prices : gmap string Q) :
  solvent self -> solvent (after_sizing self coin price prices).
Proof.
  intros [Hcash Hheld]. split; [exact Hcash |].
  intros c. cbn [after_sizing holdings]. rewrite get_or_zero_setdefault. apply Hheld.
Qed.

Lemma simulate_trade_solvent
    (self : SimulationBot) (coin pair : string) (signal : Signal)
    (price score total : Q) (prices : gmap string Q) :
  0 <= price ->
  solvent self ->
  solvent (snd (simulate_trade coin pair signal price score total prices self)).
Proof.
  intros Hprice Hsolvent.
  destruct (sized_quantity_cases self price score total prices)
    as [[_ Hraise] | [_ (qty & Hqty & Hmin)]].
  - rewrite (simulate_trade_not_sized _ _ _ _ _ _ _ _ _ Hraise). exact Hsolvent.
  - rewrite (simulate_trade_sized _ _ _ _ _ _ _ _ _ Hqty).
    pose proof (solvent_after_sizing self coin price prices Hsolvent) as H0.
    set (s0 := after_sizing self coin price prices) in *.
    assert (Hcash0 : cash s0 = cash self) by done.
    destruct (signal_eqb signal BUY && _) eqn:Hbuy.
    + destruct (MAX_OPEN_TRADES <=? _)%nat; [exact H0 |].
      destruct (Qle_bool _ _); [| exact H0].
      apply andb_true_iff in Hbuy. destruct Hbuy as [_ Hpay].
      unfold Qgeb in Hpay. apply Qle_bool_iff in Hpay.
      destruct H0 as [Hc0 Hh0]. split.
      * rewrite buy_branch_cash, Hcash0. unfold BUYING_COMMISSION in *. lra.
      * intros c. rewrite buy_branch_holdings, get_or_zero_insert.
        destruct (decide (c = coin)) as [-> | Hne]; [| apply Hh0].
        specialize (Hh0 coin). lra.
    + destruct (signal_eqb signal SELL && _); [| exact H0].
      destruct (sell_branch_ledger coin pair price s0) as (Hh & Hc & _).
      destruct H0 as [Hc0 Hh0]. split.
      * rewrite Hc. specialize (Hh0 coin). unfold SELLING_COMMISSION. nra.
      * intros c. rewrite Hh, get_or_zero_insert.
        destruct (decide (c = coin)); [lra | apply Hh0].
Qed.

(** X19: the pre-trade checks keep the ledger solvent: from a bot with a
    non-negative cash balance and no negative holding, after every
    attempt of every sequence of [simulate_trade] calls at non-negative
    prices (whatever the signals, and whether or not a call raises) the
    cash balance and every held quantity are still non-negative. *)
Theorem ledger_stays_solvent (attempts : list Attempt) (self : SimulationBot) :
  Forall (fun a => 0 <= at_price a) attempts ->
  solvent self ->
  Forall solvent (ledger_trace attempts self).
Proof.
  intros Hprices. revert self.
  induction Hprices as [| a rest Hprice _ IH]; intros self Hsolvent; simpl.
  - constructor.
  - assert (Hstep : solvent (attempt a self)).
    { unfold attempt. by apply simulate_trade_solvent. }
    constructor; [exact Hstep | by apply IH].
Qed.

Lemma ledger_stays_solvent_witness :
  Forall solvent
    (ledger_trace
       [ {| at_coin := "BTC"; at_pair := "BTC/USD"; at_signal := BUY; at_price := 100;
            at_score := 1; at_total_score := 1; at_prices := ∅ |};
         {| at_coin := "BTC"; at_pair := "BTC/USD"; at_signal := SELL; at_price := 110;
            at_score := 1; at_total_score := 1;
            at_prices := {[ "BTC"%string := 110 ]} |} ]
       scenario_start).
Proof.
  apply ledger_stays_solvent.
  - repeat constructor; vm_compute; congruence.
  - split; [vm_compute; congruence |].
    intros c. unfold get_or_zero. cbn [scenario_start new_bot holdings].
    rewrite lookup_empty. simpl. lra.
Defined.

(** ** The ledger: valuation *)





(** ** Coin scoring *)

Section ScoringProperties.

Variable np_std : list Q -> Q.
Variable read_price_history : string -> list Q.
Variable read_trade_history : string -> list (option Q).
Variable fetch_historical_data : string -> option (list Q).
Variables local_metrics fetched_metrics : list Q -> Q * Q * Q.

Let score_of_coin :=
  calculate_coin_score np_std read_price_history read_trade_history
                       fetch_historical_data local_metrics fetched_metrics.



(** X22: for a pair that the ticker table maps, and a coin that the
    selector's own [price_history] attribute does not list, the subscript
    [self.price_history[coin]] in [calculate_historical_metrics] raises
    [KeyError]: [calculate_coin_score] returns no score and records none. *)
Theorem calculate_coin_score_mapped_pair_raises
    (self : CoinSelector) (coin pair ticker : string) :
  ticker_mapping self !! pair = Some ticker ->
  nonempty_string ticker = true ->
  nonempty_string coin = true ->
  price_history self !! coin = None ->
  score_of_coin coin pair self = (Raise KeyError, self).
Proof.
  intros Hmap Hticker Hcoin Hnone.
  unfold score_of_coin, calculate_coin_score.
  rewrite (bind_ret_step _ _ _ _ _ (gets_step _ _)), Hmap.
  destruct ticker as [| a ticker]; [discriminate |].
  apply bind_raise_step, bind_raise_step.
  unfold calculate_historical_metrics. by rewrite Hcoin, Hnone.
Qed.

(** X23: for a pair the ticker table does not map and a coin with fewer
    than ten recorded prices and no recorded trade, the score is the sum
    of the three fallback constants, 0.1 + 0.2 + 0.1 = 0.4, whatever the
    standard deviation of the few prices is. *)
Theorem calculate_coin_score_without_history
    (self : CoinSelector) (coin pair : string) :
  ticker_mapping self !! pair = None ->
  (length (read_price_history coin) < 10)%nat ->
  read_trade_history coin = [] ->
  exists score self',
    score_of_coin coin pair self = (Ret score, self') /\ score == 0.4.
Proof.
  intros Hmap Hprices Htrades.
  unfold score_of_coin, calculate_coin_score.
  rewrite (bind_ret_step _ _ _ _ _ (gets_step _ _)), Hmap.
  unfold volatility_term, trade_term. rewrite Htrades.
  assert (Hshort : (10 <=? length (read_price_history coin))%nat = false)
    by (apply Nat.leb_gt; lia).
  rewrite Hshort, andb_false_r.
  do 2 eexists. split; [reflexivity |].
  vm_compute. reflexivity.
Qed.

End ScoringProperties.

Lemma calculate_coin_score_mapped_pair_raises_witness :
  calculate_coin_score sample_std (fun _ => []) (fun _ => []) (fun _ => None)
                       (fun _ => (0, 0, 0)) (fun _ => (0, 0, 0))
                       "BTC" "BTC/USD" new_coin_selector
  = (Raise KeyError, new_coin_selector).
Proof.
  apply (calculate_coin_score_mapped_pair_raises sample_std (fun _ => []) (fun _ => [])
           (fun _ => None) (fun _ => (0, 0, 0)) (fun _ => (0, 0, 0))
           new_coin_selector "BTC" "BTC/USD" "BTC-USD").
  - vm_compute. reflexivity.
  - reflexivity.
  - reflexivity.
  - reflexivity.
Defined.

Lemma calculate_coin_score_without_history_witness :
  exists score self',
    calculate_coin_score sample_std (fun _ => [100; 101; 99; 102; 98]) (fun _ => [])
                         (fun _ => None) (fun _ => (0, 0, 0)) (fun _ => (0, 0, 0))
                         "NEW" "NEW/USD" new_coin_selector
    = (Ret score, self') /\ score == 0.4.
Proof.
  apply (calculate_coin_score_without_history sample_std
           (fun _ => [100; 101; 99; 102; 98]) (fun _ => [])
           (fun _ => None) (fun _ => (0, 0, 0)) (fun _ => (0, 0, 0))
           new_coin_selector "NEW" "NEW/USD").
  - vm_compute. reflexivity.
  - simpl. lia.
  - reflexivity.
Defined.

(** ** Coin selection *)

Lemma insert_by_score_Permutation (x : string * string * Q)
    (sorted : list (string * string * Q)) :
  insert_by_score x sorted ≡ₚ x :: sorted.
Proof.
  induction sorted as [| y rest IH]; simpl; [done |].
  destruct (Qgtb (snd y) (snd x)); [| done].
  rewrite IH. apply Permutation_swap.
Qed.

Lemma sort_by_score_Permutation (l : list (string * string * Q)) :
  sort_by_score l ≡ₚ l.
Proof.
  induction l as [| x l IH]; simpl; [done |].
  unfold sort_by_score in *. simpl.
  by rewrite insert_by_score_Permutation, IH.
Qed.

Lemma insert_by_score_head (x : string * string * Q) (sorted : list (string * string * Q)) :
  head_is_best sorted -> head_is_best (insert_by_score x sorted).
Proof.
  destruct sorted as [| y rest]; simpl; [constructor |].
  intros Hbest. destruct (Qgtb (snd y) (snd x)) eqn:Hcmp; simpl.
  - apply Qltb_lt in Hcmp.
    rewrite insert_by_score_Permutation. constructor; [lra | done].
  - apply Qltb_ge in Hcmp. constructor; [done |].
    eapply Forall_impl; [exact Hbest |]. intros c Hc. simpl in Hc. lra.
Qed.

Lemma sort_by_score_head (l : list (string * string * Q)) : head_is_best (sort_by_score l).
Proof.
  induction l as [| x l IH]; simpl; [done |].
  by apply insert_by_score_head.
Qed.

(** X24: the selection at the end of [select_coins] never comes back
    empty-handed when there are candidates.  Every selected coin is one
    of the candidates; either all selected coins score at least
    max([MIN_PROFIT_SCORE], dynamic threshold) and every candidate that
    does is selected, or no candidate reaches that bar and the single
    coin selected has the highest score of all. *)
Theorem select_from_scores_never_empty
    (dynamic_threshold : Q) (coin_scores : list (string * string * Q)) :
  coin_scores <> [] ->
  let bar := py_max MIN_PROFIT_SCORE dynamic_threshold in
  let selected := select_from_scores dynamic_threshold coin_scores in
  selected <> [] /\
  (forall cp, cp ∈ selected -> exists score, (cp, score) ∈ coin_scores) /\
  ((forall cp, cp ∈ selected <-> exists score, (cp, score) ∈ coin_scores /\ bar <= score)
   \/ (Forall (fun c => snd c < bar) coin_scores /\
       exists top, selected = [fst top] /\ top ∈ coin_scores /\
                   Forall (fun c => snd c <= snd top) coin_scores)).
Proof.
  intros Hne bar selected. subst selected. unfold select_from_scores. fold bar.
  pose proof (sort_by_score_Permutation coin_scores) as Hperm.
  pose proof (sort_by_score_head coin_scores) as Hhead.
  set (sorted := sort_by_score coin_scores) in *.
  assert (Hmem : forall c, c ∈ sorted <-> c ∈ coin_scores)
    by (intros c; by rewrite Hperm).
  assert (Hfilter : forall cp,
    cp ∈ map fst (List.filter (fun c => Qgeb (snd c) bar) sorted) <->
    exists score, (cp, score) ∈ coin_scores /\ bar <= score).
  { intros cp. rewrite list_elem_of_In, in_map_iff. split.
    - intros ([cp' score] & <- & Hin). apply filter_In in Hin. destruct Hin as [Hin Hge].
      exists score. split.
      + apply Hmem. by apply list_elem_of_In.
      + unfold Qgeb in Hge. by apply Qle_bool_iff in Hge.
    - intros (score & Hin & Hge). exists (cp, score). split; [done |].
      apply filter_In. split.
      + apply list_elem_of_In. by apply Hmem.
      + unfold Qgeb. by apply Qle_bool_iff. }
  destruct (map fst (List.filter (fun c => Qgeb (snd c) bar) sorted))
    as [| first others] eqn:Hsel.
  - destruct sorted as [| top rest] eqn:Hsorted.
    { exfalso. apply Hne. apply Permutation_nil. by symmetry. }
    assert (Hall : Forall (fun c => snd c <= snd top) coin_scores).
    { rewrite <- Hperm. constructor; [lra | exact Hhead]. }
    assert (Hbelow : Forall (fun c => snd c < bar) coin_scores).
    { apply Forall_forall. intros [cp score] Hin. simpl.
      destruct (Qlt_le_dec score bar) as [Hlt | Hge]; [done |].
      exfalso. assert (Hin' : cp ∈ @nil (string * string)).
      { apply Hfilter. eauto. }
      by apply not_elem_of_nil in Hin'. }
    split; [done |]. split.
    + intros cp Hin. apply list_elem_of_singleton in Hin. subst cp.
      exists (snd top). destruct top as [cp score]. simpl.
      apply Hmem. constructor.
    + right. split; [exact Hbelow |].
      exists top. split; [done |]. split; [apply Hmem; constructor | exact Hall].
  - split; [done |]. split.
    + intros cp Hin. apply Hfilter in Hin. destruct Hin as (score & Hin & _). eauto.
    + left. exact Hfilter.
Qed.

Lemma select_from_scores_never_empty_witness :
  select_from_scores 12 [("BTC", "BTC/USD", 3); ("ETH", "ETH/USD", 7)]%string <> [].
Proof.
  apply (select_from_scores_never_empty 12
           [("BTC", "BTC/USD", 3); ("ETH", "ETH/USD", 7)]%string).
  discriminate.
Defined.

(** ** What the strategy object of the source never does *)

(** X25: no strategy method of the source ever returns BUY or SELL,
    whatever the object, the coin, the price and the indicators: each
    call ends in HOLD or in a [TypeError]. *)
Theorem source_strategies_never_signal_a_trade
    (np_std : list Q -> Q) (self : AutonomousStrategy) (coin : string) (price : Q)
    (indicators : option Indicators) :
  Forall (fun result : outcome Signal * AutonomousStrategy =>
            fst result <> Ret BUY /\ fst result <> Ret SELL /\
            (fst result = Ret HOLD \/ fst result = Raise TypeError))
    [mean_reversion_strategy np_std coin price indicators self;
     macd_crossover_strategy np_std coin price indicators self;
     rsi_strategy np_std coin price indicators self;
     bollinger_bands_strategy np_std coin price indicators self;
     combined_strategy np_std coin price indicators self].
Proof.
  eapply Forall_impl; [apply source_strategies_hold_or_raise |].
  intros result [-> | ->]; repeat split; auto; discriminate.
Qed.

(** X26: [generate_signal] of the source never returns a signal: every
    call raises, and for a coin that already has a record it does so in
    [select_best_strategy], with every strategy score as it was. *)
Theorem generate_signal_never_returns
    (np_std : list Q -> Q) (talib_last : list Q -> Indicators)
    (self : AutonomousStrategy) (coin : string) (price : Q) :
  let result := generate_signal np_std talib_last coin price self in
  (exists e, fst result = Raise e) /\
  (is_Some (strategies self !! coin) ->
   strategy_performance (snd result) = strategy_performance self /\
   strategy_trade_count (snd result) = strategy_trade_count self /\
   status_of (snd result) coin = status_of self coin).
Proof.
  intros result. subst result.
  destruct (source_generate_signal_raises np_std talib_last self coin price)
    as (e & self' & Hraise & Hperf).
  split; [exists e; by rewrite Hraise |].
  intros Hknown.
  unfold generate_signal, generate_signal_via, evaluate_strategies_via.
  clear Hraise Hperf e self'.
  assert (Hcalc : exists o, calculate_indicators talib_last coin self = (o, self)).
  { unfold calculate_indicators. destruct (price_data self !! coin); [| eauto].
    destruct (_ <? _)%nat; eauto. }
  destruct Hcalc as [[ind | e] Hcalc].
  - assert (Hselect : exists e' s',
              select_best_strategy coin self = (Raise e', s') /\
              strategy_performance s' = strategy_performance self /\
              strategy_trade_count s' = strategy_trade_count self /\
              strategies s' = strategies self).
    { unfold select_best_strategy, select_best_strategy_via.
      rewrite (bind_ret_step _ _ _ _ _ (get_strategy_state_known _ _ Hknown)).
      unfold bind at 1, random_random.
      match goal with |- context [bind ?c ?k (advance_random self)] =>
        assert (Hkeep : strategy_performance (snd (c (advance_random self)))
                          = strategy_performance self /\
                        strategy_trade_count (snd (c (advance_random self)))
                          = strategy_trade_count self /\
                        strategies (snd (c (advance_random self))) = strategies self);
        [| destruct (c (advance_random self)) as [[best | e'] s2] eqn:Hbest] end.
      - destruct (Qltb _ _).
        + destruct (random_choice_available (advance_random self)) as [strat ->]. done.
        + by rewrite best_by_average_state.
      - exists TypeError, s2. by rewrite (bind_ret_step _ _ _ _ _ Hbest).
      - exists e', s2. by rewrite (bind_raise_step _ _ _ _ _ Hbest). }
    destruct Hselect as (e' & s' & Hsel & Hp & Hc & Hs).
    unfold select_best_strategy in Hsel.
    erewrite (bind_raise_step _ _ self s' e').
    + unfold status_of. cbn [snd]. by rewrite Hp, Hc, Hs.
    + rewrite (bind_ret_step _ _ _ _ _ (get_strategy_state_known _ _ Hknown)).
      rewrite (bind_ret_step _ _ _ _ _ Hcalc).
      by apply bind_raise_step.
  - erewrite (bind_raise_step _ _ self self e); [done |].
    rewrite (bind_ret_step _ _ _ _ _ (get_strategy_state_known _ _ Hknown)).
    by apply bind_raise_step.
Qed.

(** X27: the step of the polling loop for one coin (price update, signal
    generation, trade on BUY or SELL) always ends in an exception before
    [simulate_trade] is reached: cash, holdings, entry queues, counters,
    the valuation series and the outgoing calls are exactly as before,
    whatever the price, the score and the state of the bot. *)
Theorem polling_step_never_trades
    (np_std : list Q -> Q) (talib_last : list Q -> Indicators)
    (self : SimulationBot) (coin pair : string) (price score total_score : Q)
    (prices : gmap string Q) :
  exists e st,
    trade_on_signal np_std talib_last coin pair price score total_score prices self
      = (Raise e, set_strategy st self).
Proof.
  unfold trade_on_signal.
  unfold bind at 1, lift_strategy at 1.
  destruct (update_price_mean coin price (strategy self)) as [[[] | e] st1]; cbn [fst snd].
  - destruct (source_generate_signal_raises np_std talib_last st1 coin price)
      as (e & st2 & Hraise & _).
    exists e, st2. unfold bind, lift_strategy.
    cbn [strategy set_strategy]. rewrite Hraise. reflexivity.
  - by exists e, st1.
Qed.
